(** * MedAIScout: the four-level classification pipeline of [Tool/Model.py]

  A shallow embedding of [Analyser.level_1] .. [Analyser.level_4], of the
  helpers of [Tool/Helper_functions.py] and of the parts of
  [Tool/Browsing.py] and [Tool/LLM.py] they call, with the properties of
  the pipeline proved over it.

  Conventions of the embedding.
  - A Python [str] is a Rocq [string]; its characters stand for code points
    below 256.  On that range Python's notion of whitespace ([str.strip],
    the regex class [\s]) and of case ([(?i)] on ASCII letters) are the
    ones written out in [PyStr].
  - A confidence score is a finite binary64 float.  The code only compares
    scores, never computes with them, so a score is embedded as the
    rational number it denotes ([Q]) and compared with [Qcompare].  A NaN
    cannot reach the pipeline: it fails the [> 1e-2] test of
    [Model.analyse_pages].
  - A call that may raise returns an [outcome]; the [try]/[except] blocks of
    the source are the matches on it.
  - The collaborators (question-answering model, LLM, paper search, page
    fetch) are variables of the sections that use them, functions of their
    arguments.  The web validator of level 2 also takes the number of the
    call, so that its outcomes form an arbitrary sequence.
  - The mutable attributes of an [Analyser] object are a record that every
    level takes and returns. *)

From Stdlib Require Import List String Ascii Bool Arith ZArith QArith Lia Lqa.
From Stdlib Require Import Permutation Sorted.
Import ListNotations.

Local Open Scope string_scope.
Local Open Scope list_scope.
Local Open Scope nat_scope.

(** ** Calls that may raise *)

Inductive outcome (A : Type) : Type :=
| Raises : outcome A
| Returns : A -> outcome A.

Arguments Raises {A}.
Arguments Returns {A} _.

(** ** Python string operations *)

Module PyStr.

(** [str.isspace] on one code point below 256: TAB..CR, FS..US, SPACE,
    NEL and NBSP. *)
Definition is_space (c : ascii) : bool :=
  let n := nat_of_ascii c in
  ((9 <=? n) && (n <=? 13)) || ((28 <=? n) && (n <=? 32))
  || (n =? 133) || (n =? 160).

(** Lower-casing of an ASCII letter; other code points are kept. *)
Definition lower (c : ascii) : ascii :=
  let n := nat_of_ascii c in
  if (65 <=? n) && (n <=? 90) then ascii_of_nat (n + 32) else c.

Fixpoint lstrip (s : string) : string :=
  match s with
  | EmptyString => EmptyString
  | String c s' => if is_space c then lstrip s' else s
  end.

Fixpoint rstrip (s : string) : string :=
  match s with
  | EmptyString => EmptyString
  | String c s' =>
      let r := rstrip s' in
      if is_space c && String.eqb r "" then "" else String c r
  end.

(** [s.strip()] *)
Definition strip (s : string) : string := rstrip (lstrip s).

(** [s.replace(old, new)] for one-character [old] and [new]. *)
Fixpoint replace_char (old new : ascii) (s : string) : string :=
  match s with
  | EmptyString => EmptyString
  | String c s' =>
      String (if Ascii.eqb c old then new else c) (replace_char old new s')
  end.

Definition newline : ascii := ascii_of_nat 10.

(** [needle in hay] on two strings: substring search. *)
Fixpoint str_in (needle hay : string) : bool :=
  String.prefix needle hay
  || match hay with
     | EmptyString => false
     | String _ hay' => str_in needle hay'
     end.

(** [sep.join(items)] *)
Fixpoint join (sep : string) (items : list string) : string :=
  match items with
  | [] => ""
  | [x] => x
  | x :: rest => x ++ sep ++ join sep rest
  end.

End PyStr.

(** ** The regular expressions of the source

  Every pattern of [Model.py] and [Browsing.py] is compiled with [(?i)] and
  is a sequence of literal characters and of [\s*]. *)

Module Re.

Inductive item : Type :=
| Lit (c : ascii)      (* a literal character, matched ignoring case *)
| WsStar.              (* \s* *)

Definition pattern := list item.

(** Does the pattern match a prefix of [s]?  [\s*] may take any number of
    whitespace characters; all of them are tried. *)
Fixpoint match_here (p : pattern) (s : string) {struct p} : bool :=
  match p with
  | [] => true
  | Lit c :: p' =>
      match s with
      | EmptyString => false
      | String a s' =>
          Ascii.eqb (PyStr.lower a) (PyStr.lower c) && match_here p' s'
      end
  | WsStar :: p' =>
      (fix star (s : string) : bool :=
         match_here p' s
         || match s with
            | EmptyString => false
            | String a s' => PyStr.is_space a && star s'
            end) s
  end.

(** [p.search(text)]: a match starting at some position of [text]. *)
Fixpoint search (p : pattern) (text : string) : bool :=
  match_here p text
  || match text with
     | EmptyString => false
     | String _ text' => search p text'
     end.

(** The literal characters of a string, as a pattern. *)
Fixpoint lits (s : string) : pattern :=
  match s with
  | EmptyString => []
  | String c s' => Lit c :: lits s'
  end.

End Re.

(** ** [Tool/settings.py] *)

Module settings.

Definition NUMBER_OF_PAPERS : nat := 5.
Definition NUMBER_OF_KEYWORDS : nat := 5.
Definition NO_SEARCH_RESULTS : nat := 2.

Definition QUESTION_1 : string := "What are the algorithms used?".
Definition QUESTION_2 : string := "What are the techniques used?".
Definition QUESTION_3 : string := "What are machine learning techniques used?".
Definition QUESTION_4 : string := "What is the input format to the device?".

End settings.

(** ** [Tool/Helper_functions.py] *)

Module Helper_functions.

(** The values held by the tuples of the pipeline: a float or a [str]. *)
Inductive value : Type :=
| VFloat (x : Q)
| VStr (s : string).

(** Python's [==] on two such values; a [str] never equals a float. *)
Definition value_eqb (a b : value) : bool :=
  match a, b with
  | VFloat x, VFloat y => Qeq_bool x y
  | VStr s, VStr t => String.eqb s t
  | _, _ => false
  end.

(** [element in i] where [i] is a tuple: membership among its fields. *)
Fixpoint tuple_contains (element : value) (i : list value) : bool :=
  match i with
  | [] => false
  | x :: i' => value_eqb x element || tuple_contains element i'
  end.

(** [check_presence(element, array)]: the rows of [array] are tuples. *)
Fixpoint check_presence (element : value) (array : list (list value)) : bool :=
  match array with
  | [] => false
  | i :: array' =>
      if tuple_contains element i then true else check_presence element array'
  end.

(** [regex_search(text, pattern)] *)
Fixpoint regex_search (text : string) (pattern : list Re.pattern) : bool :=
  match pattern with
  | [] => false
  | p :: pattern' =>
      if Re.search p text then true else regex_search text pattern'
  end.

End Helper_functions.

(** ** [Tool/Browsing.py] *)

Module Browsing.

(** What [self.driver.get(url)] followed by [self.driver.page_source] does. *)
Inductive driver_result : Type :=
| PageSource (source : string)
| TimeoutException
| WebDriverException
| OtherException.

(** The patterns of [check_desc]. *)
Definition relevance_pattern : list Re.pattern :=
  [ Re.lits "machine" ++ [Re.WsStar] ++ Re.lits "learning";
    Re.lits "artificial" ++ [Re.WsStar] ++ Re.lits "intelligence";
    Re.lits "deep" ++ [Re.WsStar] ++ Re.lits "learning";
    Re.lits "neural" ++ [Re.WsStar] ++ Re.lits "network";
    Re.lits "classification" ++ [Re.WsStar] ++ Re.lits "methods";
    Re.lits "classifier";
    Re.lits "computer" ++ [Re.WsStar] ++ Re.lits "vision" ].

Section Browser.

(** [check_link]: [requests.get] answered (and the status was not 404), a
    [RequestException] was caught ([Returns false]), or another exception
    escaped. *)
Variable check_link : string -> outcome bool.
Variable driver_get : string -> driver_result.
(** [googlesearch.search(query)]: the call may raise; so may every [next] on
    the generator it returns. *)
Variable google_search : string -> outcome (list (outcome string)).

(** [get_page(url)]; the string "None" is its failure sentinel. *)
Definition get_page (url : string) : outcome string :=
  match check_link url with
  | Raises => Raises
  | Returns false => Returns "None"
  | Returns true =>
      match driver_get url with
      | PageSource source => Returns source
      | TimeoutException => Returns "None"
      | WebDriverException => Returns "None"
      | OtherException => Raises
      end
  end.

Definition get_google_search_results (query : string)
  : outcome (list (outcome string)) :=
  google_search (PyStr.strip query).

(** The [for i in range(min(settings.NO_SEARCH_RESULTS, 3))] loop of
    [check_desc]: [Returns true] is the [return True] of a matching page,
    [Returns false] is leaving the loop with [result] still [False]. *)
Fixpoint check_desc_pages (n : nat) (search_results : list (outcome string))
  : outcome bool :=
  match n with
  | O => Returns false
  | S n' =>
      match search_results with
      | [] => Returns false
      | Raises :: _ => Raises
      | Returns page :: search_results' =>
          if PyStr.str_in "fda.gov" page || PyStr.str_in ".img" page
             || PyStr.str_in ".pdf" page
          then check_desc_pages n' search_results'
          else
            match get_page page with
            | Raises => Raises
            | Returns content =>
                if String.eqb content "None"
                then check_desc_pages n' search_results'
                else if Helper_functions.regex_search content relevance_pattern
                     then Returns true
                     else check_desc_pages n' search_results'
            end
      end
  end.

(** The body of the [try] block of [check_desc]. *)
Definition check_desc_try (query : string) : outcome bool :=
  match get_google_search_results query with
  | Raises => Raises
  | Returns search_results =>
      check_desc_pages (Nat.min settings.NO_SEARCH_RESULTS 3) search_results
  end.

(** [check_desc(query)]: the [except Exception] clause sets [result = True]. *)
Definition check_desc (query : string) : bool :=
  match check_desc_try query with
  | Raises => true
  | Returns result => result
  end.

End Browser.

End Browsing.

(** ** [Tool/LLM.py] *)

Module LLM.

(** [LLMResponse]; its [error] and [error_type] fields only feed the log and
    are left out. *)
Record LLMResponse (A : Type) : Type := mkLLMResponse {
  success : bool;
  data : option A
}.

Arguments mkLLMResponse {A} _ _.
Arguments success {A} _.
Arguments data {A} _.

Definition ok {A : Type} (d : A) : LLMResponse A := mkLLMResponse true (Some d).
Definition failed {A : Type} : LLMResponse A := mkLLMResponse false None.

Definition prompt_head : string :=
  "Following are some keywords extracted from a document. "
  ++ "Which of these are the most relevant to the context of AI-enabled medical devices? ".

Definition prompt_tail : string :=
  String PyStr.newline "Please list only the most relevant keywords, one per line.".

Section LLM.

(** [self.model_name.generate(prompt)]: raises, returns [None], or a reply. *)
Variable model_generate : string -> outcome (option string).
(** [self.__list_format(response)], which raises [ValueError] when it fails. *)
Variable __list_format : string -> outcome (list string).

Definition generate (prompt : string) : LLMResponse string :=
  if String.eqb prompt "" then failed
  else if String.length (PyStr.strip prompt) =? 0 then failed
  else
    match model_generate prompt with
    | Raises => failed
    | Returns None => failed
    | Returns (Some response) => ok response
    end.

Definition keyword_completion (keywords : list string)
  : LLMResponse (list string) :=
  match keywords with
  | [] => ok []
  | _ =>
      let valid_keywords :=
        filter (fun keyword => negb (String.eqb keyword ""))
               (map PyStr.strip keywords) in
      match valid_keywords with
      | [] => ok []
      | _ =>
          let prompt :=
            (prompt_head ++ PyStr.join ", " valid_keywords ++ prompt_tail)%string in
          let response_result := generate prompt in
          if negb (success response_result) then failed
          else
            match data response_result with
            | None => ok []
            | Some response =>
                match __list_format response with
                | Raises => failed
                | Returns formatted_keywords => ok formatted_keywords
                end
            end
      end
  end.

End LLM.

End LLM.

(** ** [Tool/Model.py]: class [Model] *)

Module Model.

(** A scored answer, the tuple [(score, ans_text)]. *)
Definition scored : Type := (Q * string)%type.

Definition to_tuple (a : scored) : list Helper_functions.value :=
  [Helper_functions.VFloat (fst a); Helper_functions.VStr (snd a)].

(** The dictionary returned by the question-answering pipeline. *)
Record qa_result : Type := mk_qa_result {
  score : Q;
  answer_text : string
}.

(** The float written [1e-2] in the source, exactly. *)
Definition CONF_FLOOR : Q := 5764607523034235 # 576460752303423488.

Definition Qltb (x y : Q) : bool :=
  match Qcompare x y with
  | Lt => true
  | _ => false
  end.

(** Python's comparison of two [(float, str)] tuples: the first fields that
    differ decide. *)
Definition tuple_compare (a b : scored) : comparison :=
  match Qcompare (fst a) (fst b) with
  | Eq => String.compare (snd a) (snd b)
  | c => c
  end.

Definition tuple_ltb (a b : scored) : bool :=
  match tuple_compare a b with
  | Lt => true
  | _ => false
  end.

(** [list.sort(reverse=True)].  Python's sort is stable, also when reversed:
    the list is sorted as if every comparison were reversed, and elements
    that compare equal keep their order.  A stable sort has one possible
    result, computed here by insertion: [x] goes before the first element
    smaller than it. *)
Fixpoint insert_desc (x : scored) (l : list scored) : list scored :=
  match l with
  | [] => [x]
  | y :: l' => if tuple_ltb y x then x :: l else y :: insert_desc x l'
  end.

Fixpoint sort_into (l sorted : list scored) : list scored :=
  match l with
  | [] => sorted
  | x :: l' => sort_into l' (insert_desc x sorted)
  end.

Definition sort_reverse (l : list scored) : list scored := sort_into l [].

Section Model.

(** [self.nlp({"question": q, "context": c})]: raises, returns a falsy
    result, or a dictionary with a score and an answer. *)
Variable nlp : string -> string -> outcome (option qa_result).

(** The [for input_paragraph in pages] loop of [analyse_pages]. *)
Fixpoint analyse_loop (question : string) (pages : list string)
  (answer : list scored) : list scored :=
  match pages with
  | [] => answer
  | input_paragraph :: pages' =>
      if String.eqb input_paragraph ""
         || String.eqb (PyStr.strip input_paragraph) ""
      then analyse_loop question pages' answer
      else
        match nlp question input_paragraph with
        | Raises => analyse_loop question pages' answer
        | Returns None => analyse_loop question pages' answer
        | Returns (Some res) =>
            if Qltb CONF_FLOOR (score res)
            then
              let ans_text :=
                PyStr.replace_char PyStr.newline " "%char
                  (PyStr.strip (answer_text res)) in
              analyse_loop question pages' (answer ++ [(score res, ans_text)])
            else analyse_loop question pages' answer
        end
  end.

Definition analyse_pages (pages : list string) (question : string)
  : list scored :=
  match pages with
  | [] => []
  | _ =>
      if String.eqb question "" then []
      else sort_reverse (analyse_loop question pages [])
  end.

End Model.

End Model.

(** ** [Tool/Model.py]: class [Analyser] *)

Module Analyser.

Import Model.

(** A paper as [Scholar_scraper.get_info] returns it: a list of fields
    (title, abstract, url); level 4 appends the attack type. *)
Definition paper : Type := list string.

(** The attributes of an [Analyser] that the levels write. *)
Record state : Type := mk_state {
  initial_results : list scored;
  filtered_results : list scored;
  additional_results : list scored;
  neglected_results : list scored
}.

Definition set_initial_results (self : state) (v : list scored) : state :=
  mk_state v (filtered_results self) (additional_results self)
           (neglected_results self).

Definition set_additional_results (self : state) (v : list scored) : state :=
  mk_state (initial_results self) (filtered_results self) v
           (neglected_results self).

Definition set_validation_results (self : state) (f n : list scored) : state :=
  mk_state (initial_results self) f (additional_results self) n.

(** *** Pattern tables *)

Definition pattern_generic : list Re.pattern :=
  [ Re.lits "machine" ++ [Re.WsStar] ++ Re.lits "learning";
    Re.lits "artificial" ++ [Re.WsStar] ++ Re.lits "intelligence";
    Re.lits "510" ++ [Re.WsStar] ++ Re.lits "k";
    Re.lits "A.I." ].

Definition pattern_inference_time : list Re.pattern :=
  [ Re.lits "adversarial" ++ [Re.WsStar] ++ Re.lits "example";
    Re.lits "evasion";
    Re.lits "privacy attack";
    Re.lits "membership" ++ [Re.WsStar] ++ Re.lits "inference";
    Re.lits "model inversion" ].

Definition pattern_training_time : list Re.pattern :=
  [ Re.lits "training" ++ [Re.WsStar] ++ Re.lits "time";
    Re.lits "poisoning";
    Re.lits "data" ++ [Re.WsStar] ++ Re.lits "manipulation" ].

(** [find_genericwords(text)] *)
Definition find_genericwords (text : string) : bool :=
  if String.eqb text "" then false
  else Helper_functions.regex_search text pattern_generic.

(** [__find_attack_type(text)]: 0 is an inference-time attack, 1 a
    training-time attack, -1 neither. *)
Definition __find_attack_type (text : string) : Z :=
  if String.eqb text "" then (-1)%Z
  else if Helper_functions.regex_search text pattern_inference_time then 0%Z
  else if Helper_functions.regex_search text pattern_training_time then 1%Z
  else (-1)%Z.

(** *** Level 1 *)

(** One turn of the loop under [# Remove duplicates]. *)
Definition dedup_step (initial_results : list scored) (a : scored)
  : list scored :=
  if Helper_functions.check_presence
       (Helper_functions.VStr (snd a)) (map to_tuple initial_results)
  then initial_results
  else initial_results ++ [a].

Fixpoint remove_duplicates (rest initial_results : list scored)
  : list scored :=
  match rest with
  | [] => initial_results
  | a :: rest' => remove_duplicates rest' (dedup_step initial_results a)
  end.

(** The part of [level_1] after the four questions: sort, then remove
    duplicates. *)
Definition merge (answer : list scored) : list scored :=
  match sort_reverse answer with
  | [] => []
  | first :: rest => remove_duplicates rest [first]
  end.

Section Level1.

Variable nlp : string -> string -> outcome (option qa_result).

(** The three pooled questions, in the order [level_1] extends [answer]. *)
Definition pooled_answers (pages : list string) : list scored :=
  analyse_pages nlp pages settings.QUESTION_1
  ++ analyse_pages nlp pages settings.QUESTION_2
  ++ analyse_pages nlp pages settings.QUESTION_3.

Definition level_1 (self : state) (pages : list string)
  : state * list scored :=
  match pages with
  | [] => (self, [])
  | _ =>
      let answer := pooled_answers pages in
      let answer_4 := analyse_pages nlp pages settings.QUESTION_4 in
      let self := set_additional_results self answer_4 in
      let result := merge answer in
      (set_initial_results self result, result)
  end.

End Level1.

(** *** Level 2, alternative *)

Section Level2Alt.

Variable keyword_completion : list string -> LLM.LLMResponse (list string).

Definition level_2_alt (results : list scored) : list string :=
  match results with
  | [] => []
  | _ =>
      let list_of_keywords := map snd results in
      match list_of_keywords with
      | [] => []
      | _ =>
          let keywords_response := keyword_completion list_of_keywords in
          let keywords :=
            if LLM.success keywords_response
            then LLM.data keywords_response
            else Some (firstn 5 list_of_keywords) in   (* Fallback to top 5 *)
          match keywords with
          | None => []   (* [len(None)] raises; the outer handler returns [] *)
          | Some keywords =>
              filter (fun keyword => negb (find_genericwords keyword)) keywords
          end
      end
  end.

End Level2Alt.

(** *** Level 2 *)

(** The variables of the [for i in results] loop: the two lists it fills,
    and the number of calls it has made to the web validator. *)
Record validation : Type := mk_validation {
  filtered : list scored;      (* self.filtered_results *)
  neglected : list scored;     (* self.neglected_results *)
  calls : nat
}.

Definition validation_start : validation := mk_validation [] [] 0.

Section Level2.

(** [self.browser.check_desc(keyword)], seen from [level_2]: the call
    answers or raises.  The web may answer the same keyword differently
    from one call to the next, so the outcome depends on which call of the
    run it is: [check_desc n keyword] is the outcome of call number [n]. *)
Variable check_desc : nat -> string -> outcome bool.

Definition max_keywords : nat := settings.NUMBER_OF_KEYWORDS.

(** The [for i in results] loop. *)
Fixpoint level_2_loop (results : list scored) (v : validation) : validation :=
  match results with
  | [] => v
  | i :: results' =>
      if max_keywords <=? List.length (filtered v) then v
      else
        let keyword := snd i in
        if String.eqb keyword "" then level_2_loop results' v
        else if find_genericwords keyword then level_2_loop results' v
        else
          match check_desc (calls v) keyword with
          | Returns true =>
              level_2_loop results'
                (mk_validation (filtered v ++ [i]) (neglected v) (S (calls v)))
          | Returns false =>
              level_2_loop results'
                (mk_validation (filtered v) (neglected v ++ [i]) (S (calls v)))
          | Raises =>
              level_2_loop results'
                (mk_validation (filtered v) (neglected v) (S (calls v)))
          end
  end.

Definition level_2 (self : state) (results : list scored)
  : state * list scored :=
  match results with
  | [] => (self, [])
  | _ =>
      let v := level_2_loop results validation_start in
      (set_validation_results self (filtered v) (neglected v), filtered v)
  end.

End Level2.

(** *** Level 3 *)

Definition prefix : list string :=
  [ "Security Attacks on ";
    "Inference time attacks on ";
    "Training time attacks on " ].

Section Level3.

(** [self.scraper.get_info(search_term)] *)
Variable get_info : string -> outcome (list paper).

(** The [for j in range(len(results))] loop. *)
Fixpoint level_3_keywords (search_prefix : string) (results : list scored)
  (objects : list (list paper)) : list (list paper) :=
  match results with
  | [] => objects
  | r :: results' =>
      let keyword := snd r in
      if String.eqb keyword ""
      then level_3_keywords search_prefix results' (objects ++ [[]])
      else
        match get_info (search_prefix ++ keyword)%string with
        | Returns result =>
            level_3_keywords search_prefix results' (objects ++ [result])
        | Raises =>
            level_3_keywords search_prefix results' (objects ++ [[]])
        end
  end.

(** The [for i, search_prefix in enumerate(prefix)] loop. *)
Fixpoint level_3_prefixes (prefixes : list string) (results : list scored)
  (answers : list (list (list paper))) : list (list (list paper)) :=
  match prefixes with
  | [] => answers
  | search_prefix :: prefixes' =>
      level_3_prefixes prefixes' results
        (answers ++ [level_3_keywords search_prefix results []])
  end.

Definition level_3 (results : list scored) : list (list (list paper)) :=
  match results with
  | [] => []
  | _ => level_3_prefixes prefix results []
  end.

End Level3.

(** *** Level 4 *)

Section Level4.

(** [self.browser.get_page(url)] *)
Variable get_page : string -> outcome string.

Definition attack_label (paper_type : Z) : string :=
  if (paper_type =? 0)%Z then "Attack Type 0" else "Attack Type 1".

(** The [for k in range(len(results[i][j]))] loop; the pair is
    [(filtered_results, rejected_results[i][j])]. *)
Fixpoint level_4_papers (papers filtered rejected : list paper)
  : list paper * list paper :=
  match papers with
  | [] => (filtered, rejected)
  | paper_info :: papers' =>
      if List.length paper_info <? 3 then level_4_papers papers' filtered rejected
      else
        match get_page (nth 2 paper_info "") with
        | Raises => level_4_papers papers' filtered rejected
        | Returns page =>
            let paper_type := __find_attack_type page in
            if (paper_type =? 0)%Z || (paper_type =? 1)%Z
            then level_4_papers papers'
                   (filtered ++ [paper_info ++ [attack_label paper_type]])
                   rejected
            else level_4_papers papers' filtered (rejected ++ [paper_info])
        end
  end.

(** The two nested [for] loops over [i] and [j]: every cell
    [results[i][j]] is replaced by its attack papers and
    [rejected_results[i][j]] receives its rejected ones. *)
Definition level_4 (results : list (list (list paper)))
  : list (list (list paper)) * list (list (list paper)) :=
  match results with
  | [] => ([], [])
  | _ =>
      (map (map (fun cell => fst (level_4_papers cell [] []))) results,
       map (map (fun cell => snd (level_4_papers cell [] []))) results)
  end.

End Level4.

End Analyser.

(** ** Reading aids for the statements *)

Module Shape.

Import Model Analyser.

(** The cell [s[i][j]] of a nested structure, when it exists. *)
Definition cell_at (s : list (list (list paper))) (i j : nat)
  : option (list paper) :=
  match nth_error s i with
  | Some row => nth_error row j
  | None => None
  end.

(** What level 3 stores for one (prefix, candidate) pair: the papers of the
    query, or nothing when the keyword is empty or the query raised. *)
Definition query_result (get_info : string -> outcome (list paper))
  (search_prefix : string) (r : scored) : list paper :=
  if String.eqb (snd r) "" then []
  else
    match get_info (search_prefix ++ snd r)%string with
    | Returns result => result
    | Raises => []
    end.

(** Does level 4 put this paper into the rejected cell? *)
Definition is_rejected (get_page : string -> outcome string)
  (paper_info : paper) : bool :=
  (3 <=? List.length paper_info)
  && match get_page (nth 2 paper_info "") with
     | Raises => false
     | Returns page =>
         negb ((__find_attack_type page =? 0)%Z || (__find_attack_type page =? 1)%Z)
     end.

(** Does level 4 keep this paper as an attack paper? *)
Definition is_attack (get_page : string -> outcome string)
  (paper_info : paper) : bool :=
  (3 <=? List.length paper_info)
  && match get_page (nth 2 paper_info "") with
     | Raises => false
     | Returns page =>
         (__find_attack_type page =? 0)%Z || (__find_attack_type page =? 1)%Z
     end.

(** [a] may stand before [b] in a list sorted with [reverse=True]: [a] is
    not smaller than [b]. *)
Definition desc (a b : scored) : Prop := tuple_ltb a b = false.

(** [a] is an answer to [question] on one of the [pages]: the model gave it
    a confidence above the floor, and its text is the model's, stripped and
    with newlines replaced by spaces. *)
Definition answers_question
  (nlp : string -> string -> outcome (option qa_result))
  (pages : list string) (question : string) (a : scored) : Prop :=
  exists context res,
    In context pages
    /\ nlp question context = Returns (Some res)
    /\ (CONF_FLOOR < score res)%Q
    /\ a = (score res,
            PyStr.replace_char PyStr.newline " "%char
              (PyStr.strip (answer_text res))).

(** Descending order of two answers as [level_1] leaves them: the higher
    confidence first and, at equal confidence, the greater text first. *)
Definition before (a b : scored) : Prop :=
  (fst b < fst a)%Q
  \/ ((fst a == fst b)%Q /\ String.ltb (snd b) (snd a) = true).

End Shape.

(** ** The specification's wording, where the code differs from it *)

Module Spec.

Import Model Analyser.

(** Containment deduplication: no element is a substring of a different,
    higher-ranked element. *)
Definition containment_dedup (l : list scored) : Prop :=
  forall (i j : nat) (a b : scored),
    i < j -> nth_error l i = Some a -> nth_error l j = Some b ->
    PyStr.str_in (snd b) (snd a) = false.

(** A failure of the LLM keyword filter gives the empty list. *)
Definition llm_failure_gives_empty
  (keyword_completion : list string -> LLM.LLMResponse (list string))
  (results : list scored) : Prop :=
  LLM.success (keyword_completion (map snd results)) = false ->
  level_2_alt keyword_completion results = [].

(** A candidate that reaches the web validator and makes it raise is found
    in [neglected_results]. *)
Definition exception_routes_to_neglected
  (check_desc : nat -> string -> outcome bool) (self : state)
  (pre post : list scored) (i : scored) : Prop :=
  let reached := level_2_loop check_desc pre validation_start in
  List.length (filtered reached) < settings.NUMBER_OF_KEYWORDS ->
  snd i <> "" ->
  find_genericwords (snd i) = false ->
  check_desc (calls reached) (snd i) = Raises ->
  In i (neglected_results
          (fst (level_2 check_desc self (pre ++ i :: post)))).

(** A stable sort on the confidence alone, highest first: answers of equal
    confidence keep their discovery order. *)
Fixpoint insert_by_confidence (x : scored) (l : list scored) : list scored :=
  match l with
  | [] => [x]
  | y :: l' =>
      if Qltb (fst y) (fst x) then x :: l else y :: insert_by_confidence x l'
  end.

Fixpoint sort_by_confidence_into (l sorted : list scored) : list scored :=
  match l with
  | [] => sorted
  | x :: l' => sort_by_confidence_into l' (insert_by_confidence x sorted)
  end.

(** The pooled answers in discovery order: question by question, paragraph
    by paragraph. *)
Definition discovery_order
  (nlp : string -> string -> outcome (option qa_result))
  (pages : list string) : list scored :=
  analyse_loop nlp settings.QUESTION_1 pages []
  ++ analyse_loop nlp settings.QUESTION_2 pages []
  ++ analyse_loop nlp settings.QUESTION_3 pages [].

(** Level 1 with ties broken by discovery order. *)
Definition ties_keep_discovery_order
  (nlp : string -> string -> outcome (option qa_result))
  (self : state) (pages : list string) : Prop :=
  snd (level_1 nlp self pages)
  = match sort_by_confidence_into (discovery_order nlp pages) [] with
    | [] => []
    | first :: rest => remove_duplicates rest [first]
    end.

(** A paper with fewer than three fields is found in the rejected cell of
    its position. *)
Definition short_record_rejected (get_page : string -> outcome string)
  (results : list (list (list paper))) (i j : nat) (paper_info : paper)
  : Prop :=
  forall cell,
    Shape.cell_at results i j = Some cell ->
    In paper_info cell ->
    List.length paper_info < 3 ->
    exists rejected_cell,
      Shape.cell_at (snd (level_4 get_page results)) i j = Some rejected_cell
      /\ In paper_info rejected_cell.

End Spec.

(** ** Example collaborators and inputs *)

Module Examples.

Import Model Analyser.

(** A fresh [Analyser]: every list empty, as [__init__] leaves them. *)
Definition fresh : state := mk_state [] [] [] [].

Definition xgboost : scored := (9 # 10, "XGBoost").
Definition svm : scored := (8 # 10, "SVM").

(** A web validator whose first call raises and whose later calls answer
    [False]. *)
Definition raises_once (n : nat) (keyword : string) : outcome bool :=
  match n with
  | O => Raises
  | S _ => Returns false
  end.

(** A browser whose search is down during the first validation
    ([googlesearch.search] raises) and finds nothing afterwards. *)
Definition search_down_once (n : nat) (query : string)
  : outcome (list (outcome string)) :=
  match n with
  | O => Raises
  | S _ => Returns []
  end.
Definition link_ok (n : nat) (url : string) : outcome bool := Returns true.
Definition blank_page (n : nat) (url : string) : Browsing.driver_result :=
  Browsing.PageSource "".

(** An LLM whose model raises on every prompt. *)
Definition model_down (prompt : string) : outcome (option string) := Raises.
Definition one_item (response : string) : outcome (list string) :=
  Returns [response].
Definition llm_down : list string -> LLM.LLMResponse (list string) :=
  LLM.keyword_completion model_down one_item.

(** A paper search that finds nothing. *)
Definition no_papers (search_term : string) : outcome (list paper) :=
  Returns [].

(** A page fetch that always fails with the sentinel. *)
Definition fetch_fails (url : string) : outcome string := Returns "None".

Definition full_record : paper :=
  ["Attacks on XGBoost"; "An abstract."; "https://example.org/paper"].
Definition short_record : paper := ["Attacks on XGBoost"; "An abstract."].

(** Two paragraphs; the question-answering model answers the first question
    on each and nothing else. *)
Definition paragraph_1 : string := "The device uses an XGBoost classifier.".
Definition paragraph_2 : string := "XGBoost was trained on CT images.".

Definition qa_contained (question context : string)
  : outcome (option qa_result) :=
  if String.eqb question settings.QUESTION_1 then
    if String.eqb context paragraph_1
    then Returns (Some (mk_qa_result (9 # 10) "XGBoost classifier"))
    else if String.eqb context paragraph_2
    then Returns (Some (mk_qa_result (1 # 2) "XGBoost"))
    else Returns None
  else Returns None.

(** A model that finds "CNN" with the first question and "SVM" with the
    second, in the first paragraph and with the same confidence. *)
Definition qa_tied (question context : string)
  : outcome (option qa_result) :=
  if String.eqb context paragraph_1 then
    if String.eqb question settings.QUESTION_1
    then Returns (Some (mk_qa_result (1 # 2) "CNN"))
    else if String.eqb question settings.QUESTION_2
    then Returns (Some (mk_qa_result (1 # 2) "SVM"))
    else Returns None
  else Returns None.

(** The same model, written question first. *)
Definition qa_tied_again (question context : string)
  : outcome (option qa_result) :=
  if String.eqb question settings.QUESTION_1 then
    if String.eqb context paragraph_1
    then Returns (Some (mk_qa_result (1 # 2) "CNN"))
    else Returns None
  else if String.eqb question settings.QUESTION_2 then
    if String.eqb context paragraph_1
    then Returns (Some (mk_qa_result (1 # 2) "SVM"))
    else Returns None
  else Returns None.

(** A model that also answers the fourth question. *)
Definition qa_with_format (question context : string)
  : outcome (option qa_result) :=
  if String.eqb question settings.QUESTION_4 then
    if String.eqb context paragraph_2
    then Returns (Some (mk_qa_result (7 # 10) "CT images"))
    else Returns None
  else qa_contained question context.

End Examples.

(** ** More Python string operations *)

Module PyText.

(** [str.lower] on one code point below 256: the ASCII capitals and the
    Latin-1 capitals (all of C0..DE but the multiplication sign D7). *)
Definition lower_char (c : ascii) : ascii :=
  let n := nat_of_ascii c in
  if ((65 <=? n) && (n <=? 90))
     || ((192 <=? n) && (n <=? 222) && negb (n =? 215))
  then ascii_of_nat (n + 32)
  else c.

(** [s.lower()] *)
Fixpoint lower (s : string) : string :=
  match s with
  | EmptyString => EmptyString
  | String c s' => String (lower_char c) (lower s')
  end.

(** The regex class [\d] on one code point below 256. *)
Definition is_digit (c : ascii) : bool :=
  let n := nat_of_ascii c in
  (48 <=? n) && (n <=? 57).

(** [s.split(sep)] for a one-character separator. *)
Fixpoint split (sep : ascii) (s : string) : list string :=
  match s with
  | EmptyString => [EmptyString]
  | String c s' =>
      if Ascii.eqb c sep then EmptyString :: split sep s'
      else
        match split sep s' with
        | [] => [String c EmptyString]
        | piece :: pieces => String c piece :: pieces
        end
  end.

(** [s.split(sep)[0]]: the text before the first occurrence of [sep]. *)
Fixpoint split_head (sep : string) (s : string) : string :=
  if String.prefix sep s then EmptyString
  else
    match s with
    | EmptyString => EmptyString
    | String c s' => String c (split_head sep s')
    end.

(** [s.replace(old, new)] for a one-character [old]. *)
Fixpoint replace (old : ascii) (new : string) (s : string) : string :=
  match s with
  | EmptyString => EmptyString
  | String c s' =>
      if Ascii.eqb c old then (new ++ replace old new s')%string
      else String c (replace old new s')
  end.

Definition carriage_return : ascii := ascii_of_nat 13.

(** The characters of a string. *)
Definition chars (s : string) : list ascii := list_ascii_of_string s.

End PyText.

(** ** [Tool/LLM.py]: [__list_format] *)

Module LLMFormat.

(** The [re.match] that strips a leading ordinal: one or more digits [\d+],
    a dot, any whitespace [\s*], and then group 1, the rest of the line.
    [None] is no match. *)
Fixpoint drop_digits (s : string) : string :=
  match s with
  | EmptyString => EmptyString
  | String c s' => if PyText.is_digit c then drop_digits s' else s
  end.

Definition match_ordinal (item : string) : option string :=
  match item with
  | EmptyString => None
  | String c rest =>
      if PyText.is_digit c then
        match drop_digits rest with
        | String "."%char rest' =>
            Some (PyText.split_head (String PyStr.newline EmptyString)
                    (PyStr.lstrip rest'))
        | _ => None
        end
      else None
  end.

(** The three cleaning steps applied to every item. *)
Definition clean_item (item : string) : string :=
  let item := PyStr.strip item in
  let item := PyStr.strip (PyText.split_head ":" item) in
  PyStr.strip (PyText.split_head " - " item).

(** The [for i, item in enumerate(response_list)] loop. *)
Fixpoint format_items (response_list filtered_response : list string)
  : list string :=
  match response_list with
  | [] => filtered_response
  | item :: response_list' =>
      let item := clean_item item in
      if String.eqb item ""
         || PyStr.str_in "most relevant" (PyText.lower item)
         || (60 <? String.length item)
      then format_items response_list' filtered_response
      else
        let item :=
          match match_ordinal item with
          | Some group_1 => group_1
          | None => item
          end in
        if String.eqb item ""
        then format_items response_list' filtered_response
        else format_items response_list' (filtered_response ++ [item])
  end.

(** [__list_format(response)] on a [str]. *)
Definition __list_format (response : string) : list string :=
  if String.eqb response "" then []
  else
    let response := PyStr.replace_char PyStr.newline ","%char response in
    format_items (PyText.split ","%char response) [].

(** [keyword_completion] with the formatter of the class. *)
Definition keyword_completion
  (model_generate : string -> outcome (option string))
  (keywords : list string) : LLM.LLMResponse (list string) :=
  LLM.keyword_completion model_generate
    (fun response => Returns (__list_format response)) keywords.

End LLMFormat.

(** ** [Tool/Scholar_scraper.py] *)

Module Scholar_scraper.

(** A publication as [scholarly] yields it.  Reading a field that is absent
    raises [KeyError]: such a field is [None] here. *)
Record publication : Type := mk_publication {
  bib_title : option string;       (* paper["bib"]["title"] *)
  bib_abstract : option string;    (* paper["bib"]["abstract"] *)
  pub_url : option string          (* paper["pub_url"] *)
}.

(** [next(search_query, None)] in turn: each step yields a publication or
    raises; the end of the list is the end of the iterator. *)
Definition search_query : Type := list (outcome publication).

(** The [for i in range(settings.NUMBER_OF_PAPERS)] loop of
    [complete_info]. *)
Fixpoint complete_info_loop (n : nat) (query : search_query)
  (complete_info : list publication) : outcome (list publication) :=
  match n with
  | O => Returns complete_info
  | S n' =>
      match query with
      | [] => Returns complete_info
      | Raises :: _ => Raises
      | Returns article :: query' =>
          complete_info_loop n' query' (complete_info ++ [article])
      end
  end.

Definition complete_info (query : option search_query)
  : outcome (list publication) :=
  match query with
  | None => Returns []
  | Some query => complete_info_loop settings.NUMBER_OF_PAPERS query []
  end.

(** [__check_survey(paper)] *)
Definition __check_survey (paper : publication) : outcome bool :=
  match bib_title paper with
  | None => Raises
  | Some title =>
      if PyStr.str_in "survey" (PyText.lower title) then Returns true
      else
        match bib_abstract paper with
        | None => Raises
        | Some abstract =>
            if PyStr.str_in "survey" (PyText.lower abstract)
            then Returns true
            else Returns false
        end
  end.

(** The [while] loop of [get_info].  Every turn increases [i], which stays
    below the length of [complete_info]: [fuel] counts the turns left, and
    the length of [complete_info] is enough of it.  A raise inside the loop
    ends [get_info] with the entries extracted so far. *)
Fixpoint get_info_loop (fuel : nat) (complete_info : list publication)
  (i : Z) (extract : list (list string)) : list (list string) :=
  match fuel with
  | O => extract
  | S fuel' =>
      if ((Z.of_nat (List.length extract)
           <? Z.min (Z.of_nat settings.NUMBER_OF_PAPERS)
                    (Z.of_nat (List.length complete_info)))%Z
          && (i <? Z.of_nat (List.length complete_info) - 1)%Z)
      then
        let i := (i + 1)%Z in
        match nth_error complete_info (Z.to_nat i) with
        | None => extract
        | Some article =>
            match __check_survey article with
            | Raises => extract
            | Returns true => get_info_loop fuel' complete_info i extract
            | Returns false =>
                match bib_title article, bib_abstract article,
                      pub_url article with
                | Some title, Some abstract, Some url =>
                    get_info_loop fuel' complete_info i
                      (extract ++ [[title; abstract; url]])
                | _, _, _ => extract
                end
            end
        end
      else extract
  end.

Section Scraper.

(** [scholarly.scholarly.search_pubs(query)] *)
Variable search_pubs : string -> outcome (option search_query).

Definition get_info (query : string) : list (list string) :=
  match search_pubs query with
  | Raises => []
  | Returns found =>
      match complete_info found with
      | Raises => []
      | Returns articles =>
          get_info_loop (List.length articles) articles (-1)%Z []
      end
  end.

End Scraper.

(** The entries [get_info] extracts from the publications it was given, read
    in order: surveys are passed over, and the first publication with a
    field missing ends the reading. *)
Fixpoint entries (articles : list publication) : list (list string) :=
  match articles with
  | [] => []
  | article :: articles' =>
      match __check_survey article with
      | Raises => []
      | Returns true => entries articles'
      | Returns false =>
          match bib_title article, bib_abstract article, pub_url article with
          | Some title, Some abstract, Some url =>
              [title; abstract; url] :: entries articles'
          | _, _, _ => []
          end
      end
  end.

(** Is the word "survey", in any letter case, in this text? *)
Definition mentions_survey (text : string) : bool :=
  PyStr.str_in "survey" (PyText.lower text).

End Scholar_scraper.

(** ** [Tool/Model.py]: the functions of the module *)

Module Pipeline.

Import Model Analyser.

(** *** [process_search_results] *)

(** The [for k in range(len(results[i][j]))] loop: one line per non-empty
    paper, its fields joined by spaces. *)
Fixpoint paper_lines (papers : list paper) (temp : list string)
  : list string :=
  match papers with
  | [] => temp
  | paper_info :: papers' =>
      match paper_info with
      | [] => paper_lines papers' temp
      | _ => paper_lines papers' (temp ++ [PyStr.join " " paper_info])
      end
  end.

(** The [for j in range(len(results[i]))] loop. *)
Fixpoint report_cells (search_prefix : string) (answers : list scored)
  (cells : list (list paper)) (j : nat) (search_results : list string)
  : list string :=
  match cells with
  | [] => search_results
  | cell :: cells' =>
      match nth_error answers j, cell with
      | None, _ =>
          report_cells search_prefix answers cells' (S j) search_results
      | Some _, [] =>
          report_cells search_prefix answers cells' (S j) search_results
      | Some answer, _ =>
          let temp :=
            paper_lines cell [(search_prefix ++ snd answer)%string] in
          if 1 <? List.length temp
          then report_cells search_prefix answers cells' (S j)
                 (search_results
                  ++ [PyStr.join (String PyStr.newline EmptyString) temp])
          else report_cells search_prefix answers cells' (S j) search_results
      end
  end.

(** The [for i in range(len(results))] loop, left when [i] reaches the
    number of prefixes. *)
Fixpoint report_rows (answers : list scored)
  (rows : list (list (list paper))) (i : nat) (search_results : list string)
  : list string :=
  match rows with
  | [] => search_results
  | row :: rows' =>
      match nth_error prefix i with
      | None => search_results
      | Some search_prefix =>
          report_rows answers rows' (S i)
            (report_cells search_prefix answers row 0 search_results)
      end
  end.

Definition process_search_results (results : list (list (list paper)))
  (answers : list scored) : list string :=
  match results, answers with
  | [], _ => []
  | _, [] => []
  | _, _ => report_rows answers results 0 []
  end.

(** *** [create_row] *)

Definition fieldnames : list string :=
  [ "Submission Number"; "Device"; "Company"; "Category";
    "Date of Approval"; "Level 1 - Algorithms Found";
    "Level 2 - Filtered Keywords"; "Level 4 - Input Format";
    "Alt Keywords Level 2"; "Security Attacks Found" ].

(** [str(x).replace('\n', ' | ').replace('\r', '')] *)
Definition one_line (x : string) : string :=
  PyText.replace PyText.carriage_return ""
    (PyText.replace PyStr.newline " | " x).

(** The [for i in range(4)] loop. *)
Fixpoint result_columns (count i : nat) (results csv_row : list string)
  : list string :=
  match count with
  | O => csv_row
  | S count' =>
      match nth_error results i with
      | Some result =>
          result_columns count' (S i) results (csv_row ++ [one_line result])
      | None =>
          result_columns count' (S i) results (csv_row ++ ["No data available"])
      end
  end.

Section Row.

(** [row.get(key, default)], through [str]: the cell of the input
    spreadsheet under that heading, when there is one. *)
Variable row : string -> option string.

Definition row_get (key default : string) : string :=
  match row key with
  | Some value => value
  | None => default
  end.

(** The row that [create_row] writes for a document that
    [process_document] turned into [results] and [search_results]. *)
Definition csv_row (index : string) (results search_results : list string)
  : list string :=
  let csv_row :=
    [ row_get "Submission Number" index;
      row_get "Device" "Unknown Device";
      row_get "Company" "Unknown Company";
      row_get "Panel (lead)" "Unknown Category";
      row_get "Date of Final Decision" "Unknown Date" ] in
  let csv_row := result_columns 4 0 results csv_row in
  match search_results with
  | [] => csv_row ++ ["No security attacks found"]
  | _ => csv_row ++ [PyStr.join " || " (map one_line search_results)]
  end.

End Row.

(** The row written when [create_row] fails; [message] is the text of the
    exception. *)
Definition error_row (index message : string) : list string :=
  [ index; "Error"; "Error"; "Error"; "Error";
    ("Processing failed: " ++ String.substring 0 100 message)%string;
    "Error in analysis"; "Error in analysis"; "Error in analysis";
    "No attacks found due to processing error" ].

(** *** [process_document] *)

(** The float written [0.9] in the source, exactly. *)
Definition ALT_SCORE : Q := 8106479329266893 # 9007199254740992.

(** Step 4: the algorithm of the Medical Futurist data set is put at the
    head of the answers unless [check_presence] finds it there. *)
Definition seed_algorithm (algorithm : option string)
  (all_answers : list scored) : list scored :=
  match algorithm with
  | None => all_answers
  | Some name =>
      if String.eqb name "" then all_answers
      else
        match all_answers with
        | [] => all_answers
        | _ =>
            if Helper_functions.check_presence (Helper_functions.VStr name)
                 (map to_tuple all_answers)
            then all_answers
            else (1%Q, name) :: all_answers
        end
  end.

(** Step 7 *)
Definition combine_answers (filtered_answer : list scored)
  (alt_keywords : list string) : list scored :=
  filtered_answer ++ map (fun answer => (ALT_SCORE, answer)) alt_keywords.

(** What steps 3 to 9 leave behind. *)
Record analysis : Type := mk_analysis {
  analyser : state;
  all_answers : list scored;
  alt_keywords : list string;
  filtered_answer : list scored;
  combined_answer : list scored;
  attack_papers : list (list (list paper));
  rejections : list (list (list paper))
}.

Section Document.

Variable nlp : string -> string -> outcome (option qa_result).
Variable keyword_completion : list string -> LLM.LLMResponse (list string).
Variable check_desc : nat -> string -> outcome bool.
Variable get_info : string -> outcome (list paper).
Variable get_page : string -> outcome string.

(** Steps 3 to 9 of [process_document] on the paragraphs of a document.
    [self] is the one [Analyser] of the process, as the previous document
    left it.  [level_1] returns [self.initial_results] itself when it found
    answers, so the insertion of step 4 is an insertion into
    [self.initial_results] too. *)
Definition analyse_document (self : state) (algorithm : option string)
  (pages : list string) : analysis :=
  let '(self, all_answers) := level_1 nlp self pages in
  let all_answers := seed_algorithm algorithm all_answers in
  let self :=
    match all_answers with
    | [] => self
    | _ => set_initial_results self all_answers
    end in
  let alt_keywords :=
    match all_answers with
    | [] => []
    | _ => level_2_alt keyword_completion all_answers
    end in
  let '(self, filtered_answer) :=
    match all_answers with
    | [] => (self, [])
    | _ => level_2 check_desc self all_answers
    end in
  let combined_answer := combine_answers filtered_answer alt_keywords in
  let all_papers :=
    match combined_answer with
    | [] => []
    | _ => level_3 get_info combined_answer
    end in
  let '(attack_papers, rejections) :=
    match all_papers with
    | [] => ([], [])
    | _ => level_4 get_page all_papers
    end in
  mk_analysis self all_answers alt_keywords filtered_answer combined_answer
    attack_papers rejections.

End Document.

End Pipeline.

(** ** More reading aids *)

Module Shape2.

Import Model Analyser.

(** [l1] is [l2] with some elements left out, the others in their order. *)
Inductive subsequence {A : Type} : list A -> list A -> Prop :=
| subsequence_nil : subsequence [] []
| subsequence_skip (x : A) (l1 l2 : list A) :
    subsequence l1 l2 -> subsequence l1 (x :: l2)
| subsequence_keep (x : A) (l1 l2 : list A) :
    subsequence l1 l2 -> subsequence (x :: l1) (x :: l2).

(** A nested structure has the shape of another: as many rows, and in each
    row as many cells. *)
Definition same_shape {A B : Type} (s : list (list A)) (t : list (list B))
  : Prop :=
  map (@List.length A) s = map (@List.length B) t.

(** A paragraph that [analyse_pages] passes over. *)
Definition blank (paragraph : string) : bool :=
  String.eqb paragraph "" || String.eqb (PyStr.strip paragraph) "".

(** A candidate that [level_2] lets through to the web validator: its
    keyword is not empty and not a generic term. *)
Definition examined (i : scored) : Prop :=
  snd i <> "" /\ find_genericwords (snd i) = false.

(** Is [c] one of the characters of [s]? *)
Definition has_char (c : ascii) (s : string) : Prop :=
  In c (PyText.chars s).

(** An item as [__list_format] lets it through: not empty, of at most 60
    characters, with no comma, newline or colon in it. *)
Definition list_item (item : string) : Prop :=
  item <> ""
  /\ String.length item <= 60
  /\ ~ has_char ","%char item
  /\ ~ has_char PyStr.newline item
  /\ ~ has_char ":"%char item.

(** Every code point below 256. *)
Definition all_chars : list ascii := map ascii_of_nat (seq 0 256).

(** Is the literal of this pattern item an ASCII character? *)
Definition ascii_item (it : Re.item) : bool :=
  match it with
  | Re.Lit c => nat_of_ascii c <? 128
  | Re.WsStar => true
  end.

(** A text made of ASCII characters only. *)
Definition ascii_text (text : string) : bool :=
  forallb (fun c => nat_of_ascii c <? 128) (PyText.chars text).

(** A text that holds on one line: no newline and no carriage return. *)
Definition one_lined (text : string) : Prop :=
  ~ has_char PyStr.newline text /\ ~ has_char PyText.carriage_return text.

(** The lines that [process_search_results] writes for the papers of a
    cell: one per paper that has fields, the fields joined by spaces. *)
Definition entry_lines (cell : list paper) : list string :=
  map (PyStr.join " ")
      (filter (fun paper_info => 0 <? List.length paper_info) cell).

(** An entry of the report of [process_search_results]: for a search prefix
    [i] and an answer [j] whose cell [results[i][j]] has a paper with
    fields, the prefix and the keyword of the answer on the first line, then
    the papers of the cell, one per line. *)
Definition report_entry (results : list (list (list paper)))
  (answers : list scored) (entry : string) : Prop :=
  exists i j search_prefix answer cell,
    nth_error prefix i = Some search_prefix
    /\ nth_error answers j = Some answer
    /\ Shape.cell_at results i j = Some cell
    /\ entry_lines cell <> []
    /\ entry = PyStr.join (String PyStr.newline "")
                 ((search_prefix ++ snd answer)%string :: entry_lines cell).

End Shape2.

(** ** [Tool/PDF_Reader_2.py]: cleaning the text of a line *)

Module PDF_Reader_2.

(** [re.sub] of a class of single characters repeated, [[...]+], by a space:
    every maximal run of characters of the class becomes one space.
    [in_run] tells that the previous character was of the class. *)
Fixpoint sub_runs (class : ascii -> bool) (in_run : bool) (text : string)
  : string :=
  match text with
  | EmptyString => EmptyString
  | String c text' =>
      if class c
      then if in_run then sub_runs class true text'
           else String " " (sub_runs class true text')
      else String c (sub_runs class false text')
  end.

(** The class of the pattern: comma, semicolon, colon, full stop, newline,
    tab, carriage return, both parentheses, star and percent. *)
Definition is_punc (c : ascii) : bool :=
  existsb (Ascii.eqb c)
    [ ","%char; ";"%char; ":"%char; "."%char; PyStr.newline;
      ascii_of_nat 9; PyText.carriage_return; ")"%char; "("%char; "*"%char;
      "%"%char ].

(** [__remove_punc(text)] *)
Definition __remove_punc (text : string) : string :=
  sub_runs is_punc false (PyStr.replace_char PyStr.newline " " text).

(** [re.sub(r"the", " ", text)]: the occurrences of "the", leftmost first
    and not overlapping, become spaces. *)
Fixpoint sub_the (text : string) : string :=
  match text with
  | EmptyString => EmptyString
  | String c text' =>
      match text' with
      | String c2 (String c3 rest) =>
          if Ascii.eqb c "t" && Ascii.eqb c2 "h" && Ascii.eqb c3 "e"
          then String " " (sub_the rest)
          else String c (sub_the text')
      | _ => String c (sub_the text')
      end
  end.

(** [re.sub(r"an", " ", text)] *)
Fixpoint sub_an (text : string) : string :=
  match text with
  | EmptyString => EmptyString
  | String c text' =>
      match text' with
      | String c2 rest =>
          if Ascii.eqb c "a" && Ascii.eqb c2 "n"
          then String " " (sub_an rest)
          else String c (sub_an text')
      | _ => String c (sub_an text')
      end
  end.

(** [__remove_grammar(text)] *)
Definition __remove_grammar (text : string) : string :=
  sub_an (sub_the text).

Definition is_K (c : ascii) : bool := Ascii.eqb c "K" || Ascii.eqb c "k".

Definition starts_with_digit (text : string) : bool :=
  match text with
  | EmptyString => false
  | String c _ => PyText.is_digit c
  end.

(** [re.sub(r"[Kk][0-9]+", " ", text)]: a K followed by digits becomes a
    space, with all the digits that follow.  [skipping] tells that the
    digits of a number are being passed over. *)
Fixpoint sub_no (skipping : bool) (text : string) : string :=
  match text with
  | EmptyString => EmptyString
  | String c text' =>
      if skipping && PyText.is_digit c then sub_no true text'
      else if is_K c && starts_with_digit text'
      then String " " (sub_no true text')
      else String c (sub_no false text')
  end.

(** [__remove_sub_no(text)] *)
Definition __remove_sub_no (text : string) : string := sub_no false text.

(** [__remove_non_ascii(text)]: [re.sub(r"[^\x00-\x7F]", " ", text)] *)
Fixpoint __remove_non_ascii (text : string) : string :=
  match text with
  | EmptyString => EmptyString
  | String c text' =>
      String (if nat_of_ascii c <? 128 then c else " "%char)
             (__remove_non_ascii text')
  end.

(** [__clean_paragraph(paragraph)]; [None] is Python's [None]. *)
Definition __clean_paragraph (paragraph : option string) : string :=
  match paragraph with
  | None => ""
  | Some paragraph =>
      if String.eqb (PyStr.strip paragraph) "" then ""
      else
        let paragraph := __remove_non_ascii paragraph in
        let paragraph := __remove_sub_no paragraph in
        let paragraph := __remove_punc paragraph in
        __remove_grammar paragraph
  end.

(** [t] is [s] with some non-empty pieces replaced by one space each. *)
Inductive blanked : string -> string -> Prop :=
| blanked_end : blanked "" ""
| blanked_copy (c : ascii) (s t : string) :
    blanked s t -> blanked (String c s) (String c t)
| blanked_cut (u s t : string) :
    u <> "" -> blanked s t -> blanked (u ++ s) (String " " t).

(** A word: a text without a space. *)
Definition spaceless (w : string) : Prop := ~ In " "%char (PyText.chars w).

End PDF_Reader_2.

(** ** More example collaborators and inputs *)

Module Examples2.

Import Model Analyser.

(** A question-answering model that finds "CNN" twice, with different
    confidence, and "SVM" once. *)
Definition qa_repeated (question context : string)
  : outcome (option qa_result) :=
  if String.eqb context Examples.paragraph_1 then
    if String.eqb question settings.QUESTION_1
    then Returns (Some (mk_qa_result (1 # 2) "CNN"))
    else if String.eqb question settings.QUESTION_2
    then Returns (Some (mk_qa_result (9 # 10) "CNN"))
    else if String.eqb question settings.QUESTION_3
    then Returns (Some (mk_qa_result (3 # 10) "SVM"))
    else Returns None
  else Returns None.

(** A model that raises on blank paragraphs and answers the others. *)
Definition qa_strict (question context : string)
  : outcome (option qa_result) :=
  if Shape2.blank context then Raises
  else Returns (Some (mk_qa_result (1 # 2) context)).

(** A web validator that accepts on its first call and refuses afterwards. *)
Definition accepts_once (n : nat) (keyword : string) : outcome bool :=
  match n with
  | O => Returns true
  | S _ => Returns false
  end.

(** An LLM that replies with a numbered list. *)
Definition model_lists (prompt : string) : outcome (option string) :=
  Returns (Some ("The most relevant keywords are:"
                 ++ String PyStr.newline "1. XGBoost: a tree ensemble"
                 ++ String PyStr.newline "2. machine learning, SVM - kernel"
                )%string).

(** An LLM that returns [None]. *)
Definition model_silent (prompt : string) : outcome (option string) :=
  Returns None.

(** Six publications: a survey, one without abstract after three good
    ones would end the reading; here all have their fields. *)
Definition publication_of (title : string) : Scholar_scraper.publication :=
  Scholar_scraper.mk_publication (Some title) (Some "An abstract.")
    (Some "https://example.org").

Definition six_found (query : string)
  : outcome (option Scholar_scraper.search_query) :=
  Returns (Some [ Returns (publication_of "Attacks on XGBoost");
                  Returns (publication_of "A SURVEY of attacks");
                  Returns (publication_of "Evasion of tree ensembles");
                  Returns (publication_of "Poisoning gradient boosting");
                  Returns (publication_of "Model inversion");
                  Returns (publication_of "A sixth paper") ]).

(** A page fetch that always finds an evasion paper. *)
Definition fetch_evasion (url : string) : outcome string :=
  Returns "An evasion attack.".

(** Search results whose first two entries are an FDA page and a page about
    neural networks. *)
Definition two_results (query : string) : outcome (list (outcome string)) :=
  Returns [ Returns "https://www.fda.gov/devices";
            Returns "https://example.org/cnn" ].
Definition three_results (query : string)
  : outcome (list (outcome string)) :=
  Returns [ Returns "https://www.fda.gov/devices";
            Returns "https://example.org/cnn";
            Raises ].
Definition always_linked (url : string) : outcome bool := Returns true.
Definition network_page (url : string) : Browsing.driver_result :=
  Browsing.PageSource "A convolutional neural network.".

(** A spreadsheet row with a device name only. *)
Definition device_only (key : string) : option string :=
  if String.eqb key "Device" then Some "Scanner" else None.

End Examples2.

(** * Properties *)

(** ** Strings and patterns *)

Section StringFacts.

Lemma prefix_split (needle hay : string) :
  String.prefix needle hay = true ->
  exists post, hay = (needle ++ post)%string.
Proof.
  revert hay; induction needle as [|c needle IH]; intros hay H.
  - exists hay; reflexivity.
  - destruct hay as [|d hay]; simpl in H; [discriminate|].
    destruct (Ascii.ascii_dec c d) as [->|]; [|discriminate].
    destruct (IH _ H) as [post ->]. exists post; reflexivity.
Qed.

Lemma str_in_split (needle hay : string) :
  PyStr.str_in needle hay = true ->
  exists pre post, hay = (pre ++ needle ++ post)%string.
Proof.
  induction hay as [|c hay IH]; intros H; cbn [PyStr.str_in] in H.
  - apply orb_true_iff in H as [H|H]; [|discriminate].
    destruct (prefix_split _ _ H) as [post E]. exists "", post. exact E.
  - apply orb_true_iff in H as [H|H].
    + destruct (prefix_split _ _ H) as [post E]. exists "", post. exact E.
    + destruct (IH H) as (pre & post & ->). exists (String c pre), post.
      reflexivity.
Qed.

Lemma string_app_assoc (a b c : string) :
  (a ++ b ++ c)%string = ((a ++ b) ++ c)%string.
Proof.
  induction a as [|x a IH]; [reflexivity|].
  cbn [String.append]. f_equal. exact IH.
Qed.

Lemma search_skip (p : Re.pattern) (pre s : string) :
  Re.match_here p s = true -> Re.search p (pre ++ s)%string = true.
Proof.
  intros H; induction pre as [|c pre IH]; simpl.
  - destruct s; simpl; rewrite H; reflexivity.
  - rewrite IH. apply orb_true_r.
Qed.

Lemma regex_search_empty_text (ps : list Re.pattern) :
  Forall (fun p => Re.match_here p "" = false) ps ->
  Helper_functions.regex_search "" ps = false.
Proof.
  induction 1 as [|p ps Hp _ IH]; simpl; [reflexivity|].
  rewrite Hp; simpl. exact IH.
Qed.

Lemma regex_search_In (text : string) (p : Re.pattern) (ps : list Re.pattern) :
  In p ps -> Re.search p text = true ->
  Helper_functions.regex_search text ps = true.
Proof.
  intros Hin Hp; induction ps as [|q ps IH]; simpl; [destruct Hin|].
  destruct Hin as [->|Hin].
  - rewrite Hp; reflexivity.
  - destruct (Re.search q text); [reflexivity|auto].
Qed.

Lemma regex_search_none (text : string) (ps : list Re.pattern) :
  (forall q, In q ps -> Re.search q text = false) ->
  Helper_functions.regex_search text ps = false.
Proof.
  induction ps as [|p ps IH]; intros H; [reflexivity|].
  cbn [Helper_functions.regex_search].
  rewrite (H p (or_introl eq_refl)). apply IH.
  intros q Hq. apply H. now right.
Qed.

Lemma attack_patterns_need_text :
  Helper_functions.regex_search "" Analyser.pattern_inference_time = false
  /\ Helper_functions.regex_search "" Analyser.pattern_training_time = false.
Proof.
  split; apply regex_search_empty_text; repeat constructor.
Qed.

End StringFacts.

(** ** Level 4: the attack-type classifier *)

(** C8. [__find_attack_type] tries the inference-time patterns first and the
    training-time patterns only when none of them matched, for every text:
    a text that some inference-time pattern matches is labelled 0
    (inference time), whatever else it matches; a text that some
    training-time pattern matches and no inference-time pattern matches is
    labelled 1 (training time); a text that no pattern matches is labelled
    -1 (rejected).  So a text containing "membership inference" is labelled
    0, a text containing "data poisoning" and matching no inference-time
    pattern is labelled 1, and a text matching both families is labelled
    0. *)
Theorem find_attack_type_first_match (text : string) :
  (forall p, In p Analyser.pattern_inference_time ->
             Re.search p text = true ->
             Analyser.__find_attack_type text = 0%Z)
  /\ (forall p, In p Analyser.pattern_training_time ->
                Re.search p text = true ->
                (forall q, In q Analyser.pattern_inference_time ->
                           Re.search q text = false) ->
                Analyser.__find_attack_type text = 1%Z)
  /\ ((forall q, In q Analyser.pattern_inference_time ->
                 Re.search q text = false) ->
      (forall q, In q Analyser.pattern_training_time ->
                 Re.search q text = false) ->
      Analyser.__find_attack_type text = (-1)%Z)
  /\ (PyStr.str_in "membership inference" text = true ->
      Analyser.__find_attack_type text = 0%Z)
  /\ (PyStr.str_in "data poisoning" text = true ->
      Helper_functions.regex_search text Analyser.pattern_inference_time = false ->
      Analyser.__find_attack_type text = 1%Z)
  /\ (Helper_functions.regex_search text Analyser.pattern_inference_time = true ->
      Helper_functions.regex_search text Analyser.pattern_training_time = true ->
      Analyser.__find_attack_type text = 0%Z)
  /\ (Helper_functions.regex_search text Analyser.pattern_inference_time = false ->
      Helper_functions.regex_search text Analyser.pattern_training_time = false ->
      Analyser.__find_attack_type text = (-1)%Z).
Proof.
  destruct attack_patterns_need_text as [Einf Etr].
  assert (Hfirst : Helper_functions.regex_search text
                     Analyser.pattern_inference_time = true ->
                   Analyser.__find_attack_type text = 0%Z).
  { intros Hinf. unfold Analyser.__find_attack_type. rewrite Hinf.
    destruct (String.eqb_spec text "") as [->|_]; [|reflexivity].
    rewrite Einf in Hinf. discriminate Hinf. }
  assert (Hsecond : Helper_functions.regex_search text
                      Analyser.pattern_inference_time = false ->
                    Helper_functions.regex_search text
                      Analyser.pattern_training_time = true ->
                    Analyser.__find_attack_type text = 1%Z).
  { intros Hinf Htr. unfold Analyser.__find_attack_type. rewrite Hinf, Htr.
    destruct (String.eqb_spec text "") as [->|_]; [|reflexivity].
    rewrite Etr in Htr. discriminate Htr. }
  assert (Hnone : Helper_functions.regex_search text
                    Analyser.pattern_inference_time = false ->
                  Helper_functions.regex_search text
                    Analyser.pattern_training_time = false ->
                  Analyser.__find_attack_type text = (-1)%Z).
  { intros Hinf Htr. unfold Analyser.__find_attack_type. rewrite Hinf, Htr.
    destruct (text =? "")%string; reflexivity. }
  split; [|split; [|split; [|split; [|split; [|split]]]]].
  - intros p Hp Hm. apply Hfirst. exact (regex_search_In _ _ _ Hp Hm).
  - intros p Hp Hm Hno. apply Hsecond.
    + now apply regex_search_none.
    + exact (regex_search_In _ _ _ Hp Hm).
  - intros Hinf Htr. apply Hnone; now apply regex_search_none.
  - intros H. apply str_in_split in H as (pre & post & ->).
    apply Hfirst.
    apply (regex_search_In _
             (Re.lits "membership" ++ [Re.WsStar] ++ Re.lits "inference"));
      [do 3 right; left; reflexivity|].
    apply search_skip. reflexivity.
  - intros H Hinf. apply str_in_split in H as (pre & post & ->).
    apply Hsecond; [exact Hinf|].
    apply (regex_search_In _ (Re.lits "poisoning"));
      [right; left; reflexivity|].
    change (pre ++ "data poisoning" ++ post)%string
      with (pre ++ "data " ++ "poisoning" ++ post)%string.
    rewrite string_app_assoc. apply search_skip. reflexivity.
  - intros Hinf _. now apply Hfirst.
  - exact Hnone.
Qed.

(** The classifier on the texts of Scenario D, and on texts that match one
    family only. *)
Lemma find_attack_type_first_match_witness :
  Analyser.__find_attack_type "A membership inference attack on classifiers" = 0%Z
  /\ Analyser.__find_attack_type "data poisoning of medical models" = 1%Z
  /\ Analyser.__find_attack_type "Evasion and poisoning attacks" = 0%Z
  /\ Analyser.__find_attack_type "None" = (-1)%Z
  /\ Analyser.__find_attack_type "evasion" = 0%Z
  /\ Analyser.__find_attack_type "attacks at training time" = 1%Z
  /\ Analyser.__find_attack_type "a study of image quality" = (-1)%Z.
Proof.
  split; [|split; [|split; [|split; [|split; [|split]]]]].
  - destruct (find_attack_type_first_match
                "A membership inference attack on classifiers")
      as (_ & _ & _ & H & _).
    apply H. reflexivity.
  - destruct (find_attack_type_first_match
                "data poisoning of medical models")
      as (_ & _ & _ & _ & H & _).
    apply H; reflexivity.
  - destruct (find_attack_type_first_match
                "Evasion and poisoning attacks")
      as (_ & _ & _ & _ & _ & H & _).
    apply H; reflexivity.
  - destruct (find_attack_type_first_match "None")
      as (_ & _ & _ & _ & _ & _ & H).
    apply H; reflexivity.
  - destruct (find_attack_type_first_match "evasion") as (H & _).
    apply (H (Re.lits "evasion")); [right; left; reflexivity|reflexivity].
  - destruct (find_attack_type_first_match "attacks at training time")
      as (_ & H & _).
    apply (H (Re.lits "training" ++ [Re.WsStar] ++ Re.lits "time"));
      [left; reflexivity|reflexivity|].
    intros q [<-|[<-|[<-|[<-|[<-|[]]]]]]; reflexivity.
  - destruct (find_attack_type_first_match "a study of image quality")
      as (_ & _ & H & _).
    apply H.
    + intros q [<-|[<-|[<-|[<-|[<-|[]]]]]]; reflexivity.
    + intros q [<-|[<-|[<-|[]]]]; reflexivity.
Defined.

(** ** Level 2: web validation *)

Section Level2Facts.

Import Model Analyser.

Variable check_desc : nat -> string -> outcome bool.

Lemma level_2_loop_full (results : list scored) (v : validation) :
  max_keywords <= List.length (filtered v) ->
  level_2_loop check_desc results v = v.
Proof.
  intros Hfull; destruct results as [|i results]; cbn [level_2_loop];
    [reflexivity|].
  apply Nat.leb_le in Hfull. rewrite Hfull. reflexivity.
Qed.

(** The loop over a concatenation is the loop over the second part started
    from where the loop over the first part ended. *)
Lemma level_2_loop_app (pre rest : list scored) (v : validation) :
  level_2_loop check_desc (pre ++ rest) v
  = level_2_loop check_desc rest (level_2_loop check_desc pre v).
Proof.
  revert v; induction pre as [|i pre IH]; intros v; [reflexivity|].
  cbn [app level_2_loop].
  destruct (max_keywords <=? List.length (filtered v)) eqn:Hfull.
  - symmetry. apply level_2_loop_full. now apply Nat.leb_le.
  - destruct (snd i =? "")%string; [apply IH|].
    destruct (find_genericwords (snd i)); [apply IH|].
    destruct (check_desc (calls v) (snd i)) as [|[|]]; apply IH.
Qed.

(** The cap: the loop never grows [filtered_results] past [max_keywords]. *)
Lemma level_2_loop_cap (results : list scored) (v : validation) :
  List.length (filtered v) <= max_keywords ->
  List.length (filtered (level_2_loop check_desc results v)) <= max_keywords.
Proof.
  revert v; induction results as [|i results IH]; intros v Hv;
    cbn [level_2_loop]; [exact Hv|].
  destruct (max_keywords <=? List.length (filtered v)) eqn:Hfull; [exact Hv|].
  apply Nat.leb_gt in Hfull.
  destruct (snd i =? "")%string; [now apply IH|].
  destruct (find_genericwords (snd i)); [now apply IH|].
  destruct (check_desc (calls v) (snd i)) as [|[|]]; apply IH;
    cbn [filtered]; trivial.
  rewrite length_app; simpl; lia.
Qed.

(** Both lists only grow. *)
Lemma level_2_loop_keeps (results : list scored) (v : validation) :
  incl (filtered v) (filtered (level_2_loop check_desc results v))
  /\ incl (neglected v) (neglected (level_2_loop check_desc results v)).
Proof.
  revert v; induction results as [|i results IH]; intros v;
    cbn [level_2_loop]; [split; apply incl_refl|].
  destruct (max_keywords <=? List.length (filtered v));
    [split; apply incl_refl|].
  destruct (snd i =? "")%string; [apply IH|].
  destruct (find_genericwords (snd i)); [apply IH|].
  destruct (check_desc (calls v) (snd i)) as [|[|]].
  - apply (IH (mk_validation (filtered v) (neglected v) (S (calls v)))).
  - destruct (IH (mk_validation (filtered v ++ [i]) (neglected v)
                    (S (calls v)))) as [Hf Hn].
    split; [|exact Hn].
    intros x Hx. apply Hf. cbn [filtered]. apply in_or_app. now left.
  - destruct (IH (mk_validation (filtered v) (neglected v ++ [i])
                    (S (calls v)))) as [Hf Hn].
    split; [exact Hf|].
    intros x Hx. apply Hn. cbn [neglected]. apply in_or_app. now left.
Qed.

(** One turn of the loop on a candidate that reaches the validator. *)
Lemma level_2_loop_reached (pre post : list scored) (i : scored)
  (v : validation) :
  List.length (filtered (level_2_loop check_desc pre v)) < max_keywords ->
  snd i <> "" ->
  find_genericwords (snd i) = false ->
  level_2_loop check_desc (pre ++ i :: post) v
  = let reached := level_2_loop check_desc pre v in
    level_2_loop check_desc post
      match check_desc (calls reached) (snd i) with
      | Returns true =>
          mk_validation (filtered reached ++ [i]) (neglected reached)
            (S (calls reached))
      | Returns false =>
          mk_validation (filtered reached) (neglected reached ++ [i])
            (S (calls reached))
      | Raises =>
          mk_validation (filtered reached) (neglected reached)
            (S (calls reached))
      end.
Proof.
  intros Hroom Hkw Hgen. rewrite level_2_loop_app.
  cbn zeta. set (reached := level_2_loop check_desc pre v) in *.
  cbn [level_2_loop].
  apply Nat.leb_gt in Hroom. rewrite Hroom.
  apply String.eqb_neq in Hkw. rewrite Hkw, Hgen.
  destruct (check_desc (calls reached) (snd i)) as [|[|]]; reflexivity.
Qed.

Lemma level_2_nonempty (self : state) (results : list scored) :
  results <> [] ->
  level_2 check_desc self results
  = (set_validation_results self
       (filtered (level_2_loop check_desc results validation_start))
       (neglected (level_2_loop check_desc results validation_start)),
     filtered (level_2_loop check_desc results validation_start)).
Proof.
  intros Hne; destruct results as [|i results]; [contradiction|reflexivity].
Qed.

End Level2Facts.

(** C2. Whatever the candidates and whatever the web validator does at each
    of its calls (answer [True], answer [False] or raise), the list returned
    by [level_2] has at most [NUMBER_OF_KEYWORDS] = 5 elements; it is the new
    [filtered_results], unless the candidate list was empty and the object
    was left untouched. *)
Theorem level_2_cap (check_desc : nat -> string -> outcome bool)
  (self : Analyser.state) (results : list Model.scored) :
  settings.NUMBER_OF_KEYWORDS = 5
  /\ List.length (snd (Analyser.level_2 check_desc self results))
     <= settings.NUMBER_OF_KEYWORDS
  /\ (Analyser.filtered_results (fst (Analyser.level_2 check_desc self results))
      = snd (Analyser.level_2 check_desc self results)
      \/ fst (Analyser.level_2 check_desc self results) = self).
Proof.
  split; [reflexivity|].
  destruct results as [|i results].
  - simpl. split; [lia|now right].
  - rewrite level_2_nonempty by discriminate. cbn [fst snd]. split.
    + apply level_2_loop_cap. simpl; unfold Analyser.max_keywords,
        settings.NUMBER_OF_KEYWORDS; lia.
    + left; reflexivity.
Qed.

(** C4, as the code has it. When the web validator raises on a candidate,
    the candidate is skipped: nothing is appended to [filtered_results] nor
    to [neglected_results], and the loop goes on with the remaining
    candidates from the two lists as they were. *)
Theorem level_2_exception_skips (check_desc : nat -> string -> outcome bool)
  (self : Analyser.state) (pre post : list Model.scored) (i : Model.scored) :
  let reached :=
    Analyser.level_2_loop check_desc pre Analyser.validation_start in
  List.length (Analyser.filtered reached) < settings.NUMBER_OF_KEYWORDS ->
  snd i <> "" ->
  Analyser.find_genericwords (snd i) = false ->
  check_desc (Analyser.calls reached) (snd i) = Raises ->
  let final :=
    Analyser.level_2_loop check_desc post
      (Analyser.mk_validation (Analyser.filtered reached)
         (Analyser.neglected reached) (S (Analyser.calls reached))) in
  Analyser.level_2 check_desc self (pre ++ i :: post)
  = (Analyser.set_validation_results self
       (Analyser.filtered final) (Analyser.neglected final),
     Analyser.filtered final).
Proof.
  intros reached Hroom Hkw Hgen Hraise final.
  rewrite level_2_nonempty by (destruct pre; discriminate).
  rewrite (level_2_loop_reached check_desc pre post i
             Analyser.validation_start Hroom Hkw Hgen).
  cbn zeta. fold reached. rewrite Hraise. reflexivity.
Qed.

(** The first call raises on "XGBoost"; "SVM" is then examined, and
    "XGBoost" is in neither list. *)
Lemma level_2_exception_skips_witness :
  Analyser.level_2 Examples.raises_once Examples.fresh
    ([] ++ Examples.xgboost :: [Examples.svm])
  = (Analyser.set_validation_results Examples.fresh [] [Examples.svm], []).
Proof.
  apply (level_2_exception_skips Examples.raises_once Examples.fresh
           [] [Examples.svm] Examples.xgboost).
  - simpl. unfold settings.NUMBER_OF_KEYWORDS. lia.
  - discriminate.
  - reflexivity.
  - reflexivity.
Defined.

(** With a validator raising on "XGBoost", the candidate is not in
    [neglected_results]. *)
Lemma level_2_exception_not_neglected :
  ~ Spec.exception_routes_to_neglected Examples.raises_once
      Examples.fresh [] [Examples.svm] Examples.xgboost.
Proof.
  unfold Spec.exception_routes_to_neglected. intros H.
  assert (Hin : In Examples.xgboost
                  (Analyser.neglected_results
                     (fst (Analyser.level_2 Examples.raises_once
                             Examples.fresh
                             ([] ++ Examples.xgboost :: [Examples.svm]))))).
  { apply H; [simpl; unfold settings.NUMBER_OF_KEYWORDS; lia
             |discriminate|reflexivity|reflexivity]. }
  vm_compute in Hin. destruct Hin as [E|[]]. discriminate E.
Qed.

(** C10. If anything raises inside the [try] block of [check_desc] (the
    search call, a [next] on its results, or a page fetch), [check_desc]
    returns [True]; [level_2] then appends the keyword to
    [filtered_results], as if it had been validated, and leaves
    [neglected_results] as it was. *)
Theorem check_desc_exception_accepted
  (check_link : nat -> string -> outcome bool)
  (driver_get : nat -> string -> Browsing.driver_result)
  (google_search : nat -> string -> outcome (list (outcome string)))
  (self : Analyser.state) (pre post : list Model.scored) (i : Model.scored) :
  let validator := fun n keyword =>
    Returns (Browsing.check_desc (check_link n) (driver_get n)
               (google_search n) keyword) in
  let reached :=
    Analyser.level_2_loop validator pre Analyser.validation_start in
  let n := Analyser.calls reached in
  List.length (Analyser.filtered reached) < settings.NUMBER_OF_KEYWORDS ->
  snd i <> "" ->
  Analyser.find_genericwords (snd i) = false ->
  Browsing.check_desc_try (check_link n) (driver_get n) (google_search n)
    (snd i) = Raises ->
  let final :=
    Analyser.level_2_loop validator post
      (Analyser.mk_validation (Analyser.filtered reached ++ [i])
         (Analyser.neglected reached) (S n)) in
  Browsing.check_desc (check_link n) (driver_get n) (google_search n) (snd i)
  = true
  /\ Analyser.level_2 validator self (pre ++ i :: post)
     = (Analyser.set_validation_results self
          (Analyser.filtered final) (Analyser.neglected final),
        Analyser.filtered final)
  /\ In i (Analyser.filtered final).
Proof.
  intros validator reached n Hroom Hkw Hgen Hraise final.
  assert (Htrue : Browsing.check_desc (check_link n) (driver_get n)
                    (google_search n) (snd i) = true).
  { unfold Browsing.check_desc. now rewrite Hraise. }
  split; [exact Htrue|]. split.
  - rewrite level_2_nonempty by (destruct pre; discriminate).
    rewrite (level_2_loop_reached validator pre post i
               Analyser.validation_start Hroom Hkw Hgen).
    cbn zeta. fold reached. fold n. unfold validator at 2 4 6.
    rewrite Htrue. reflexivity.
  - apply (level_2_loop_keeps validator post). cbn [Analyser.filtered].
    apply in_or_app. right. now left.
Qed.

(** The search is down while "XGBoost" is validated: the keyword is
    accepted.  "SVM" is validated next, finds nothing and is neglected. *)
Lemma check_desc_exception_accepted_witness :
  let validator := fun n keyword =>
    Returns (Browsing.check_desc (Examples.link_ok n) (Examples.blank_page n)
               (Examples.search_down_once n) keyword) in
  Browsing.check_desc (Examples.link_ok 0) (Examples.blank_page 0)
    (Examples.search_down_once 0) "XGBoost" = true
  /\ Analyser.level_2 validator Examples.fresh
       ([] ++ Examples.xgboost :: [Examples.svm])
     = (Analyser.set_validation_results Examples.fresh
          [Examples.xgboost] [Examples.svm],
        [Examples.xgboost]).
Proof.
  destruct (check_desc_exception_accepted Examples.link_ok
              Examples.blank_page Examples.search_down_once Examples.fresh
              [] [Examples.svm] Examples.xgboost) as (Htrue & Hrun & _).
  - simpl. unfold settings.NUMBER_OF_KEYWORDS. lia.
  - discriminate.
  - reflexivity.
  - reflexivity.
  - split; [exact Htrue|exact Hrun].
Defined.

(** ** Level 2, alternative: the LLM filter *)

(** C3, as the code has it. When [keyword_completion] reports a failure,
    [level_2_alt] falls back to the first five raw candidate texts and
    returns those of them that are not generic terms. *)
Theorem level_2_alt_failure_fallback
  (keyword_completion : list string -> LLM.LLMResponse (list string))
  (results : list Model.scored) :
  LLM.success (keyword_completion (map snd results)) = false ->
  Analyser.level_2_alt keyword_completion results
  = filter (fun keyword => negb (Analyser.find_genericwords keyword))
           (firstn 5 (map snd results)).
Proof.
  intros Hfail. unfold Analyser.level_2_alt.
  destruct results as [|r results]; [reflexivity|].
  rewrite Hfail. reflexivity.
Qed.

Lemma level_2_alt_failure_fallback_witness :
  Analyser.level_2_alt Examples.llm_down [Examples.xgboost; Examples.svm]
  = filter (fun keyword => negb (Analyser.find_genericwords keyword))
           (firstn 5 (map snd [Examples.xgboost; Examples.svm])).
Proof.
  apply (level_2_alt_failure_fallback Examples.llm_down
           [Examples.xgboost; Examples.svm]).
  reflexivity.
Defined.

(** With the LLM down, one candidate comes back: the output is not empty. *)
Lemma level_2_alt_failure_not_empty :
  ~ Spec.llm_failure_gives_empty Examples.llm_down [Examples.xgboost].
Proof.
  unfold Spec.llm_failure_gives_empty. intros H.
  assert (E : Analyser.level_2_alt Examples.llm_down [Examples.xgboost] = [])
    by (apply H; reflexivity).
  vm_compute in E. discriminate E.
Qed.

(** ** Level 3: literature search *)

Section Level3Facts.

Import Model Analyser.

Variable get_info : string -> outcome (list paper).

Lemma level_3_keywords_map (search_prefix : string) (results : list scored)
  (objects : list (list paper)) :
  level_3_keywords get_info search_prefix results objects
  = objects ++ map (Shape.query_result get_info search_prefix) results.
Proof.
  revert objects; induction results as [|r results IH]; intros objects;
    cbn [level_3_keywords map].
  - now rewrite app_nil_r.
  - unfold Shape.query_result at 1.
    destruct (snd r =? "")%string.
    + rewrite IH, <- app_assoc. reflexivity.
    + destruct (get_info (search_prefix ++ snd r)%string);
        rewrite IH, <- app_assoc; reflexivity.
Qed.

Lemma level_3_prefixes_map (prefixes : list string) (results : list scored)
  (answers : list (list (list paper))) :
  level_3_prefixes get_info prefixes results answers
  = answers
    ++ map (fun p => map (Shape.query_result get_info p) results) prefixes.
Proof.
  revert answers; induction prefixes as [|p prefixes IH]; intros answers;
    cbn [level_3_prefixes map].
  - now rewrite app_nil_r.
  - rewrite IH, level_3_keywords_map, <- app_assoc. reflexivity.
Qed.

Lemma level_3_nonempty (results : list scored) :
  results <> [] ->
  level_3 get_info results
  = map (fun p => map (Shape.query_result get_info p) results) prefix.
Proof.
  intros Hne; destruct results as [|r results]; [contradiction|].
  unfold level_3. now rewrite level_3_prefixes_map.
Qed.

End Level3Facts.

(** C7. For a non-empty list of K candidates, [level_3] returns three rows,
    one per search prefix, each of K cells; the cell at [i][j] holds the
    papers found for prefix [i] and candidate [j], and is the empty list when
    the query found nothing or raised.  One candidate whose three queries
    find nothing gives three rows of one empty cell. *)
Theorem level_3_shape (get_info : string -> outcome (list Analyser.paper))
  (results : list Model.scored) :
  results <> [] ->
  List.length (Analyser.level_3 get_info results) = 3
  /\ Forall (fun row => List.length row = List.length results)
            (Analyser.level_3 get_info results)
  /\ (forall i j p r,
        nth_error Analyser.prefix i = Some p ->
        nth_error results j = Some r ->
        Shape.cell_at (Analyser.level_3 get_info results) i j
        = Some (Shape.query_result get_info p r))
  /\ (forall p r,
        get_info (p ++ snd r)%string = Raises
        \/ get_info (p ++ snd r)%string = Returns [] ->
        Shape.query_result get_info p r = [])
  /\ (forall r,
        results = [r] ->
        (forall p, In p Analyser.prefix ->
                   get_info (p ++ snd r)%string = Returns []) ->
        Analyser.level_3 get_info results = [[[]]; [[]]; [[]]]).
Proof.
  intros Hne. rewrite (level_3_nonempty get_info results Hne).
  assert (Hq : forall p r,
             get_info (p ++ snd r)%string = Raises
             \/ get_info (p ++ snd r)%string = Returns [] ->
             Shape.query_result get_info p r = []).
  { intros p r H. unfold Shape.query_result.
    destruct (snd r =? "")%string; [reflexivity|].
    destruct H as [-> | ->]; reflexivity. }
  repeat split.
  - apply Forall_forall. intros row Hrow.
    apply in_map_iff in Hrow as (p & <- & _). apply length_map.
  - intros i j p r Hp Hr. unfold Shape.cell_at.
    rewrite nth_error_map, Hp. cbn [option_map].
    rewrite nth_error_map, Hr. reflexivity.
  - exact Hq.
  - intros r -> Hnone. unfold Analyser.prefix in *. cbn [map].
    rewrite !Hq; [reflexivity| | |]; right; apply Hnone; simpl; tauto.
Qed.

(** Scenario C: "XGBoost" alone, no paper found under any prefix. *)
Lemma level_3_shape_witness :
  Analyser.level_3 Examples.no_papers [Examples.xgboost] = [[[]]; [[]]; [[]]].
Proof.
  destruct (level_3_shape Examples.no_papers [Examples.xgboost])
    as (_ & _ & _ & _ & H).
  - discriminate.
  - apply (H Examples.xgboost); reflexivity.
Defined.

(** ** Level 4: attack classification *)

Section Level4Facts.

Import Model Analyser.

Variable get_page : string -> outcome string.

Lemma level_4_papers_split (papers filtered rejected : list paper) :
  level_4_papers get_page papers filtered rejected
  = (filtered
     ++ map (fun p => p ++ [attack_label (__find_attack_type
                                            match get_page (nth 2 p "") with
                                            | Returns page => page
                                            | Raises => ""
                                            end)])
            (filter (Shape.is_attack get_page) papers),
     rejected ++ filter (Shape.is_rejected get_page) papers).
Proof.
  revert filtered rejected; induction papers as [|p papers IH];
    intros f r; cbn [level_4_papers filter map].
  - now rewrite !app_nil_r.
  - unfold Shape.is_attack at 1, Shape.is_rejected at 1.
    destruct (List.length p <? 3) eqn:Hlen.
    + apply Nat.ltb_lt in Hlen.
      assert (H3 : (3 <=? List.length p) = false) by (apply Nat.leb_gt; lia).
      rewrite H3. cbn [andb]. apply IH.
    + apply Nat.ltb_ge in Hlen.
      assert (H3 : (3 <=? List.length p) = true) by (now apply Nat.leb_le).
      rewrite H3. cbn [andb].
      destruct (get_page (nth 2 p "")) as [|page] eqn:Hgp; [apply IH|].
      destruct ((__find_attack_type page =? 0)%Z || (__find_attack_type page =? 1)%Z);
        cbn [negb map]; rewrite ?Hgp, IH, <- !app_assoc; reflexivity.
Qed.

Lemma level_4_cells (results : list (list (list paper))) (i j : nat)
  (cell : list paper) :
  Shape.cell_at results i j = Some cell ->
  Shape.cell_at (fst (level_4 get_page results)) i j
  = Some (fst (level_4_papers get_page cell [] []))
  /\ Shape.cell_at (snd (level_4 get_page results)) i j
     = Some (snd (level_4_papers get_page cell [] [])).
Proof.
  unfold Shape.cell_at. intros Hcell.
  destruct results as [|row0 results]; [destruct i; discriminate Hcell|].
  unfold level_4. cbn [fst snd].
  rewrite !nth_error_map.
  destruct (nth_error (row0 :: results) i) as [row|]; [|discriminate].
  cbn [option_map]. rewrite !nth_error_map, Hcell. split; reflexivity.
Qed.

End Level4Facts.

(** C6, as the code has it. A paper of at least three fields whose page
    fetch fails ([get_page] returns its "None" sentinel) is put into the
    rejected structure at its own [prefix][keyword] position.  A paper of
    fewer than three fields is skipped: it is in neither structure. *)
Theorem level_4_routing (get_page : string -> outcome string)
  (results : list (list (list Analyser.paper))) (i j : nat)
  (cell : list Analyser.paper) (paper_info : Analyser.paper) :
  Shape.cell_at results i j = Some cell ->
  In paper_info cell ->
  exists attack_cell rejected_cell,
    Shape.cell_at (fst (Analyser.level_4 get_page results)) i j
    = Some attack_cell
    /\ Shape.cell_at (snd (Analyser.level_4 get_page results)) i j
       = Some rejected_cell
    /\ (3 <= List.length paper_info ->
        get_page (nth 2 paper_info "") = Returns "None" ->
        In paper_info rejected_cell)
    /\ (List.length paper_info < 3 ->
        ~ In paper_info rejected_cell
        /\ forall p, In p attack_cell -> 4 <= List.length p).
Proof.
  intros Hcell Hin.
  destruct (level_4_cells get_page results i j cell Hcell) as [Ha Hr].
  rewrite level_4_papers_split in Ha, Hr. cbn [fst snd app] in Ha, Hr.
  eexists; eexists. split; [exact Ha|]. split; [exact Hr|]. split.
  - intros Hlen Hnone. apply filter_In. split; [exact Hin|].
    unfold Shape.is_rejected. rewrite Hnone.
    apply Nat.leb_le in Hlen. rewrite Hlen. reflexivity.
  - intros Hlen. split.
    + intros Hrej. apply filter_In in Hrej as [_ Hrej].
      unfold Shape.is_rejected in Hrej.
      assert (H3 : (3 <=? List.length paper_info) = false)
        by (apply Nat.leb_gt; lia).
      rewrite H3 in Hrej. discriminate Hrej.
    + intros p Hp. apply in_map_iff in Hp as (q & <- & Hq).
      apply filter_In in Hq as [_ Hq]. unfold Shape.is_attack in Hq.
      apply andb_true_iff in Hq as [Hq _]. apply Nat.leb_le in Hq.
      rewrite length_app. simpl. lia.
Qed.

Lemma level_4_routing_witness :
  exists attack_cell rejected_cell,
    Shape.cell_at
      (fst (Analyser.level_4 Examples.fetch_fails
              [[[Examples.full_record; Examples.short_record]]])) 0 0
    = Some attack_cell
    /\ Shape.cell_at
         (snd (Analyser.level_4 Examples.fetch_fails
                 [[[Examples.full_record; Examples.short_record]]])) 0 0
       = Some rejected_cell
    /\ In Examples.full_record rejected_cell
    /\ ~ In Examples.short_record rejected_cell.
Proof.
  destruct (level_4_routing Examples.fetch_fails
              [[[Examples.full_record; Examples.short_record]]] 0 0
              [Examples.full_record; Examples.short_record]
              Examples.full_record eq_refl (or_introl eq_refl))
    as (a & r & Ha & Hr & Hfull & _).
  destruct (level_4_routing Examples.fetch_fails
              [[[Examples.full_record; Examples.short_record]]] 0 0
              [Examples.full_record; Examples.short_record]
              Examples.short_record eq_refl (or_intror (or_introl eq_refl)))
    as (a' & r' & _ & Hr' & _ & Hshort).
  assert (E : r' = r) by congruence. subst r'.
  exists a, r. split; [exact Ha|]. split; [exact Hr|]. split.
  - apply Hfull; [simpl; lia|reflexivity].
  - apply Hshort. simpl; lia.
Defined.

(** A paper of two fields is dropped, not rejected. *)
Lemma level_4_short_record_dropped :
  ~ Spec.short_record_rejected Examples.fetch_fails
      [[[Examples.short_record]]] 0 0 Examples.short_record.
Proof.
  unfold Spec.short_record_rejected. intros H.
  destruct (H [Examples.short_record] eq_refl (or_introl eq_refl))
    as (rc & Hrc & Hin).
  - simpl; lia.
  - vm_compute in Hrc. injection Hrc as <-. exact Hin.
Qed.

(** ** Level 1: the order of Python tuples *)

Section TupleOrder.

Import Model Shape.

Lemma string_compare_lt_trans (a b c : string) :
  String.compare a b = Lt -> String.compare b c = Lt ->
  String.compare a c = Lt.
Proof.
  revert b c; induction a as [|x a IH]; intros [|y b] [|z c]; simpl;
    try discriminate; try reflexivity.
  unfold Ascii.compare.
  destruct (N.compare_spec (N_of_ascii x) (N_of_ascii y)),
           (N.compare_spec (N_of_ascii y) (N_of_ascii z)),
           (N.compare_spec (N_of_ascii x) (N_of_ascii z));
    try discriminate; try lia; eauto.
Qed.

Lemma string_compare_ge_trans (a b c : string) :
  String.compare a b <> Lt -> String.compare b c <> Lt ->
  String.compare a c <> Lt.
Proof.
  intros Hab Hbc Hac.
  destruct (String.compare a b) eqn:Eab; [| congruence |].
  - apply String.compare_eq_iff in Eab. subst b. contradiction.
  - destruct (String.compare b c) eqn:Ebc; [| congruence |].
    + apply String.compare_eq_iff in Ebc. subst c. congruence.
    + rewrite String.compare_antisym in Ebc.
      destruct (String.compare c b) eqn:Ecb; try discriminate.
      rewrite String.compare_antisym in Eab.
      destruct (String.compare b a) eqn:Eba; try discriminate.
      pose proof (string_compare_lt_trans _ _ _ Ecb Eba) as Hca.
      rewrite String.compare_antisym, Hca in Hac. discriminate.
Qed.

Lemma desc_iff (a b : scored) : desc a b <-> tuple_compare a b <> Lt.
Proof.
  unfold desc, tuple_ltb. destruct (tuple_compare a b); split; congruence.
Qed.

Lemma tuple_ltb_asym (a b : scored) : tuple_ltb a b = true -> desc b a.
Proof.
  unfold desc, tuple_ltb, tuple_compare.
  rewrite <- (Qcompare_antisym (fst a) (fst b)), (String.compare_antisym (snd b)).
  destruct (Qcompare (fst a) (fst b)); simpl; try discriminate; try reflexivity.
  destruct (String.compare (snd a) (snd b)); simpl; try discriminate;
    reflexivity.
Qed.

Lemma desc_trans (a b c : scored) : desc a b -> desc b c -> desc a c.
Proof.
  rewrite !desc_iff. unfold tuple_compare.
  destruct (Qcompare_spec (fst a) (fst b)) as [Eab|Lab|Gab],
           (Qcompare_spec (fst b) (fst c)) as [Ebc|Lbc|Gbc],
           (Qcompare_spec (fst a) (fst c)) as [Eac|Lac|Gac];
    intros Hab Hbc; try congruence; try (exfalso; lra).
  eapply string_compare_ge_trans; eassumption.
Qed.

(** Two answers in descending order with different texts are in strictly
    descending order: by confidence, then by text. *)
Lemma desc_before (a b : scored) :
  desc a b -> snd a <> snd b -> before a b.
Proof.
  rewrite desc_iff. unfold tuple_compare, before, String.ltb.
  destruct (Qcompare_spec (fst a) (fst b)) as [E|L|G]; intros Hc Hne.
  - right. split; [exact E|].
    rewrite String.compare_antisym.
    destruct (String.compare (snd a) (snd b)) eqn:Ec; try congruence.
    + apply String.compare_eq_iff in Ec. contradiction.
    + reflexivity.
  - congruence.
  - left. exact G.
Qed.

End TupleOrder.

(** ** Level 1: sorting *)

Section SortFacts.

Import Model Shape.

Lemma insert_desc_perm (x : scored) (l : list scored) :
  Permutation (x :: l) (insert_desc x l).
Proof.
  induction l as [|y l IH]; simpl; [apply Permutation_refl|].
  destruct (tuple_ltb y x); [apply Permutation_refl|].
  eapply Permutation_trans; [apply perm_swap|]. now apply perm_skip.
Qed.

Lemma sort_into_perm (l sorted : list scored) :
  Permutation (l ++ sorted) (sort_into l sorted).
Proof.
  revert sorted; induction l as [|x l IH]; intros sorted; simpl;
    [apply Permutation_refl|].
  eapply Permutation_trans; [|apply IH].
  eapply Permutation_trans; [apply Permutation_middle|].
  apply Permutation_app_head, insert_desc_perm.
Qed.

Lemma sort_reverse_perm (l : list scored) : Permutation l (sort_reverse l).
Proof.
  unfold sort_reverse. rewrite <- (app_nil_r l) at 1. apply sort_into_perm.
Qed.

Lemma insert_desc_sorted (x : scored) (l : list scored) :
  StronglySorted desc l -> StronglySorted desc (insert_desc x l).
Proof.
  induction 1 as [|y l Hs IH Hy]; simpl.
  - repeat constructor.
  - destruct (tuple_ltb y x) eqn:Hlt.
    + constructor; [now constructor|].
      apply tuple_ltb_asym in Hlt. constructor; [exact Hlt|].
      eapply Forall_impl; [|exact Hy].
      intros z Hz. now apply desc_trans with y.
    + constructor; [exact IH|].
      eapply Permutation_Forall; [apply insert_desc_perm|].
      constructor; [exact Hlt|exact Hy].
Qed.

Lemma sort_into_sorted (l sorted : list scored) :
  StronglySorted desc sorted -> StronglySorted desc (sort_into l sorted).
Proof.
  revert sorted; induction l as [|x l IH]; intros sorted Hs; simpl;
    [exact Hs|].
  now apply IH, insert_desc_sorted.
Qed.

Lemma sort_reverse_sorted (l : list scored) :
  StronglySorted desc (sort_reverse l).
Proof. apply sort_into_sorted. constructor. Qed.

Lemma StronglySorted_drop {A : Type} (R : A -> A -> Prop)
  (l1 l2 : list A) (a : A) :
  StronglySorted R (l1 ++ a :: l2) -> StronglySorted R (l1 ++ l2).
Proof.
  induction l1 as [|x l1 IH]; simpl; intros H.
  - now inversion H.
  - inversion H as [|? ? Hs Hx]; subst. constructor; [now apply IH|].
    apply Forall_app in Hx as [H1 H2]. apply Forall_app. split; [exact H1|].
    now inversion H2.
Qed.

End SortFacts.

(** ** Level 1: removing duplicates *)

Section DedupFacts.

Import Model Analyser Shape.

(** [check_presence] of a text in a list of answers is the exact equality of
    that text with one of the texts kept. *)
Lemma check_presence_text (t : string) (kept : list scored) :
  Helper_functions.check_presence (Helper_functions.VStr t) (map to_tuple kept)
  = true
  <-> In t (map snd kept).
Proof.
  induction kept as [|[s u] kept IH]; simpl.
  - split; [discriminate|contradiction].
  - rewrite orb_false_r. destruct (String.eqb_spec u t) as [->|Hne].
    + split; auto.
    + rewrite IH. split; [auto|]. intros [E|H]; [contradiction|exact H].
Qed.

Lemma remove_duplicates_NoDup (rest kept : list scored) :
  NoDup (map snd kept) -> NoDup (map snd (remove_duplicates rest kept)).
Proof.
  revert kept; induction rest as [|a rest IH]; intros kept Hk; simpl;
    [exact Hk|].
  apply IH. unfold dedup_step.
  destruct (Helper_functions.check_presence _ _) eqn:Hcp; [exact Hk|].
  rewrite map_app. simpl.
  apply NoDup_app; [exact Hk|repeat constructor; simpl; tauto|].
  intros t Ht [<-|[]].
  apply check_presence_text in Ht. congruence.
Qed.

Lemma remove_duplicates_sorted (R : scored -> scored -> Prop)
  (rest kept : list scored) :
  StronglySorted R (kept ++ rest) ->
  StronglySorted R (remove_duplicates rest kept).
Proof.
  revert kept; induction rest as [|a rest IH]; intros kept Hs; simpl.
  - now rewrite app_nil_r in Hs.
  - apply IH. unfold dedup_step.
    destruct (Helper_functions.check_presence _ _).
    + now apply StronglySorted_drop in Hs.
    + now rewrite <- app_assoc.
Qed.

Lemma remove_duplicates_incl (rest kept : list scored) :
  incl (remove_duplicates rest kept) (kept ++ rest).
Proof.
  revert kept; induction rest as [|a rest IH]; intros kept; simpl.
  - rewrite app_nil_r. apply incl_refl.
  - intros x Hx. apply IH in Hx. unfold dedup_step in Hx.
    destruct (Helper_functions.check_presence _ _).
    + apply in_app_or in Hx as [H|H]; apply in_or_app; [now left|right; now right].
    + rewrite <- app_assoc in Hx. exact Hx.
Qed.

Lemma merge_incl (answer : list scored) : incl (merge answer) answer.
Proof.
  unfold merge. intros x Hx.
  apply (Permutation_in x (Permutation_sym (sort_reverse_perm answer))).
  destruct (sort_reverse answer) as [|first rest]; [destruct Hx|].
  now apply remove_duplicates_incl in Hx.
Qed.

Lemma merge_NoDup (answer : list scored) : NoDup (map snd (merge answer)).
Proof.
  unfold merge. destruct (sort_reverse answer) as [|first rest];
    [constructor|].
  apply remove_duplicates_NoDup. repeat constructor. simpl; tauto.
Qed.

Lemma merge_sorted (answer : list scored) : StronglySorted desc (merge answer).
Proof.
  unfold merge. pose proof (sort_reverse_sorted answer) as Hs.
  destruct (sort_reverse answer) as [|first rest]; [constructor|].
  now apply remove_duplicates_sorted.
Qed.

Lemma strictly_sorted (l : list scored) :
  StronglySorted desc l -> NoDup (map snd l) ->
  StronglySorted before l.
Proof.
  induction 1 as [|a l Hs IH Ha]; intros Hnd; [constructor|].
  simpl in Hnd. inversion Hnd as [|? ? Hnotin Hnd']; subst.
  constructor; [now apply IH|].
  apply Forall_forall. intros b Hb. rewrite Forall_forall in Ha.
  apply desc_before; [now apply Ha|].
  intros E. apply Hnotin. rewrite E. now apply in_map.
Qed.

End DedupFacts.

(** ** Level 1: the question-answering pass *)

Section AnalyseFacts.

Import Model Analyser Shape.

Variable nlp : string -> string -> outcome (option qa_result).

Lemma Qltb_lt (x y : Q) : Qltb x y = true -> (x < y)%Q.
Proof.
  unfold Qltb. intros H. apply Qlt_alt.
  destruct (Qcompare x y); [discriminate|reflexivity|discriminate].
Qed.

Lemma analyse_loop_answers (all : list string) (question : string)
  (pages : list string) (answer : list scored) :
  incl pages all ->
  Forall (answers_question nlp all question) answer ->
  Forall (answers_question nlp all question)
         (analyse_loop nlp question pages answer).
Proof.
  revert answer; induction pages as [|c pages IH]; intros answer Hincl Ha;
    cbn [analyse_loop]; [exact Ha|].
  assert (Hc : In c all) by (apply Hincl; now left).
  assert (Hincl' : incl pages all)
    by (intros x Hx; apply Hincl; now right).
  destruct ((c =? "")%string || (PyStr.strip c =? "")%string); [now apply IH|].
  destruct (nlp question c) as [|[res|]] eqn:Hnlp; try now apply IH.
  destruct (Qltb CONF_FLOOR (score res)) eqn:Hfloor; [|now apply IH].
  apply IH; [exact Hincl'|]. apply Forall_app. split; [exact Ha|].
  constructor; [|constructor].
  exists c, res. repeat split; trivial. now apply Qltb_lt.
Qed.

Lemma analyse_pages_answers (pages : list string) (question : string) :
  Forall (answers_question nlp pages question)
         (analyse_pages nlp pages question).
Proof.
  unfold analyse_pages. destruct pages as [|c pages]; [constructor|].
  destruct (question =? "")%string; [constructor|].
  eapply Permutation_Forall; [apply sort_reverse_perm|].
  apply analyse_loop_answers; [apply incl_refl|constructor].
Qed.

Lemma answers_question_floor (pages : list string) (question : string)
  (a : scored) :
  answers_question nlp pages question a -> (CONF_FLOOR < fst a)%Q.
Proof. intros (c & res & _ & _ & Hfloor & ->). exact Hfloor. Qed.

End AnalyseFacts.

Section AnalyseExt.

Import Model Analyser.

(** The answers to a question depend on the model's replies to that
    question only. *)
Lemma analyse_pages_ext
  (nlp nlp' : string -> string -> outcome (option qa_result))
  (pages : list string) (question : string) :
  (forall context, nlp' question context = nlp question context) ->
  analyse_pages nlp' pages question = analyse_pages nlp pages question.
Proof.
  intros Hext. unfold analyse_pages.
  destruct pages as [|c0 pages0]; [reflexivity|].
  destruct (question =? "")%string; [reflexivity|]. f_equal.
  generalize (@nil scored). generalize (c0 :: pages0) as pages.
  induction pages as [|c pages IH]; intros answer; cbn [analyse_loop];
    [reflexivity|].
  rewrite Hext.
  destruct ((c =? "")%string || (PyStr.strip c =? "")%string); [apply IH|].
  destruct (nlp question c) as [|[res|]]; try apply IH.
  destruct (Qltb CONF_FLOOR (score res)); apply IH.
Qed.

End AnalyseExt.

(** C1, as the code has it. The duplicates that [level_1] removes are exact
    ones: [check_presence] looks for the text among the fields of the tuples
    kept so far, so a later answer is rejected exactly when its text is
    equal to the text of an answer already kept.  No two elements of
    [initial_results] have the same text. *)
Theorem level_1_dedup_exact
  (nlp : string -> string -> outcome (option Model.qa_result))
  (self : Analyser.state) (pages : list string) :
  NoDup (map snd (snd (Analyser.level_1 nlp self pages)))
  /\ (forall (kept : list Model.scored) (a : Model.scored),
        Analyser.dedup_step kept a = kept
        <-> exists b, In b kept /\ snd b = snd a).
Proof.
  split.
  - unfold Analyser.level_1. destruct pages as [|c pages]; [constructor|].
    cbn [snd]. apply merge_NoDup.
  - intros kept a. unfold Analyser.dedup_step.
    destruct (Helper_functions.check_presence _ _) eqn:Hcp.
    + split; [intros _|reflexivity].
      apply check_presence_text in Hcp.
      apply in_map_iff in Hcp as (b & E & Hb). now exists b.
    + split.
      * intros E. rewrite <- (app_nil_r kept) in E at 2.
        apply app_inv_head in E. discriminate E.
      * intros (b & Hb & E). exfalso.
        assert (Hin : In (snd a) (map snd kept))
          by (rewrite <- E; now apply in_map).
        apply check_presence_text in Hin. congruence.
Qed.

Lemma level_1_dedup_exact_witness :
  NoDup (map snd (snd (Analyser.level_1 Examples.qa_contained Examples.fresh
                         [Examples.paragraph_1; Examples.paragraph_2]))).
Proof.
  apply (level_1_dedup_exact Examples.qa_contained Examples.fresh
           [Examples.paragraph_1; Examples.paragraph_2]).
Defined.

(** "XGBoost" is kept below "XGBoost classifier", of which it is a
    substring. *)
Lemma level_1_keeps_contained_text :
  ~ Spec.containment_dedup
      (snd (Analyser.level_1 Examples.qa_contained Examples.fresh
              [Examples.paragraph_1; Examples.paragraph_2])).
Proof.
  intros H.
  specialize (H 0 1 (9 # 10, "XGBoost classifier") (1 # 2, "XGBoost")).
  assert (E : PyStr.str_in "XGBoost" "XGBoost classifier" = false).
  { apply H; [lia|reflexivity|reflexivity]. }
  vm_compute in E. discriminate E.
Qed.

(** C5, as the code has it. [level_1] sorts the tuples themselves, highest
    first: [initial_results] is in descending order of confidence and, among
    answers of equal confidence, in descending order of text.  The result is
    a function of the paragraphs and of the model's replies. *)
Theorem level_1_order
  (nlp : string -> string -> outcome (option Model.qa_result))
  (self : Analyser.state) (pages : list string) :
  StronglySorted Shape.before (snd (Analyser.level_1 nlp self pages))
  /\ (forall nlp',
        (forall question context,
            nlp' question context = nlp question context) ->
        Analyser.level_1 nlp' self pages = Analyser.level_1 nlp self pages).
Proof.
  split.
  - unfold Analyser.level_1. destruct pages as [|c pages]; [constructor|].
    cbn [snd]. apply strictly_sorted; [apply merge_sorted|apply merge_NoDup].
  - intros nlp' Hext. unfold Analyser.level_1, Analyser.pooled_answers.
    destruct pages as [|c pages]; [reflexivity|].
    rewrite !(analyse_pages_ext nlp nlp') by (intros; apply Hext).
    reflexivity.
Qed.

(** Two runs with models that give the same replies. *)
Lemma level_1_order_witness :
  Analyser.level_1 Examples.qa_tied_again Examples.fresh
    [Examples.paragraph_1; Examples.paragraph_2]
  = Analyser.level_1 Examples.qa_tied Examples.fresh
      [Examples.paragraph_1; Examples.paragraph_2]
  /\ StronglySorted Shape.before
       (snd (Analyser.level_1 Examples.qa_tied Examples.fresh
               [Examples.paragraph_1; Examples.paragraph_2])).
Proof.
  destruct (level_1_order Examples.qa_tied Examples.fresh
              [Examples.paragraph_1; Examples.paragraph_2]) as [Hs Hext].
  split; [|exact Hs].
  apply (Hext Examples.qa_tied_again). intros question context.
  unfold Examples.qa_tied_again, Examples.qa_tied.
  destruct (String.eqb question settings.QUESTION_1),
           (String.eqb question settings.QUESTION_2),
           (String.eqb context Examples.paragraph_1); reflexivity.
Defined.

(** "CNN" is discovered before "SVM" with the same confidence, and comes
    out after it. *)
Lemma level_1_ties_follow_text :
  ~ Spec.ties_keep_discovery_order Examples.qa_tied Examples.fresh
      [Examples.paragraph_1; Examples.paragraph_2].
Proof.
  unfold Spec.ties_keep_discovery_order. intros E.
  vm_compute in E. discriminate E.
Qed.

(** ** Level 1: pooling the answers *)

Section MergeFacts.

Import Model Analyser Shape.

Lemma string_compare_refl (s : string) : String.compare s s = Eq.
Proof.
  pose proof (String.compare_antisym s s) as H.
  destruct (String.compare s s); [reflexivity|discriminate|discriminate].
Qed.

Lemma desc_refl (a : scored) : desc a a.
Proof.
  unfold desc, tuple_ltb, tuple_compare.
  destruct (Qcompare_spec (fst a) (fst a)) as [_|H|H].
  - now rewrite string_compare_refl.
  - exfalso. now apply Qlt_irrefl in H.
  - reflexivity.
Qed.

Lemma desc_le (a b : scored) : desc b a -> (fst a <= fst b)%Q.
Proof.
  rewrite desc_iff. unfold tuple_compare.
  destruct (Qcompare_spec (fst b) (fst a)) as [E|L|G]; intros H.
  - rewrite E. apply Qle_refl.
  - congruence.
  - now apply Qlt_le_weak.
Qed.

Lemma StronglySorted_across {A : Type} (R : A -> A -> Prop)
  (l1 l2 : list A) (k x : A) :
  StronglySorted R (l1 ++ x :: l2) -> In k l1 -> R k x.
Proof.
  induction l1 as [|y l1 IH]; intros Hs Hk; [destruct Hk|].
  inversion Hs as [|? ? Hs' Hy]; subst. destruct Hk as [->|Hk].
  - rewrite Forall_forall in Hy. apply Hy, in_or_app. right. now left.
  - now apply IH.
Qed.

Lemma remove_duplicates_keeps (rest kept : list scored) :
  incl kept (remove_duplicates rest kept).
Proof.
  revert kept; induction rest as [|x rest IH]; intros kept;
    cbn [remove_duplicates]; [apply incl_refl|].
  intros a Ha. apply IH. unfold dedup_step.
  destruct (Helper_functions.check_presence _ _); [exact Ha|].
  apply in_or_app. now left.
Qed.

(** Every answer given to the loop has its text in the result, carried by an
    answer that is not ranked below it. *)
Lemma remove_duplicates_best (rest kept : list scored) :
  StronglySorted desc (kept ++ rest) ->
  forall a, In a (kept ++ rest) ->
  exists b, In b (remove_duplicates rest kept) /\ snd b = snd a /\ desc b a.
Proof.
  revert kept; induction rest as [|x rest IH]; intros kept Hs a Ha;
    cbn [remove_duplicates].
  - rewrite app_nil_r in Ha. exists a. repeat split; trivial.
    apply desc_refl.
  - unfold dedup_step.
    destruct (Helper_functions.check_presence _ _) eqn:Hcp.
    + apply in_app_or in Ha as [Ha|[<-|Ha]].
      * apply (IH kept); [now apply StronglySorted_drop in Hs|].
        apply in_or_app. now left.
      * apply check_presence_text in Hcp.
        apply in_map_iff in Hcp as (k & Ek & Hk).
        exists k. split; [now apply remove_duplicates_keeps|].
        split; [exact Ek|]. now apply (StronglySorted_across _ _ _ _ _ Hs).
      * apply (IH kept); [now apply StronglySorted_drop in Hs|].
        apply in_or_app. now right.
    + apply (IH (kept ++ [x])); rewrite <- app_assoc; assumption.
Qed.

Lemma merge_best (answer : list scored) (a : scored) :
  In a answer ->
  exists b, In b (merge answer) /\ snd b = snd a /\ (fst a <= fst b)%Q.
Proof.
  intros Ha. unfold merge.
  pose proof (sort_reverse_sorted answer) as Hs.
  apply (Permutation_in a (sort_reverse_perm answer)) in Ha.
  destruct (sort_reverse answer) as [|first rest]; [destruct Ha|].
  destruct (remove_duplicates_best rest [first] Hs a Ha) as (b & Hb & E & Hd).
  exists b. repeat split; trivial. now apply desc_le.
Qed.

Lemma merge_empty (answer : list scored) : merge answer = [] <-> answer = [].
Proof.
  split.
  - intros E. destruct answer as [|a answer]; [reflexivity|].
    destruct (merge_best (a :: answer) a) as (b & Hb & _); [now left|].
    rewrite E in Hb. destruct Hb.
  - intros ->. reflexivity.
Qed.

End MergeFacts.

Section PoolFacts.

Import Model Analyser Shape.

Variable nlp : string -> string -> outcome (option qa_result).

Lemma Qlt_ltb (x y : Q) : (x < y)%Q -> Qltb x y = true.
Proof.
  intros H. unfold Qltb.
  destruct (Qcompare_spec x y) as [E|L|G]; [|reflexivity|].
  - rewrite E in H. now apply Qlt_irrefl in H.
  - exfalso. apply (Qlt_irrefl x). now apply (Qlt_trans _ y).
Qed.

Lemma analyse_loop_keeps (question : string) (pages : list string)
      (answer : list scored) (a : scored) :
  In a answer -> In a (analyse_loop nlp question pages answer).
Proof.
  revert answer; induction pages as [|p pages IH]; intros answer Ha;
    cbn [analyse_loop]; [exact Ha|].
  destruct (String.eqb p "" || String.eqb (PyStr.strip p) "");
    [now apply IH|].
  destruct (nlp question p) as [|[res|]]; try now apply IH.
  destruct (Qltb CONF_FLOOR (score res)); apply IH; [|exact Ha].
  apply in_or_app. now left.
Qed.

(** An answer above the floor, given on a paragraph that is not blank, is in
    the list the loop builds. *)
Lemma analyse_loop_complete (question : string) (pages : list string)
      (answer : list scored) (context : string) (res : qa_result) :
  In context pages ->
  PyStr.strip context <> "" ->
  nlp question context = Returns (Some res) ->
  (CONF_FLOOR < score res)%Q ->
  In (score res,
      PyStr.replace_char PyStr.newline " "%char
        (PyStr.strip (answer_text res)))
     (analyse_loop nlp question pages answer).
Proof.
  intros Hin Hs Hnlp Hfloor.
  revert answer; induction pages as [|p pages IH]; intros answer;
    [destruct Hin|].
  cbn [analyse_loop]. destruct Hin as [->|Hin].
  - destruct (String.eqb_spec context "") as [E|_];
      [subst context; now elim Hs|].
    destruct (String.eqb_spec (PyStr.strip context) "") as [E|_];
      [contradiction|].
    cbn [orb]. rewrite Hnlp, (Qlt_ltb _ _ Hfloor).
    apply analyse_loop_keeps, in_or_app. right. now left.
  - destruct (String.eqb p "" || String.eqb (PyStr.strip p) "");
      [now apply IH|].
    destruct (nlp question p) as [|[r|]]; try now apply IH.
    destruct (Qltb CONF_FLOOR (score r)); now apply IH.
Qed.

Lemma analyse_pages_complete (question : string) (pages : list string)
      (context : string) (res : qa_result) :
  question <> "" ->
  In context pages ->
  PyStr.strip context <> "" ->
  nlp question context = Returns (Some res) ->
  (CONF_FLOOR < score res)%Q ->
  In (score res,
      PyStr.replace_char PyStr.newline " "%char
        (PyStr.strip (answer_text res)))
     (analyse_pages nlp pages question).
Proof.
  intros Hq Hin Hs Hnlp Hfloor. unfold analyse_pages.
  destruct pages as [|p pages]; [destruct Hin|].
  destruct (String.eqb_spec question "") as [E|_]; [contradiction|].
  apply (Permutation_in _ (sort_reverse_perm _)).
  now apply (analyse_loop_complete question (p :: pages) [] context res).
Qed.

End PoolFacts.

(** C9. [level_1] pools the answers of the first three questions and keeps
    the fourth apart.  Every answer that it returns was given by the model
    to one of the first three questions with a confidence above the floor
    [1e-2]; and every answer above the floor that the model gives to one of
    the first three questions, on a paragraph that is not blank, reaches the
    returned list: its text is there, with a confidence at least as high
    (the removal of duplicates keeps one answer per text, the best).  On a
    non-empty paragraph list the returned list is [initial_results], and
    [additional_results] receives the answers to the fourth question, all
    above the floor too.  The answers to the fourth question have no part in
    [initial_results]: a model that differs on the fourth question only
    gives the same list. *)
Theorem level_1_pools_three_questions
  (nlp : string -> string -> outcome (option Model.qa_result))
  (self : Analyser.state) (pages : list string) :
  let r := Analyser.level_1 nlp self pages in
  Forall (fun a =>
            (Model.CONF_FLOOR < fst a)%Q
            /\ (Shape.answers_question nlp pages settings.QUESTION_1 a
                \/ Shape.answers_question nlp pages settings.QUESTION_2 a
                \/ Shape.answers_question nlp pages settings.QUESTION_3 a))
         (snd r)
  /\ (forall question context res,
        In question [settings.QUESTION_1; settings.QUESTION_2;
                     settings.QUESTION_3] ->
        In context pages ->
        PyStr.strip context <> "" ->
        nlp question context = Returns (Some res) ->
        (Model.CONF_FLOOR < Model.score res)%Q ->
        exists b,
          In b (snd r)
          /\ snd b = PyStr.replace_char PyStr.newline " "%char
                       (PyStr.strip (Model.answer_text res))
          /\ (Model.score res <= fst b)%Q)
  /\ (pages <> [] ->
      Analyser.initial_results (fst r) = snd r
      /\ Analyser.additional_results (fst r)
         = Model.analyse_pages nlp pages settings.QUESTION_4
      /\ Forall (Shape.answers_question nlp pages settings.QUESTION_4)
                (Analyser.additional_results (fst r)))
  /\ (forall nlp',
        (forall context,
            nlp' settings.QUESTION_1 context = nlp settings.QUESTION_1 context) ->
        (forall context,
            nlp' settings.QUESTION_2 context = nlp settings.QUESTION_2 context) ->
        (forall context,
            nlp' settings.QUESTION_3 context = nlp settings.QUESTION_3 context) ->
        snd (Analyser.level_1 nlp' self pages) = snd r).
Proof.
  intros r. subst r. split; [|split; [|split]].
  - unfold Analyser.level_1. destruct pages as [|c pages]; [constructor|].
    cbn [snd]. apply Forall_forall. intros a Ha.
    apply merge_incl in Ha. unfold Analyser.pooled_answers in Ha.
    pose proof (analyse_pages_answers nlp (c :: pages) settings.QUESTION_1) as H1.
    pose proof (analyse_pages_answers nlp (c :: pages) settings.QUESTION_2) as H2.
    pose proof (analyse_pages_answers nlp (c :: pages) settings.QUESTION_3) as H3.
    rewrite Forall_forall in H1, H2, H3.
    apply in_app_or in Ha as [Ha|Ha]; [|apply in_app_or in Ha as [Ha|Ha]].
    + split; [eapply answers_question_floor|left]; now apply H1.
    + split; [eapply answers_question_floor|right; left]; now apply H2.
    + split; [eapply answers_question_floor|right; right]; now apply H3.
  - intros question context res Hq Hin Hs Hnlp Hfloor.
    assert (Hpool : In (Model.score res,
                        PyStr.replace_char PyStr.newline " "%char
                          (PyStr.strip (Model.answer_text res)))
                       (Analyser.pooled_answers nlp pages)).
    { unfold Analyser.pooled_answers.
      destruct Hq as [<-|[<-|[<-|[]]]].
      - apply in_or_app. left.
        apply (analyse_pages_complete nlp _ pages context res); trivial.
        discriminate.
      - apply in_or_app. right. apply in_or_app. left.
        apply (analyse_pages_complete nlp _ pages context res); trivial.
        discriminate.
      - apply in_or_app. right. apply in_or_app. right.
        apply (analyse_pages_complete nlp _ pages context res); trivial.
        discriminate. }
    destruct pages as [|c pages]; [destruct Hin|].
    unfold Analyser.level_1. cbn [snd].
    apply (merge_best _ _ Hpool).
  - intros Hne. destruct pages as [|c pages]; [contradiction|].
    unfold Analyser.level_1. cbn [fst snd Analyser.initial_results
      Analyser.additional_results Analyser.set_initial_results
      Analyser.set_additional_results].
    repeat split. apply analyse_pages_answers.
  - intros nlp' E1 E2 E3. unfold Analyser.level_1, Analyser.pooled_answers.
    destruct pages as [|c pages]; [reflexivity|]. cbn [snd].
    rewrite (analyse_pages_ext nlp nlp' _ _ E1),
      (analyse_pages_ext nlp nlp' _ _ E2),
      (analyse_pages_ext nlp nlp' _ _ E3).
    reflexivity.
Qed.

(** A model that answers "CT images" to the fourth question: the answer is
    in [additional_results] only, and [initial_results] is what the model
    without that answer gives; the answer "XGBoost" that the first question
    gets on the second paragraph is in it. *)
Lemma level_1_pools_three_questions_witness :
  let r := Analyser.level_1 Examples.qa_with_format Examples.fresh
             [Examples.paragraph_1; Examples.paragraph_2] in
  Analyser.initial_results (fst r) = snd r
  /\ Analyser.additional_results (fst r) = [(7 # 10, "CT images")]
  /\ snd (Analyser.level_1 Examples.qa_contained Examples.fresh
            [Examples.paragraph_1; Examples.paragraph_2])
     = snd r
  /\ exists b, In b (snd r) /\ snd b = "XGBoost" /\ (1 # 2 <= fst b)%Q.
Proof.
  destruct (level_1_pools_three_questions Examples.qa_with_format
              Examples.fresh [Examples.paragraph_1; Examples.paragraph_2])
    as (_ & Hpool & Hstate & Hind).
  destruct Hstate as (Hinit & Hadd & _); [discriminate|].
  split; [exact Hinit|]. split; [|split].
  - rewrite Hadd. reflexivity.
  - apply (Hind Examples.qa_contained); intros context; reflexivity.
  - apply (Hpool settings.QUESTION_1 Examples.paragraph_2
             (Model.mk_qa_result (1 # 2) "XGBoost")).
    + left. reflexivity.
    + right. left. reflexivity.
    + vm_compute. discriminate.
    + reflexivity.
    + reflexivity.
Defined.

(** * Further properties *)

(** ** The pattern tables *)

Section PatternFacts.

Import Analyser.

Lemma match_here_app (p : Re.pattern) (s t : string) :
  Re.match_here p s = true -> Re.match_here p (s ++ t)%string = true.
Proof.
  revert s; induction p as [|[c|] p IH]; intros s.
  - reflexivity.
  - destruct s as [|a s]; cbn [Re.match_here String.append];
      [discriminate|].
    intros H. apply andb_true_iff in H as [Ha Hs].
    rewrite Ha. cbn [andb]. now apply IH.
  - cbn [Re.match_here].
    set (star := fix star (s : string) : bool :=
           Re.match_here p s
           || match s with
              | EmptyString => false
              | String a s' => PyStr.is_space a && star s'
              end).
    assert (Hstar : forall u, star u = Re.match_here p u
                    || match u with
                       | EmptyString => false
                       | String a u' => PyStr.is_space a && star u'
                       end) by (intros [|? ?]; reflexivity).
    induction s as [|a s IHs]; intros H; rewrite Hstar in H.
    + apply orb_true_iff in H as [H|H]; [|discriminate].
      apply IH in H. rewrite Hstar, H. reflexivity.
    + cbn [String.append]. rewrite Hstar.
      apply orb_true_iff in H as [H|H].
      * apply IH in H. cbn [String.append] in H. rewrite H. reflexivity.
      * apply andb_true_iff in H as [Ha Hs].
        rewrite Ha, (IHs Hs). apply orb_true_r.
Qed.

Lemma search_app (p : Re.pattern) (s t : string) :
  Re.search p s = true -> Re.search p (s ++ t)%string = true.
Proof.
  assert (Hsearch : forall u, Re.search p u = Re.match_here p u
                    || match u with
                       | EmptyString => false
                       | String _ u' => Re.search p u'
                       end) by (intros [|? ?]; reflexivity).
  induction s as [|a s IH]; intros H; rewrite Hsearch in H.
  - apply orb_true_iff in H as [H|H]; [|discriminate].
    apply match_here_app with (t := t) in H.
    rewrite Hsearch, H. reflexivity.
  - cbn [String.append]. rewrite Hsearch.
    apply orb_true_iff in H as [H|H].
    + apply match_here_app with (t := t) in H.
      cbn [String.append] in H. rewrite H. reflexivity.
    + rewrite (IH H). apply orb_true_r.
Qed.

Lemma search_prepend (p : Re.pattern) (pre s : string) :
  Re.search p s = true -> Re.search p (pre ++ s)%string = true.
Proof.
  intros H; induction pre as [|c pre IH]; [exact H|].
  cbn [String.append Re.search]. rewrite IH. apply orb_true_r.
Qed.

Lemma regex_search_within (ps : list Re.pattern) (pre text post : string) :
  Helper_functions.regex_search text ps = true ->
  Helper_functions.regex_search (pre ++ text ++ post)%string ps = true.
Proof.
  induction ps as [|p ps IH]; cbn [Helper_functions.regex_search];
    [discriminate|].
  destruct (Re.search p text) eqn:Hp.
  - intros _. now rewrite (search_prepend _ pre _ (search_app _ _ post Hp)).
  - intros H. destruct (Re.search p (pre ++ text ++ post)); [reflexivity|].
    now apply IH.
Qed.

Lemma append_empty (a b : string) :
  (a ++ b)%string = "" -> a = "" /\ b = "".
Proof. destruct a; [auto|discriminate]. Qed.

End PatternFacts.

(** X1. A keyword that contains a generic term is generic: whatever text
    surrounds a keyword that [find_genericwords] recognises, the whole is
    recognised too. *)
Theorem find_genericwords_within (pre text post : string) :
  Analyser.find_genericwords text = true ->
  Analyser.find_genericwords (pre ++ text ++ post)%string = true.
Proof.
  unfold Analyser.find_genericwords.
  destruct (String.eqb_spec text "") as [->|Hne]; [discriminate|].
  intros H.
  destruct (String.eqb_spec (pre ++ text ++ post) "") as [E|_].
  - apply append_empty in E as [_ E]. apply append_empty in E as [E _].
    contradiction.
  - now apply regex_search_within.
Qed.

Lemma find_genericwords_within_witness :
  Analyser.find_genericwords
    ("deep " ++ "Machine  Learning" ++ " model")%string = true.
Proof.
  apply (find_genericwords_within "deep " "Machine  Learning" " model").
  reflexivity.
Defined.

(** X2. Text added around a page never takes an attack label away: a page
    labelled inference-time (0) stays so, and a page labelled training-time
    (1) stays an attack page, with label 0 or 1. *)
Theorem find_attack_type_within (pre text post : string) :
  (Analyser.__find_attack_type text = 0%Z ->
   Analyser.__find_attack_type (pre ++ text ++ post)%string = 0%Z)
  /\ (Analyser.__find_attack_type text = 1%Z ->
      Analyser.__find_attack_type (pre ++ text ++ post)%string = 0%Z
      \/ Analyser.__find_attack_type (pre ++ text ++ post)%string = 1%Z).
Proof.
  unfold Analyser.__find_attack_type.
  destruct (String.eqb_spec text "") as [->|Hne]; [split; discriminate|].
  destruct (String.eqb_spec (pre ++ text ++ post) "") as [E|_].
  { apply append_empty in E as [_ E]. apply append_empty in E as [E _].
    contradiction. }
  split.
  - destruct (Helper_functions.regex_search text
                Analyser.pattern_inference_time) eqn:Hinf.
    + intros _. now rewrite (regex_search_within _ pre _ post Hinf).
    + destruct (Helper_functions.regex_search text
                  Analyser.pattern_training_time); discriminate.
  - destruct (Helper_functions.regex_search text
                Analyser.pattern_inference_time); [discriminate|].
    destruct (Helper_functions.regex_search text
                Analyser.pattern_training_time) eqn:Htr; [|discriminate].
    intros _. rewrite (regex_search_within _ pre _ post Htr).
    destruct (Helper_functions.regex_search (pre ++ text ++ post)
                Analyser.pattern_inference_time); [now left|now right].
Qed.

Lemma find_attack_type_within_witness :
  Analyser.__find_attack_type
    ("<p>" ++ "a model inversion attack" ++ "</p>")%string = 0%Z
  /\ (Analyser.__find_attack_type
        ("<p>" ++ "data poisoning" ++ " and evasion</p>")%string = 0%Z
      \/ Analyser.__find_attack_type
           ("<p>" ++ "data poisoning" ++ " and evasion</p>")%string = 1%Z).
Proof.
  split.
  - apply (find_attack_type_within "<p>" "a model inversion attack" "</p>").
    reflexivity.
  - apply (find_attack_type_within "<p>" "data poisoning" " and evasion</p>").
    reflexivity.
Defined.

(** ** Level 1: what the merge keeps *)

(** X3. The removal of duplicates loses no text and keeps the best score:
    for every answer that the first three questions produced,
    [initial_results] holds an answer with the same text and a confidence at
    least as high. *)
Theorem level_1_keeps_best
  (nlp : string -> string -> outcome (option Model.qa_result))
  (self : Analyser.state) (pages : list string) (a : Model.scored) :
  In a (Analyser.pooled_answers nlp pages) ->
  exists b,
    In b (snd (Analyser.level_1 nlp self pages))
    /\ snd b = snd a
    /\ (fst a <= fst b)%Q.
Proof.
  intros Ha. unfold Analyser.level_1.
  destruct pages as [|c pages]; [destruct Ha|].
  cbn [snd]. now apply merge_best.
Qed.

Lemma level_1_keeps_best_witness :
  exists b,
    In b (snd (Analyser.level_1 Examples2.qa_repeated Examples.fresh
                 [Examples.paragraph_1]))
    /\ snd b = "CNN"
    /\ (1 # 2 <= fst b)%Q.
Proof.
  apply (level_1_keeps_best Examples2.qa_repeated Examples.fresh
           [Examples.paragraph_1] (1 # 2, "CNN")).
  vm_compute. tauto.
Defined.

(** X4. On a non-empty paragraph list, [level_1] returns the empty list
    exactly when none of the first three questions got an answer above the
    floor; otherwise the first element of [initial_results] has the highest
    confidence of all the answers. *)
Theorem level_1_empty_or_best_first
  (nlp : string -> string -> outcome (option Model.qa_result))
  (self : Analyser.state) (pages : list string) :
  pages <> [] ->
  (snd (Analyser.level_1 nlp self pages) = []
   <-> Analyser.pooled_answers nlp pages = [])
  /\ (forall first rest a,
        snd (Analyser.level_1 nlp self pages) = first :: rest ->
        In a (Analyser.pooled_answers nlp pages) ->
        (fst a <= fst first)%Q).
Proof.
  intros Hne. destruct pages as [|c pages]; [contradiction|].
  unfold Analyser.level_1. cbn [snd]. split; [apply merge_empty|].
  intros first rest a E Ha.
  destruct (merge_best _ a Ha) as (b & Hb & _ & Hle).
  pose proof (merge_sorted (Analyser.pooled_answers nlp (c :: pages))) as Hs.
  rewrite E in Hb, Hs. destruct Hb as [<-|Hb]; [exact Hle|].
  inversion Hs as [|? ? _ Hfirst]; subst.
  rewrite Forall_forall in Hfirst.
  apply Qle_trans with (fst b); [exact Hle|].
  apply desc_le. now apply Hfirst.
Qed.

Lemma level_1_empty_or_best_first_witness :
  (snd (Analyser.level_1 Examples2.qa_repeated Examples.fresh
          [Examples.paragraph_1]) = []
   <-> Analyser.pooled_answers Examples2.qa_repeated [Examples.paragraph_1]
       = [])
  /\ (3 # 10 <= 9 # 10)%Q.
Proof.
  destruct (level_1_empty_or_best_first Examples2.qa_repeated Examples.fresh
              [Examples.paragraph_1]) as [Hempty Hfirst]; [discriminate|].
  split; [exact Hempty|].
  apply (Hfirst (9 # 10, "CNN") [(3 # 10, "SVM")] (3 # 10, "SVM")).
  - reflexivity.
  - vm_compute. tauto.
Defined.

(** ** The question-answering pass *)

Section AnalysePagesFacts.

Import Model Analyser Shape Shape2.

Lemma replace_char_removes (old new : ascii) (s : string) :
  old <> new -> ~ has_char old (PyStr.replace_char old new s).
Proof.
  intros Hne. unfold has_char, PyText.chars.
  induction s as [|c s IH]; cbn [PyStr.replace_char list_ascii_of_string];
    [intros []|].
  intros [E|H]; [|now apply IH].
  destruct (Ascii.eqb_spec c old) as [->|Hc]; congruence.
Qed.

Lemma analyse_loop_one_line
  (nlp : string -> string -> outcome (option qa_result))
  (question : string) (pages : list string) (answer : list scored) :
  Forall (fun a => ~ has_char PyStr.newline (snd a)) answer ->
  Forall (fun a => ~ has_char PyStr.newline (snd a))
         (analyse_loop nlp question pages answer).
Proof.
  revert answer; induction pages as [|c pages IH]; intros answer Ha;
    cbn [analyse_loop]; [exact Ha|].
  destruct ((c =? "")%string || (PyStr.strip c =? "")%string); [now apply IH|].
  destruct (nlp question c) as [|[res|]]; try now apply IH.
  destruct (Qltb CONF_FLOOR (score res)); [|now apply IH].
  apply IH, Forall_app. split; [exact Ha|].
  constructor; [|constructor]. cbn [snd].
  apply replace_char_removes. discriminate.
Qed.

Lemma analyse_loop_skips_blank
  (nlp nlp' : string -> string -> outcome (option qa_result))
  (question : string) (pages : list string) (answer : list scored) :
  (forall context,
      blank context = false -> nlp' question context = nlp question context) ->
  analyse_loop nlp' question (filter (fun c => negb (blank c)) pages) answer
  = analyse_loop nlp question pages answer.
Proof.
  intros Hext. revert answer; induction pages as [|c pages IH];
    intros answer; cbn [analyse_loop filter]; [reflexivity|].
  unfold blank at 1.
  destruct ((c =? "")%string || (PyStr.strip c =? "")%string) eqn:Hb;
    cbn [negb]; [apply IH|].
  cbn [analyse_loop]. rewrite Hb, (Hext c Hb).
  destruct (nlp question c) as [|[res|]]; try apply IH.
  destruct (Qltb CONF_FLOOR (score res)); apply IH.
Qed.

End AnalysePagesFacts.

(** X5. [analyse_pages] never consults the model on a blank paragraph (empty
    or made of whitespace): its result depends on the model's replies on the
    other paragraphs only, and is the result on the paragraph list with the
    blank paragraphs removed. *)
Theorem analyse_pages_skips_blank
  (nlp nlp' : string -> string -> outcome (option Model.qa_result))
  (pages : list string) (question : string) :
  (forall context,
      Shape2.blank context = false ->
      nlp' question context = nlp question context) ->
  Model.analyse_pages nlp'
    (filter (fun c => negb (Shape2.blank c)) pages) question
  = Model.analyse_pages nlp pages question.
Proof.
  intros Hext. unfold Model.analyse_pages.
  pose proof (analyse_loop_skips_blank nlp nlp' question pages [] Hext) as E.
  destruct (question =? "")%string.
  - destruct (filter _ pages), pages; reflexivity.
  - destruct pages as [|c pages]; [reflexivity|].
    rewrite <- E.
    destruct (filter (fun c0 => negb (Shape2.blank c0)) (c :: pages));
      reflexivity.
Qed.

Lemma analyse_pages_skips_blank_witness :
  Model.analyse_pages Examples2.qa_strict
    (filter (fun c => negb (Shape2.blank c)) ["  "; "CT images"; ""])
    settings.QUESTION_4
  = Model.analyse_pages
      (fun question context =>
         Returns (Some (Model.mk_qa_result (1 # 2) context)))
      ["  "; "CT images"; ""] settings.QUESTION_4.
Proof.
  apply (analyse_pages_skips_blank
           (fun question context =>
              Returns (Some (Model.mk_qa_result (1 # 2) context)))
           Examples2.qa_strict).
  intros context Hb. unfold Examples2.qa_strict. rewrite Hb. reflexivity.
Defined.

(** X6. The answers of [analyse_pages] come back highest first in the order
    of the tuples (confidence, then text), and no answer text contains a
    newline. *)
Theorem analyse_pages_sorted_one_line
  (nlp : string -> string -> outcome (option Model.qa_result))
  (pages : list string) (question : string) :
  StronglySorted Shape.desc (Model.analyse_pages nlp pages question)
  /\ Forall (fun a => ~ Shape2.has_char PyStr.newline (snd a))
            (Model.analyse_pages nlp pages question).
Proof.
  unfold Model.analyse_pages.
  destruct pages as [|c pages]; [split; constructor|].
  destruct (question =? "")%string; [split; constructor|].
  split; [apply sort_reverse_sorted|].
  eapply Permutation_Forall; [apply sort_reverse_perm|].
  apply analyse_loop_one_line. constructor.
Qed.

(** ** Level 2: what the loop lets through *)

Section Level2Trace.

Import Model Analyser Shape2.

Variable check_desc : nat -> string -> outcome bool.

Lemma subsequence_nil_l {A : Type} (l : list A) : subsequence [] l.
Proof. induction l; constructor; assumption. Qed.

Lemma subsequence_incl {A : Type} (l1 l2 : list A) :
  subsequence l1 l2 -> incl l1 l2.
Proof.
  induction 1 as [|x l1 l2 _ IH|x l1 l2 _ IH]; intros a Ha.
  - destruct Ha.
  - right. now apply IH.
  - destruct Ha as [->|Ha]; [now left|right; now apply IH].
Qed.

Lemma subsequence_length {A : Type} (l1 l2 : list A) :
  subsequence l1 l2 -> List.length l1 <= List.length l2.
Proof. induction 1; simpl; lia. Qed.

(** What one run of the loop adds to the two lists. *)
Lemma level_2_loop_trace (results : list scored) (v : validation) :
  exists fs ns,
    filtered (level_2_loop check_desc results v) = filtered v ++ fs
    /\ neglected (level_2_loop check_desc results v) = neglected v ++ ns
    /\ subsequence fs results
    /\ subsequence ns results
    /\ Forall (fun i => examined i
                        /\ exists n, check_desc n (snd i) = Returns true) fs
    /\ Forall (fun i => examined i
                        /\ exists n, check_desc n (snd i) = Returns false) ns
    /\ List.length fs + List.length ns <= List.length results.
Proof.
  revert v; induction results as [|i results IH]; intros v;
    cbn [level_2_loop].
  - exists [], []. rewrite !app_nil_r. repeat split; constructor.
  - assert (Hskip : forall v',
               filtered v' = filtered v -> neglected v' = neglected v ->
               exists fs ns,
                 filtered (level_2_loop check_desc results v')
                 = filtered v ++ fs
                 /\ neglected (level_2_loop check_desc results v')
                    = neglected v ++ ns
                 /\ subsequence fs (i :: results)
                 /\ subsequence ns (i :: results)
                 /\ Forall (fun i => examined i
                             /\ exists n, check_desc n (snd i) = Returns true)
                           fs
                 /\ Forall (fun i => examined i
                             /\ exists n, check_desc n (snd i) = Returns false)
                           ns
                 /\ List.length fs + List.length ns
                    <= List.length (i :: results)).
    { intros v' Ef En.
      destruct (IH v') as (fs & ns & Hf & Hn & Sf & Sn & Ff & Fn & Hlen).
      exists fs, ns. rewrite Hf, Hn, Ef, En.
      repeat split; trivial; try (now apply subsequence_skip);
        simpl; lia. }
    destruct (max_keywords <=? List.length (filtered v)).
    { exists [], []. rewrite !app_nil_r.
      repeat split; try apply subsequence_nil_l; try apply Forall_nil.
      simpl; lia. }
    destruct (String.eqb_spec (snd i) "") as [|Hkw]; [now apply Hskip|].
    destruct (find_genericwords (snd i)) eqn:Hgen; [now apply Hskip|].
    destruct (check_desc (calls v) (snd i)) as [|[|]] eqn:Hcd.
    + now apply Hskip.
    + destruct (IH (mk_validation (filtered v ++ [i]) (neglected v)
                      (S (calls v))))
        as (fs & ns & Hf & Hn & Sf & Sn & Ff & Fn & Hlen).
      cbn [filtered neglected] in Hf, Hn.
      exists (i :: fs), ns. rewrite Hf, Hn, <- app_assoc.
      split; [reflexivity|]. split; [reflexivity|].
      split; [now apply subsequence_keep|].
      split; [now apply subsequence_skip|].
      split; [|split; [exact Fn|simpl; lia]].
      constructor; [|exact Ff]. repeat split; trivial. now exists (calls v).
    + destruct (IH (mk_validation (filtered v) (neglected v ++ [i])
                      (S (calls v))))
        as (fs & ns & Hf & Hn & Sf & Sn & Ff & Fn & Hlen).
      cbn [filtered neglected] in Hf, Hn.
      exists fs, (i :: ns). rewrite Hf, Hn, <- app_assoc.
      split; [reflexivity|]. split; [reflexivity|].
      split; [now apply subsequence_skip|].
      split; [now apply subsequence_keep|].
      split; [exact Ff|]. split; [|simpl; lia].
      constructor; [|exact Fn]. repeat split; trivial. now exists (calls v).
Qed.

End Level2Trace.

(** X7. [level_2] only sorts candidates it examined: [filtered_results] and
    [neglected_results] are taken from the candidate list in its order,
    hold no empty keyword and no generic term, and together are no longer
    than the candidate list; every filtered candidate was accepted by a call
    of the web validator and every neglected one refused by a call. *)
Theorem level_2_routes (check_desc : nat -> string -> outcome bool)
  (self : Analyser.state) (results : list Model.scored) :
  results <> [] ->
  let r := Analyser.level_2 check_desc self results in
  let f := Analyser.filtered_results (fst r) in
  let n := Analyser.neglected_results (fst r) in
  snd r = f
  /\ Shape2.subsequence f results
  /\ Shape2.subsequence n results
  /\ Forall (fun i => Shape2.examined i
                      /\ exists k, check_desc k (snd i) = Returns true) f
  /\ Forall (fun i => Shape2.examined i
                      /\ exists k, check_desc k (snd i) = Returns false) n
  /\ List.length f + List.length n <= List.length results.
Proof.
  intros Hne r f n. subst r f n.
  rewrite (level_2_nonempty check_desc self results Hne).
  cbn [fst snd Analyser.filtered_results Analyser.neglected_results
       Analyser.set_validation_results].
  destruct (level_2_loop_trace check_desc results Analyser.validation_start)
    as (fs & ns & Hf & Hn & Sf & Sn & Ff & Fn & Hlen).
  cbn [Analyser.filtered Analyser.neglected Analyser.validation_start app]
    in Hf, Hn.
  rewrite Hf, Hn. repeat split; assumption.
Qed.

Lemma level_2_routes_witness :
  let r := Analyser.level_2 Examples.raises_once Examples.fresh
             [Examples.xgboost; (1 # 2, "machine learning"); Examples.svm] in
  Shape2.subsequence (Analyser.neglected_results (fst r))
    [Examples.xgboost; (1 # 2, "machine learning"); Examples.svm]
  /\ Forall (fun i => Shape2.examined i
                      /\ exists k,
                           Examples.raises_once k (snd i) = Returns false)
            (Analyser.neglected_results (fst r)).
Proof.
  destruct (level_2_routes Examples.raises_once Examples.fresh
              [Examples.xgboost; (1 # 2, "machine learning"); Examples.svm])
    as (_ & _ & Sn & _ & Fn & _); [discriminate|].
  split; [exact Sn|exact Fn].
Defined.

(** ** [process_document], step 4: the known algorithm *)

Section SeedFacts.

Import Model Analyser.

Lemma seed_algorithm_cases (algorithm : option string)
  (all_answers : list scored) :
  Pipeline.seed_algorithm algorithm all_answers = all_answers
  \/ exists name,
       algorithm = Some name /\ name <> "" /\ all_answers <> []
       /\ ~ In name (map snd all_answers)
       /\ Pipeline.seed_algorithm algorithm all_answers
          = (1%Q, name) :: all_answers.
Proof.
  unfold Pipeline.seed_algorithm.
  destruct algorithm as [name|]; [|now left].
  destruct (String.eqb_spec name "") as [|Hname]; [now left|].
  destruct all_answers as [|a l]; [now left|].
  destruct (Helper_functions.check_presence _ _) eqn:Hcp; [now left|].
  right. exists name. repeat split; trivial; [discriminate|].
  intros Hin. apply check_presence_text in Hin. congruence.
Qed.

End SeedFacts.

(** X8. Seeding the answers with the algorithm of the Medical Futurist data
    set loses no answer and keeps the texts distinct when they were; after
    it, a non-empty algorithm name is among the texts of a non-empty answer
    list. *)
Theorem seed_algorithm_keeps_distinct (algorithm : option string)
  (all_answers : list Model.scored) :
  incl all_answers (Pipeline.seed_algorithm algorithm all_answers)
  /\ (NoDup (map snd all_answers) ->
      NoDup (map snd (Pipeline.seed_algorithm algorithm all_answers)))
  /\ (forall name,
        algorithm = Some name -> name <> "" -> all_answers <> [] ->
        In name (map snd (Pipeline.seed_algorithm algorithm all_answers))).
Proof.
  destruct (seed_algorithm_cases algorithm all_answers)
    as [E|(name & -> & Hname & Hne & Hnotin & E)].
  - rewrite E. split; [apply incl_refl|]. split; [auto|].
    intros name -> Hname Hne. unfold Pipeline.seed_algorithm in E |- *.
    apply String.eqb_neq in Hname. rewrite Hname in *.
    destruct all_answers as [|a l]; [contradiction|].
    destruct (Helper_functions.check_presence _ _) eqn:Hcp.
    + now apply check_presence_text in Hcp.
    + apply (f_equal (@List.length _)) in E. simpl in E. lia.
  - rewrite E. split; [intros a Ha; now right|]. split.
    + intros Hnd. cbn [map snd]. now constructor.
    + intros name' [= <-] _ _. now left.
Qed.

Lemma seed_algorithm_keeps_distinct_witness :
  NoDup (map snd (Pipeline.seed_algorithm (Some "CNN")
                    [Examples.xgboost; Examples.svm]))
  /\ In "CNN" (map snd (Pipeline.seed_algorithm (Some "CNN")
                          [Examples.xgboost; Examples.svm])).
Proof.
  destruct (seed_algorithm_keeps_distinct (Some "CNN")
              [Examples.xgboost; Examples.svm]) as (_ & Hnd & Hin).
  split.
  - apply Hnd. repeat constructor; simpl; intuition discriminate.
  - apply (Hin "CNN"); [reflexivity|discriminate|discriminate].
Defined.

(** X9. A known algorithm that is not among the answers is put first with
    confidence 1.0, and it is the first element of what [level_2] returns
    exactly when it is not a generic term and the first call of the web
    validator accepts it. *)
Theorem seeded_algorithm_first (check_desc : nat -> string -> outcome bool)
  (self : Analyser.state) (name : string) (all_answers : list Model.scored) :
  name <> "" ->
  all_answers <> [] ->
  ~ In name (map snd all_answers) ->
  hd_error (Pipeline.seed_algorithm (Some name) all_answers)
  = Some (1%Q, name)
  /\ (hd_error (snd (Analyser.level_2 check_desc self
                       (Pipeline.seed_algorithm (Some name) all_answers)))
      = Some (1%Q, name)
      <-> Analyser.find_genericwords name = false
          /\ check_desc 0 name = Returns true).
Proof.
  intros Hname Hne Hnotin.
  destruct (seed_algorithm_cases (Some name) all_answers)
    as [E|(name' & [= <-] & _ & _ & _ & E)].
  { exfalso. unfold Pipeline.seed_algorithm in E.
    apply String.eqb_neq in Hname. rewrite Hname in E.
    destruct all_answers as [|a l]; [contradiction|].
    destruct (Helper_functions.check_presence _ _) eqn:Hcp.
    - apply check_presence_text in Hcp. contradiction.
    - apply (f_equal (@List.length _)) in E. simpl in E. lia. }
  rewrite E. split; [reflexivity|].
  rewrite level_2_nonempty by discriminate. cbn [snd].
  assert (Hother : forall v,
             Analyser.filtered v = [] ->
             hd_error (Analyser.filtered
                         (Analyser.level_2_loop check_desc all_answers v))
             <> Some (1%Q, name)).
  { intros v Hv Hhd.
    destruct (level_2_loop_trace check_desc all_answers v)
      as (fs & ns & Hf & _ & Sf & _).
    rewrite Hf, Hv in Hhd. cbn [app] in Hhd.
    destruct fs as [|x fs]; [discriminate|]. injection Hhd as ->.
    apply Hnotin. apply (in_map snd) with (x := (1%Q, name)).
    apply (subsequence_incl _ _ Sf). now left. }
  cbn [Analyser.level_2_loop Analyser.validation_start Analyser.filtered
       Analyser.neglected Analyser.calls snd].
  change (Analyser.max_keywords <=? List.length (@nil Model.scored))
    with false.
  apply String.eqb_neq in Hname. rewrite Hname.
  destruct (Analyser.find_genericwords name).
  { split; [intros H; exfalso; revert H; now apply Hother|].
    intros [H _]; discriminate. }
  destruct (check_desc 0 name) as [|[|]].
  - split; [intros H; exfalso; revert H; now apply Hother|].
    intros [_ H]; discriminate.
  - split; [auto|]. intros _.
    destruct (level_2_loop_trace check_desc all_answers
                (Analyser.mk_validation [(1%Q, name)] [] 1))
      as (fs & ns & Hf & _).
    cbn [Analyser.filtered app] in Hf.
    apply (f_equal (@hd_error _)) in Hf. exact Hf.
  - split; [intros H; exfalso; revert H; now apply Hother|].
    intros [_ H]; discriminate.
Qed.

Lemma seeded_algorithm_first_witness :
  hd_error (snd (Analyser.level_2 Examples2.accepts_once Examples.fresh
                   (Pipeline.seed_algorithm (Some "CNN")
                      [Examples.xgboost; Examples.svm])))
  = Some (1%Q, "CNN").
Proof.
  destruct (seeded_algorithm_first Examples2.accepts_once Examples.fresh
              "CNN" [Examples.xgboost; Examples.svm]) as [_ Hiff].
  - discriminate.
  - discriminate.
  - simpl. intuition discriminate.
  - apply Hiff. split; reflexivity.
Defined.

(** ** The LLM keyword filter *)

Section StringOpsFacts.

Import Shape2.

Lemma lstrip_chars (s : string) :
  incl (PyText.chars (PyStr.lstrip s)) (PyText.chars s).
Proof.
  unfold PyText.chars. induction s as [|c s IH]; cbn [PyStr.lstrip].
  - apply incl_refl.
  - destruct (PyStr.is_space c); [|apply incl_refl].
    intros a Ha. right. now apply IH.
Qed.

Lemma rstrip_chars (s : string) :
  incl (PyText.chars (PyStr.rstrip s)) (PyText.chars s).
Proof.
  unfold PyText.chars. induction s as [|c s IH]; cbn [PyStr.rstrip].
  - apply incl_refl.
  - destruct (PyStr.is_space c && (PyStr.rstrip s =? "")%string).
    + intros a [].
    + intros a [->|Ha]; [now left|right; now apply IH].
Qed.

Lemma strip_chars (s : string) :
  incl (PyText.chars (PyStr.strip s)) (PyText.chars s).
Proof.
  unfold PyStr.strip. intros a Ha.
  now apply lstrip_chars, rstrip_chars.
Qed.

Lemma split_head_chars (sep s : string) :
  incl (PyText.chars (PyText.split_head sep s)) (PyText.chars s).
Proof.
  unfold PyText.chars. induction s as [|c s IH]; cbn [PyText.split_head].
  - destruct (String.prefix sep ""); apply incl_refl.
  - destruct (String.prefix sep (String c s)); [intros a []|].
    intros a [->|Ha]; [now left|right; now apply IH].
Qed.

Lemma split_head_removes (c : ascii) (s : string) :
  ~ has_char c (PyText.split_head (String c EmptyString) s).
Proof.
  unfold has_char, PyText.chars.
  induction s as [|a s IH]; cbn [PyText.split_head String.prefix].
  - intros [].
  - destruct (Ascii.ascii_dec c a) as [->|Hne].
    + destruct s; intros [].
    + intros [E|H]; [congruence|now apply IH].
Qed.

Lemma drop_digits_chars (s : string) :
  incl (PyText.chars (LLMFormat.drop_digits s)) (PyText.chars s).
Proof.
  unfold PyText.chars. induction s as [|c s IH]; cbn [LLMFormat.drop_digits].
  - apply incl_refl.
  - destruct (PyText.is_digit c); [|apply incl_refl].
    intros a Ha. right. now apply IH.
Qed.

Lemma lstrip_length (s : string) :
  String.length (PyStr.lstrip s) <= String.length s.
Proof.
  induction s as [|c s IH]; cbn [PyStr.lstrip String.length]; [lia|].
  destruct (PyStr.is_space c); cbn [String.length]; lia.
Qed.

Lemma split_head_length (sep s : string) :
  String.length (PyText.split_head sep s) <= String.length s.
Proof.
  induction s as [|c s IH]; cbn [PyText.split_head].
  - destruct (String.prefix sep ""); simpl; lia.
  - destruct (String.prefix sep (String c s)); cbn [String.length]; lia.
Qed.

Lemma drop_digits_length (s : string) :
  String.length (LLMFormat.drop_digits s) <= String.length s.
Proof.
  induction s as [|c s IH]; cbn [LLMFormat.drop_digits String.length]; [lia|].
  destruct (PyText.is_digit c); cbn [String.length]; lia.
Qed.

Lemma match_ordinal_group (item group_1 : string) :
  LLMFormat.match_ordinal item = Some group_1 ->
  incl (PyText.chars group_1) (PyText.chars item)
  /\ String.length group_1 <= String.length item.
Proof.
  unfold LLMFormat.match_ordinal.
  destruct item as [|c rest]; [discriminate|].
  destruct (PyText.is_digit c); [|discriminate].
  destruct (LLMFormat.drop_digits rest) as [|d rest'] eqn:Hd; [discriminate|].
  destruct (Ascii.ascii_dec d ".") as [->|Hne].
  - intros [= <-].
    pose proof (drop_digits_chars rest) as Hc.
    pose proof (drop_digits_length rest) as Hl.
    rewrite Hd in Hc, Hl. cbn [String.length] in Hl. split.
    + intros a Ha. apply split_head_chars, lstrip_chars in Ha.
      unfold PyText.chars in *. cbn [list_ascii_of_string] in *.
      apply in_cons, Hc, in_cons, Ha.
    + cbn [String.length].
      pose proof (split_head_length (String PyStr.newline "")
                    (PyStr.lstrip rest')).
      pose proof (lstrip_length rest'). lia.
  - destruct d as [[] [] [] [] [] [] [] []]; try discriminate.
    congruence.
Qed.

Lemma split_pieces (sep : ascii) (s : string) :
  Forall (fun piece => incl (PyText.chars piece) (PyText.chars s)
                       /\ ~ has_char sep piece)
         (PyText.split sep s).
Proof.
  unfold has_char, PyText.chars.
  induction s as [|c s IH]; cbn [PyText.split].
  - constructor; [|constructor]. split; [apply incl_refl|intros []].
  - assert (IH' : Forall (fun piece =>
                            incl (list_ascii_of_string piece)
                                 (list_ascii_of_string (String c s))
                            /\ ~ In sep (list_ascii_of_string piece))
                         (PyText.split sep s)).
    { eapply Forall_impl; [|exact IH]. intros piece [Hi Hn].
      split; [|exact Hn]. intros a Ha. right. now apply Hi. }
    destruct (Ascii.eqb_spec c sep) as [->|Hne].
    + constructor; [|exact IH']. split; [intros a []|intros []].
    + destruct (PyText.split sep s) as [|piece pieces];
        [constructor; [|constructor]|].
      * split; [intros a [->|[]]; now left|].
        intros [E|[]]. congruence.
      * inversion IH as [|? ? [Hi Hn] Hrest]; subst.
        inversion IH' as [|? ? _ Hrest']; subst.
        constructor; [|exact Hrest']. split.
        -- intros a [->|Ha]; [now left|right; now apply Hi].
        -- intros [E|H]; [congruence|contradiction].
Qed.

Lemma clean_item_chars (item : string) :
  incl (PyText.chars (LLMFormat.clean_item item)) (PyText.chars item)
  /\ ~ has_char ":"%char (LLMFormat.clean_item item).
Proof.
  unfold LLMFormat.clean_item. split.
  - intros a Ha.
    apply strip_chars, split_head_chars, strip_chars, split_head_chars,
      strip_chars in Ha. exact Ha.
  - intros Ha. unfold has_char in Ha.
    apply strip_chars, split_head_chars, strip_chars in Ha.
    now apply (split_head_removes ":"%char) in Ha.
Qed.

Lemma format_items_list_items (response_list filtered_response : list string) :
  Forall (fun piece => ~ has_char ","%char piece
                       /\ ~ has_char PyStr.newline piece) response_list ->
  Forall list_item filtered_response ->
  Forall list_item (LLMFormat.format_items response_list filtered_response).
Proof.
  revert filtered_response;
    induction response_list as [|piece response_list IH];
    intros acc Hp Hacc; cbn [LLMFormat.format_items]; [exact Hacc|].
  inversion Hp as [|? ? [Hcomma Hnl] Hp']; subst.
  destruct (clean_item_chars piece) as [Hsub Hcolon].
  set (item := LLMFormat.clean_item piece) in *.
  destruct ((item =? "")%string
            || PyStr.str_in "most relevant" (PyText.lower item)
            || (60 <? String.length item)) eqn:Hskip; [now apply IH|].
  apply orb_false_iff in Hskip as [Hskip Hlen].
  apply orb_false_iff in Hskip as [Hempty _].
  apply Nat.ltb_ge in Hlen.
  assert (Hfinal : forall final,
             incl (PyText.chars final) (PyText.chars item) ->
             String.length final <= String.length item ->
             final <> "" -> list_item final).
  { intros final Hc Hl Hne. unfold list_item, has_char in *.
    repeat split; trivial; try lia; intros Ha; apply Hc in Ha; auto. }
  destruct (LLMFormat.match_ordinal item) as [group_1|] eqn:Hm.
  - destruct (match_ordinal_group _ _ Hm) as [Hc Hl].
    destruct (String.eqb_spec group_1 ""); [now apply IH|].
    apply IH; [exact Hp'|]. apply Forall_app. split; [exact Hacc|].
    constructor; [|constructor]. now apply Hfinal.
  - rewrite Hempty. apply IH; [exact Hp'|].
    apply Forall_app. split; [exact Hacc|].
    constructor; [|constructor].
    apply Hfinal; [apply incl_refl|lia|now apply String.eqb_neq].
Qed.

Lemma replace_char_chars (old new : ascii) (s : string) (a : ascii) :
  In a (PyText.chars (PyStr.replace_char old new s)) ->
  a = new \/ (a <> old /\ In a (PyText.chars s)).
Proof.
  unfold PyText.chars.
  induction s as [|c s IH]; cbn [PyStr.replace_char list_ascii_of_string];
    [intros []|].
  intros [E|H].
  - destruct (Ascii.eqb_spec c old) as [->|Hc]; [now left|].
    right. subst a. split; [exact Hc|now left].
  - destruct (IH H) as [->|[Hne Hin]]; [now left|right].
    split; [exact Hne|now right].
Qed.

End StringOpsFacts.

Lemma split_response_pieces (response : string) :
  Forall (fun piece => ~ Shape2.has_char ","%char piece
                       /\ ~ Shape2.has_char PyStr.newline piece)
         (PyText.split ","%char
            (PyStr.replace_char PyStr.newline ","%char response)).
Proof.
  eapply Forall_impl;
    [|apply (split_pieces ","%char
               (PyStr.replace_char PyStr.newline ","%char response))].
  intros piece [Hsub Hcomma]. split; [exact Hcomma|].
  intros Hnl. apply Hsub in Hnl.
  apply replace_char_chars in Hnl as [E|[Hne _]];
    [discriminate E|contradiction].
Qed.

(** X10. Every item that [__list_format] returns is a clean keyword: not
    empty, of at most 60 characters, and free of commas, newlines and
    colons. *)
Theorem list_format_items (response : string) :
  Forall Shape2.list_item (LLMFormat.__list_format response).
Proof.
  unfold LLMFormat.__list_format.
  destruct (response =? "")%string; [constructor|].
  apply format_items_list_items; [|constructor].
  apply split_response_pieces.
Qed.

Section KeywordCompletionFacts.

Lemma prompt_accepted (middle : string) :
  let prompt := (LLM.prompt_head ++ middle ++ LLM.prompt_tail)%string in
  (prompt =? "")%string = false
  /\ (String.length (PyStr.strip prompt) =? 0) = false.
Proof.
  assert (Hhead : exists rest,
             (LLM.prompt_head ++ middle ++ LLM.prompt_tail)%string
             = String "F" rest).
  { unfold LLM.prompt_head. cbn [String.append]. eexists. reflexivity. }
  destruct Hhead as [rest ->]. cbn zeta. split; [reflexivity|].
  unfold PyStr.strip. cbn [PyStr.lstrip].
  change (PyStr.is_space "F") with false. cbn iota.
  cbn [PyStr.rstrip].
  change (PyStr.is_space "F") with false. reflexivity.
Qed.

End KeywordCompletionFacts.

(** X11. [keyword_completion] consults the model only when some keyword is
    not blank: otherwise it succeeds with the empty list.  When it consults
    the model, it fails exactly when the model raises or returns [None], and
    otherwise succeeds with the model's reply formatted by
    [__list_format]. *)
Theorem keyword_completion_outcome
  (model_generate : string -> outcome (option string))
  (keywords : list string) :
  let valid_keywords :=
    filter (fun keyword => negb (keyword =? "")%string)
           (map PyStr.strip keywords) in
  let prompt :=
    (LLM.prompt_head ++ PyStr.join ", " valid_keywords ++ LLM.prompt_tail
    )%string in
  (valid_keywords = [] ->
   LLMFormat.keyword_completion model_generate keywords = LLM.ok [])
  /\ (valid_keywords <> [] ->
      LLMFormat.keyword_completion model_generate keywords
      = match model_generate prompt with
        | Returns (Some response) =>
            LLM.ok (LLMFormat.__list_format response)
        | _ => LLM.failed
        end).
Proof.
  intros valid_keywords prompt.
  unfold LLMFormat.keyword_completion, LLM.keyword_completion.
  fold valid_keywords. split.
  - intros E. rewrite E. destruct keywords; reflexivity.
  - intros Hne. destruct keywords as [|k keywords].
    { exfalso. apply Hne. reflexivity. }
    destruct valid_keywords as [|v vs] eqn:Ev; [contradiction|].
    fold prompt. unfold LLM.generate.
    destruct (prompt_accepted (PyStr.join ", " (v :: vs))) as [H1 H2].
    fold prompt in H1, H2. rewrite H1, H2.
    destruct (model_generate prompt) as [|[response|]]; reflexivity.
Qed.

Lemma keyword_completion_outcome_witness :
  LLMFormat.keyword_completion Examples2.model_lists ["  "; ""] = LLM.ok []
  /\ LLMFormat.keyword_completion Examples2.model_silent ["XGBoost"; " "]
     = LLM.failed
  /\ LLMFormat.keyword_completion Examples2.model_lists ["XGBoost"; " "]
     = LLM.ok ["XGBoost"; "machine learning"; "SVM"].
Proof.
  split; [|split].
  - apply (keyword_completion_outcome Examples2.model_lists ["  "; ""]).
    reflexivity.
  - apply (keyword_completion_outcome Examples2.model_silent
             ["XGBoost"; " "]).
    discriminate.
  - apply (keyword_completion_outcome Examples2.model_lists
             ["XGBoost"; " "]).
    discriminate.
Defined.

(** X12. With the LLM of the source behind it, [level_2_alt] never returns a
    generic term; when the model replied, every keyword it returns is a
    clean item of the reply: not empty, of at most 60 characters, free of
    commas, newlines and colons. *)
Theorem level_2_alt_keywords
  (model_generate : string -> outcome (option string))
  (results : list Model.scored) :
  let keyword_completion := LLMFormat.keyword_completion model_generate in
  Forall (fun keyword => Analyser.find_genericwords keyword = false)
         (Analyser.level_2_alt keyword_completion results)
  /\ (LLM.success (keyword_completion (map snd results)) = true ->
      Forall Shape2.list_item
             (Analyser.level_2_alt keyword_completion results)).
Proof.
  intros keyword_completion. unfold Analyser.level_2_alt.
  destruct results as [|r results]; [split; constructor|].
  cbn [map]. set (keywords := snd r :: map snd results).
  assert (Hfilter : forall l,
             Forall (fun keyword => Analyser.find_genericwords keyword = false)
                    (filter (fun keyword =>
                               negb (Analyser.find_genericwords keyword)) l)).
  { intros l. apply Forall_forall. intros k Hk.
    apply filter_In in Hk as [_ Hk]. now apply negb_true_iff. }
  assert (Hkept : forall l,
             Forall Shape2.list_item l ->
             Forall Shape2.list_item
                    (filter (fun keyword =>
                               negb (Analyser.find_genericwords keyword)) l)).
  { intros l Hl. apply Forall_forall. intros k Hk.
    apply filter_In in Hk as [Hk _]. rewrite Forall_forall in Hl. auto. }
  split.
  - destruct (LLM.success (keyword_completion keywords));
      [destruct (LLM.data (keyword_completion keywords))|];
      try apply Hfilter; constructor.
  - intros Hok. rewrite Hok. revert Hok.
    unfold keyword_completion, LLMFormat.keyword_completion,
      LLM.keyword_completion, keywords.
    destruct (filter (fun keyword => negb (keyword =? "")%string)
                     (map PyStr.strip (snd r :: map snd results)))
      as [|v vs]; [intros _; constructor|].
    unfold LLM.generate.
    destruct (prompt_accepted (PyStr.join ", " (v :: vs))) as [H1 H2].
    cbn zeta in H1, H2. rewrite H1, H2.
    destruct (model_generate _) as [|[response|]]; try discriminate.
    intros _. cbn [LLM.data LLM.ok LLM.success negb].
    apply Hkept. unfold LLMFormat.__list_format.
    destruct (response =? "")%string; [constructor|].
    apply format_items_list_items; [|constructor].
    apply split_response_pieces.
Qed.

Lemma level_2_alt_keywords_witness :
  Forall Shape2.list_item
    (Analyser.level_2_alt
       (LLMFormat.keyword_completion Examples2.model_lists)
       [Examples.xgboost; Examples.svm]).
Proof.
  apply (level_2_alt_keywords Examples2.model_lists
           [Examples.xgboost; Examples.svm]).
  reflexivity.
Defined.

(** ** The paper search *)

Section ScraperFacts.

Import Scholar_scraper.

Lemma complete_info_loop_length (n : nat) (query : search_query)
  (acc articles : list publication) :
  complete_info_loop n query acc = Returns articles ->
  List.length articles <= List.length acc + n.
Proof.
  revert query acc; induction n as [|n IH]; intros query acc;
    cbn [complete_info_loop].
  - intros [= <-]. lia.
  - destruct query as [|[|article] query]; try discriminate.
    + intros [= <-]. lia.
    + intros H. apply IH in H. rewrite length_app in H. simpl in H. lia.
Qed.

Lemma complete_info_length (found : option search_query)
  (articles : list publication) :
  complete_info found = Returns articles ->
  List.length articles <= settings.NUMBER_OF_PAPERS.
Proof.
  unfold complete_info. destruct found as [query|].
  - intros H. apply complete_info_loop_length in H. simpl in H. lia.
  - intros [= <-]. simpl. lia.
Qed.

(** The loop reads on to the end of [complete_info]: its two conditions
    never stop it early, and the fuel given is enough. *)
Lemma get_info_loop_entries (todo done : list publication)
  (extract : list (list string)) (fuel : nat) :
  List.length (done ++ todo) <= settings.NUMBER_OF_PAPERS ->
  List.length extract <= List.length done ->
  List.length todo <= fuel ->
  get_info_loop fuel (done ++ todo) (Z.of_nat (List.length done) - 1) extract
  = extract ++ entries todo.
Proof.
  revert done extract fuel; induction todo as [|a todo IH];
    intros done extract fuel Hfive Hext Hfuel.
  - cbn [entries]. rewrite (app_nil_r extract), (app_nil_r done).
    destruct fuel as [|fuel]; cbn [get_info_loop]; [reflexivity|].
    replace (Z.of_nat (List.length done) - 1
             <? Z.of_nat (List.length done) - 1)%Z with false
      by (symmetry; apply Z.ltb_ge; lia).
    now rewrite andb_false_r.
  - destruct fuel as [|fuel]; [simpl in Hfuel; lia|].
    cbn [get_info_loop].
    rewrite length_app in *. cbn [List.length] in *.
    replace (Z.of_nat (List.length extract)
             <? Z.min (Z.of_nat settings.NUMBER_OF_PAPERS)
                      (Z.of_nat (List.length done + S (List.length todo))))%Z
      with true by (symmetry; apply Z.ltb_lt; lia).
    replace (Z.of_nat (List.length done) - 1
             <? Z.of_nat (List.length done + S (List.length todo)) - 1)%Z
      with true by (symmetry; apply Z.ltb_lt; lia).
    cbn [andb].
    replace (Z.to_nat (Z.of_nat (List.length done) - 1 + 1))
      with (List.length done) by lia.
    rewrite nth_error_app2, Nat.sub_diag by lia. cbn [nth_error].
    assert (Hnext : forall extract',
               List.length extract' <= S (List.length done) ->
               get_info_loop fuel (done ++ a :: todo)
                 (Z.of_nat (List.length done) - 1 + 1) extract'
               = extract' ++ entries todo).
    { intros extract' Hext'.
      replace (done ++ a :: todo) with ((done ++ [a]) ++ todo)
        by (now rewrite <- app_assoc).
      replace (Z.of_nat (List.length done) - 1 + 1)%Z
        with (Z.of_nat (List.length (done ++ [a])) - 1)%Z
        by (rewrite length_app; simpl; lia).
      apply IH; rewrite ?length_app; simpl; lia. }
    cbn [entries].
    destruct (__check_survey a) as [|[|]]; [now rewrite (app_nil_r extract)| |].
    + apply Hnext. lia.
    + destruct (bib_title a), (bib_abstract a), (pub_url a);
        try now rewrite (app_nil_r extract).
      rewrite Hnext by (rewrite length_app; simpl; lia).
      now rewrite <- app_assoc.
Qed.

Lemma entries_length (articles : list publication) :
  List.length (entries articles) <= List.length articles.
Proof.
  induction articles as [|a articles IH]; cbn [entries List.length]; [lia|].
  destruct (__check_survey a) as [|[|]]; cbn [List.length]; try lia.
  destruct (bib_title a), (bib_abstract a), (pub_url a);
    cbn [List.length]; lia.
Qed.

Lemma entries_fields (articles : list publication) :
  Forall (fun entry =>
            exists title abstract url,
              entry = [title; abstract; url]
              /\ mentions_survey title = false
              /\ mentions_survey abstract = false)
         (entries articles).
Proof.
  induction articles as [|a articles IH]; cbn [entries]; [constructor|].
  unfold __check_survey.
  destruct (bib_title a) as [title|]; [|constructor].
  destruct (PyStr.str_in "survey" (PyText.lower title)) eqn:Ht; [exact IH|].
  destruct (bib_abstract a) as [abstract|]; [|constructor].
  destruct (PyStr.str_in "survey" (PyText.lower abstract)) eqn:Ha;
    [exact IH|].
  destruct (pub_url a) as [url|]; [|constructor].
  constructor; [|exact IH]. exists title, abstract, url. now repeat split.
Qed.

Lemma get_info_entries
  (search_pubs : string -> outcome (option search_query)) (query : string) :
  get_info search_pubs query
  = match search_pubs query with
    | Raises => []
    | Returns found =>
        match complete_info found with
        | Raises => []
        | Returns articles => entries articles
        end
    end.
Proof.
  unfold get_info. destruct (search_pubs query) as [|found]; [reflexivity|].
  destruct (complete_info found) as [|articles] eqn:Hci; [reflexivity|].
  apply complete_info_length in Hci.
  apply (get_info_loop_entries articles [] []); simpl; lia.
Qed.

End ScraperFacts.

Lemma get_info_three_fields
  (search_pubs : string -> outcome (option Scholar_scraper.search_query))
  (query : string) :
  Forall (fun entry => List.length entry = 3)
         (Scholar_scraper.get_info search_pubs query)
  /\ List.length (Scholar_scraper.get_info search_pubs query)
     <= settings.NUMBER_OF_PAPERS.
Proof.
  rewrite get_info_entries.
  destruct (search_pubs query) as [|found];
    [split; [constructor|simpl; lia]|].
  destruct (Scholar_scraper.complete_info found) as [|articles] eqn:Hci;
    [split; [constructor|simpl; lia]|].
  split.
  - eapply Forall_impl; [|apply entries_fields].
    intros entry (t & a & u & -> & _). reflexivity.
  - apply complete_info_length in Hci.
    pose proof (entries_length articles). lia.
Qed.

(** X13. [get_info] returns at most [NUMBER_OF_PAPERS] = 5 entries; each has
    exactly three fields (title, abstract, url), and neither its title nor
    its abstract contains the word "survey", in any letter case. *)
Theorem get_info_entries_clean
  (search_pubs : string -> outcome (option Scholar_scraper.search_query))
  (query : string) :
  List.length (Scholar_scraper.get_info search_pubs query)
  <= settings.NUMBER_OF_PAPERS
  /\ Forall (fun entry =>
               exists title abstract url,
                 entry = [title; abstract; url]
                 /\ Scholar_scraper.mentions_survey title = false
                 /\ Scholar_scraper.mentions_survey abstract = false)
            (Scholar_scraper.get_info search_pubs query).
Proof.
  rewrite get_info_entries.
  destruct (search_pubs query) as [|found];
    [split; [simpl; lia|constructor]|].
  destruct (Scholar_scraper.complete_info found) as [|articles] eqn:Hci;
    [split; [simpl; lia|constructor]|].
  split; [|apply entries_fields].
  apply complete_info_length in Hci.
  pose proof (entries_length articles). lia.
Qed.

(** X14. The [while] loop of [get_info] reads every publication that
    [complete_info] returned, in order: its result is the non-survey
    publications up to the first one with a missing field, and the empty
    list when the search or [complete_info] raises. *)
Theorem get_info_reads_all
  (search_pubs : string -> outcome (option Scholar_scraper.search_query))
  (query : string) (found : option Scholar_scraper.search_query)
  (articles : list Scholar_scraper.publication) :
  (search_pubs query = Raises ->
   Scholar_scraper.get_info search_pubs query = [])
  /\ (search_pubs query = Returns found ->
      Scholar_scraper.complete_info found = Raises ->
      Scholar_scraper.get_info search_pubs query = [])
  /\ (search_pubs query = Returns found ->
      Scholar_scraper.complete_info found = Returns articles ->
      Scholar_scraper.get_info search_pubs query
      = Scholar_scraper.entries articles).
Proof.
  rewrite get_info_entries. repeat split.
  - intros ->. reflexivity.
  - intros -> ->. reflexivity.
  - intros -> ->. reflexivity.
Qed.

Lemma get_info_reads_all_witness :
  Scholar_scraper.get_info Examples2.six_found "Security Attacks on XGBoost"
  = [ ["Attacks on XGBoost"; "An abstract."; "https://example.org"];
      ["Evasion of tree ensembles"; "An abstract."; "https://example.org"];
      ["Poisoning gradient boosting"; "An abstract."; "https://example.org"];
      ["Model inversion"; "An abstract."; "https://example.org"] ].
Proof.
  destruct (get_info_reads_all Examples2.six_found
              "Security Attacks on XGBoost"
              (Some [ Returns (Examples2.publication_of "Attacks on XGBoost");
                      Returns (Examples2.publication_of "A SURVEY of attacks");
                      Returns (Examples2.publication_of
                                 "Evasion of tree ensembles");
                      Returns (Examples2.publication_of
                                 "Poisoning gradient boosting");
                      Returns (Examples2.publication_of "Model inversion");
                      Returns (Examples2.publication_of "A sixth paper") ])
              [ Examples2.publication_of "Attacks on XGBoost";
                Examples2.publication_of "A SURVEY of attacks";
                Examples2.publication_of "Evasion of tree ensembles";
                Examples2.publication_of "Poisoning gradient boosting";
                Examples2.publication_of "Model inversion" ])
    as (_ & _ & H).
  rewrite H; reflexivity.
Defined.

(** ** Level 4: shape and accounting *)

Section Level4More.

Import Model Analyser Shape Shape2.

Variable get_page : string -> outcome string.

Lemma is_attack_or_rejected (cell : list paper) :
  List.length (filter (is_attack get_page) cell)
  + List.length (filter (is_rejected get_page) cell)
  <= List.length cell.
Proof.
  induction cell as [|p cell IH]; cbn [filter List.length]; [lia|].
  unfold is_attack at 1, is_rejected at 1.
  destruct (3 <=? List.length p); cbn [andb List.length]; [|lia].
  destruct (get_page (nth 2 p "")) as [|page]; cbn [List.length]; [lia|].
  destruct ((__find_attack_type page =? 0)%Z
            || (__find_attack_type page =? 1)%Z);
    cbn [negb List.length]; lia.
Qed.

Lemma is_attack_or_rejected_all (cell : list paper) :
  Forall (fun p => 3 <= List.length p
                   /\ get_page (nth 2 p "") <> Raises) cell ->
  List.length (filter (is_attack get_page) cell)
  + List.length (filter (is_rejected get_page) cell)
  = List.length cell.
Proof.
  induction 1 as [|p cell [Hlen Hpage] _ IH]; cbn [filter List.length];
    [lia|].
  unfold is_attack at 1, is_rejected at 1.
  apply Nat.leb_le in Hlen. rewrite Hlen. cbn [andb].
  destruct (get_page (nth 2 p "")) as [|page]; [contradiction|].
  destruct ((__find_attack_type page =? 0)%Z
            || (__find_attack_type page =? 1)%Z);
    cbn [negb List.length]; lia.
Qed.

End Level4More.

(** X15. [level_4] keeps the shape of its input: the attack structure and
    the rejected structure have as many rows as the level 3 structure, and
    in each row as many cells. *)
Theorem level_4_same_shape (get_page : string -> outcome string)
  (results : list (list (list Analyser.paper))) :
  Shape2.same_shape (fst (Analyser.level_4 get_page results)) results
  /\ Shape2.same_shape (snd (Analyser.level_4 get_page results)) results.
Proof.
  unfold Shape2.same_shape, Analyser.level_4.
  destruct results as [|row results]; [split; reflexivity|].
  cbn [fst snd]. rewrite !map_map.
  split; apply map_ext; intros r; apply length_map.
Qed.

(** X16. In every cell, an attack paper is a paper of the level 3 cell that
    has at least three fields, followed by the label of its fetched page,
    "Attack Type 0" or "Attack Type 1"; a rejected paper is a paper of the
    cell whose page has neither label; and no paper is counted twice: the
    two cells together are no longer than the level 3 cell. *)
Theorem level_4_accounting (get_page : string -> outcome string)
  (results : list (list (list Analyser.paper))) (i j : nat)
  (cell : list Analyser.paper) :
  Shape.cell_at results i j = Some cell ->
  exists attack_cell rejected_cell,
    Shape.cell_at (fst (Analyser.level_4 get_page results)) i j
    = Some attack_cell
    /\ Shape.cell_at (snd (Analyser.level_4 get_page results)) i j
       = Some rejected_cell
    /\ Forall (fun labelled =>
                 exists paper_info page,
                   In paper_info cell
                   /\ 3 <= List.length paper_info
                   /\ get_page (nth 2 paper_info "") = Returns page
                   /\ (Analyser.__find_attack_type page = 0%Z
                       \/ Analyser.__find_attack_type page = 1%Z)
                   /\ labelled
                      = paper_info
                        ++ [Analyser.attack_label
                              (Analyser.__find_attack_type page)])
              attack_cell
    /\ Forall (fun paper_info =>
                 In paper_info cell
                 /\ exists page,
                      get_page (nth 2 paper_info "") = Returns page
                      /\ Analyser.__find_attack_type page <> 0%Z
                      /\ Analyser.__find_attack_type page <> 1%Z)
              rejected_cell
    /\ List.length attack_cell + List.length rejected_cell
       <= List.length cell.
Proof.
  intros Hcell.
  destruct (level_4_cells get_page results i j cell Hcell) as [Ha Hr].
  rewrite level_4_papers_split in Ha, Hr. cbn [fst snd app] in Ha, Hr.
  eexists; eexists. split; [exact Ha|]. split; [exact Hr|].
  split; [|split].
  - apply Forall_forall. intros labelled Hl.
    apply in_map_iff in Hl as (q & <- & Hq).
    apply filter_In in Hq as [Hin Hq]. unfold Shape.is_attack in Hq.
    apply andb_true_iff in Hq as [Hlen Hq]. apply Nat.leb_le in Hlen.
    destruct (get_page (nth 2 q "")) as [|page] eqn:Hpage; [discriminate|].
    exists q, page.
    split; [exact Hin|]. split; [exact Hlen|]. split; [exact Hpage|].
    split; [|cbn beta; rewrite ?Hpage; reflexivity].
    apply orb_true_iff in Hq as [Hq|Hq]; apply Z.eqb_eq in Hq; auto.
  - apply Forall_forall. intros q Hq.
    apply filter_In in Hq as [Hin Hq]. unfold Shape.is_rejected in Hq.
    apply andb_true_iff in Hq as [_ Hq]. split; [exact Hin|].
    destruct (get_page (nth 2 q "")) as [|page] eqn:Hpage; [discriminate|].
    exists page. apply negb_true_iff, orb_false_iff in Hq as [H0 H1].
    apply Z.eqb_neq in H0, H1. split; [reflexivity|]. now split.
  - rewrite length_map. apply is_attack_or_rejected.
Qed.

Lemma level_4_accounting_witness :
  exists attack_cell rejected_cell,
    Shape.cell_at
      (fst (Analyser.level_4 Examples2.fetch_evasion
              [[[Examples.full_record; Examples.short_record]]])) 0 0
    = Some attack_cell
    /\ Shape.cell_at
         (snd (Analyser.level_4 Examples2.fetch_evasion
                 [[[Examples.full_record; Examples.short_record]]])) 0 0
       = Some rejected_cell
    /\ List.length attack_cell + List.length rejected_cell <= 2.
Proof.
  destruct (level_4_accounting Examples2.fetch_evasion
              [[[Examples.full_record; Examples.short_record]]] 0 0
              [Examples.full_record; Examples.short_record] eq_refl)
    as (a & r & Ha & Hr & _ & _ & Hlen).
  exists a, r. repeat split; assumption.
Defined.

(** X17. Level 4 loses no paper that the paper search of the source found:
    the entries of [get_info] all have three fields, so when no page fetch
    raises, every paper of a level 3 cell is in the attack cell or in the
    rejected cell of its position, and in one of them only. *)
Theorem level_4_after_scraper
  (search_pubs : string -> outcome (option Scholar_scraper.search_query))
  (get_page : string -> outcome string)
  (candidates : list Model.scored) (i j : nat)
  (cell : list Analyser.paper) :
  let get_info := fun search_term =>
    Returns (Scholar_scraper.get_info search_pubs search_term) in
  let results := Analyser.level_3 get_info candidates in
  (forall url, get_page url <> Raises) ->
  Shape.cell_at results i j = Some cell ->
  List.length cell <= settings.NUMBER_OF_PAPERS
  /\ exists attack_cell rejected_cell,
       Shape.cell_at (fst (Analyser.level_4 get_page results)) i j
       = Some attack_cell
       /\ Shape.cell_at (snd (Analyser.level_4 get_page results)) i j
          = Some rejected_cell
       /\ List.length attack_cell + List.length rejected_cell
          = List.length cell.
Proof.
  intros get_info results Hpage Hcell.
  assert (Hfrom : cell = []
                  \/ exists query,
                       cell = Scholar_scraper.get_info search_pubs query).
  { subst results. destruct candidates as [|c candidates].
    { destruct i; discriminate Hcell. }
    rewrite level_3_nonempty in Hcell by discriminate.
    unfold Shape.cell_at in Hcell. rewrite nth_error_map in Hcell.
    destruct (nth_error Analyser.prefix i) as [p|]; [|discriminate].
    cbn [option_map] in Hcell. rewrite nth_error_map in Hcell.
    destruct (nth_error (c :: candidates) j) as [r|]; [|discriminate].
    injection Hcell as <-. unfold Shape.query_result, get_info.
    destruct (snd r =? "")%string; [now left|right]. eexists. reflexivity. }
  assert (Hthree : Forall (fun p => 3 <= List.length p
                                    /\ get_page (nth 2 p "") <> Raises) cell
                   /\ List.length cell <= settings.NUMBER_OF_PAPERS).
  { destruct Hfrom as [->|[query ->]].
    - split; [constructor|simpl; lia].
    - destruct (get_info_three_fields search_pubs query) as [Hf Hlen].
      split; [|exact Hlen].
      eapply Forall_impl; [|exact Hf].
      intros entry E. cbn beta in E. split; [lia|apply Hpage]. }
  destruct Hthree as [Hthree Hlen]. split; [exact Hlen|].
  destruct (level_4_cells get_page results i j cell Hcell) as [Ha Hr].
  rewrite level_4_papers_split in Ha, Hr. cbn [fst snd app] in Ha, Hr.
  eexists; eexists. split; [exact Ha|]. split; [exact Hr|].
  rewrite length_map. now apply is_attack_or_rejected_all.
Qed.

Lemma level_4_after_scraper_witness :
  let get_info := fun search_term =>
    Returns (Scholar_scraper.get_info Examples2.six_found search_term) in
  let results := Analyser.level_3 get_info [Examples.xgboost] in
  exists attack_cell rejected_cell,
    Shape.cell_at (fst (Analyser.level_4 Examples2.fetch_evasion results)) 0 0
    = Some attack_cell
    /\ Shape.cell_at
         (snd (Analyser.level_4 Examples2.fetch_evasion results)) 0 0
       = Some rejected_cell
    /\ List.length attack_cell + List.length rejected_cell = 4.
Proof.
  destruct (level_4_after_scraper Examples2.six_found Examples2.fetch_evasion
              [Examples.xgboost] 0 0
              (Scholar_scraper.get_info Examples2.six_found
                 "Security Attacks on XGBoost"))
    as (_ & a & r & Ha & Hr & Hlen).
  - intros url. discriminate.
  - reflexivity.
  - exists a, r. repeat split; assumption.
Defined.

(** ** [process_document]: the levels together *)

Section DocumentFacts.

Import Model Analyser Shape2.

Variable nlp : string -> string -> outcome (option qa_result).
Variable keyword_completion : list string -> LLM.LLMResponse (list string).
Variable check_desc : nat -> string -> outcome bool.
Variable get_info : string -> outcome (list paper).
Variable get_page : string -> outcome string.

Lemma level_4_of_level_3 (candidates : list scored) :
  candidates <> [] ->
  let out := level_4 get_page (level_3 get_info candidates) in
  List.length (fst out) = 3
  /\ List.length (snd out) = 3
  /\ Forall (fun row => List.length row = List.length candidates) (fst out)
  /\ Forall (fun row => List.length row = List.length candidates) (snd out).
Proof.
  intros Hne. rewrite (level_3_nonempty get_info candidates Hne).
  unfold level_4, prefix. cbn [map fst snd List.length].
  repeat split; repeat constructor; now rewrite !length_map.
Qed.

Lemma level_4_of_level_3_cells (candidates : list scored) (i j : nat)
      (p : string) (r : scored) :
  nth_error prefix i = Some p ->
  nth_error candidates j = Some r ->
  let out := level_4 get_page (level_3 get_info candidates) in
  Shape.cell_at (fst out) i j
  = Some (fst (level_4_papers get_page
                 (Shape.query_result get_info p r) [] []))
  /\ Shape.cell_at (snd out) i j
     = Some (snd (level_4_papers get_page
                    (Shape.query_result get_info p r) [] [])).
Proof.
  intros Hp Hr out. subst out. apply level_4_cells.
  assert (Hne : candidates <> []).
  { intros ->. destruct j; discriminate Hr. }
  rewrite (level_3_nonempty get_info candidates Hne).
  unfold Shape.cell_at. rewrite nth_error_map, Hp. cbn [option_map].
  rewrite nth_error_map, Hr. reflexivity.
Qed.

End DocumentFacts.

(** X18. After steps 3 to 9 of [process_document], the candidates of level 3
    are the at most five keywords of level 2 followed by the keywords of the
    LLM, each with the score 0.9, in their order.  The attack and rejected
    structures are both empty (no candidate) or both made of three rows, one
    per search prefix, with one cell per candidate; the cell of a prefix and
    a candidate holds what level 4 makes of the papers found for that prefix
    and that candidate. *)
Theorem analyse_document_shapes
  (nlp : string -> string -> outcome (option Model.qa_result))
  (keyword_completion : list string -> LLM.LLMResponse (list string))
  (check_desc : nat -> string -> outcome bool)
  (get_info : string -> outcome (list Analyser.paper))
  (get_page : string -> outcome string)
  (self : Analyser.state) (algorithm : option string) (pages : list string) :
  let a := Pipeline.analyse_document nlp keyword_completion check_desc
             get_info get_page self algorithm pages in
  let K := List.length (Pipeline.combined_answer a) in
  List.length (Pipeline.filtered_answer a) <= settings.NUMBER_OF_KEYWORDS
  /\ Pipeline.combined_answer a
     = Pipeline.filtered_answer a
       ++ map (fun keyword => (Pipeline.ALT_SCORE, keyword))
              (Pipeline.alt_keywords a)
  /\ K = List.length (Pipeline.filtered_answer a)
         + List.length (Pipeline.alt_keywords a)
  /\ (K = 0 -> Pipeline.attack_papers a = [] /\ Pipeline.rejections a = [])
  /\ (K <> 0 ->
      List.length (Pipeline.attack_papers a) = 3
      /\ List.length (Pipeline.rejections a) = 3
      /\ Forall (fun row => List.length row = K) (Pipeline.attack_papers a)
      /\ Forall (fun row => List.length row = K) (Pipeline.rejections a))
  /\ (forall i j p r,
        nth_error Analyser.prefix i = Some p ->
        nth_error (Pipeline.combined_answer a) j = Some r ->
        Shape.cell_at (Pipeline.attack_papers a) i j
        = Some (fst (Analyser.level_4_papers get_page
                       (Shape.query_result get_info p r) [] []))
        /\ Shape.cell_at (Pipeline.rejections a) i j
           = Some (snd (Analyser.level_4_papers get_page
                          (Shape.query_result get_info p r) [] []))).
Proof.
  intros a K. subst K a. unfold Pipeline.analyse_document.
  destruct (Analyser.level_1 nlp self pages) as [self1 answers].
  set (all_answers := Pipeline.seed_algorithm algorithm answers).
  set (self2 := match all_answers with
                | [] => self1
                | _ => Analyser.set_initial_results self1 all_answers
                end).
  set (alt := match all_answers with
              | [] => []
              | _ => Analyser.level_2_alt keyword_completion all_answers
              end).
  assert (Hcap : forall r : Analyser.state * list Model.scored,
             r = match all_answers with
                 | [] => (self2, [])
                 | _ => Analyser.level_2 check_desc self2 all_answers
                 end ->
             List.length (snd r) <= settings.NUMBER_OF_KEYWORDS).
  { intros r ->. destruct all_answers as [|x l]; [simpl; lia|].
    rewrite level_2_nonempty by discriminate. cbn [snd].
    apply level_2_loop_cap. simpl. unfold Analyser.max_keywords. lia. }
  destruct (match all_answers with
            | [] => (self2, [])
            | _ => Analyser.level_2 check_desc self2 all_answers
            end) as [self3 filtered] eqn:E2.
  specialize (Hcap (self3, filtered) eq_refl). cbn [snd] in Hcap.
  assert (Hcomb : Pipeline.combine_answers filtered alt
                  = filtered
                    ++ map (fun keyword => (Pipeline.ALT_SCORE, keyword)) alt)
    by reflexivity.
  set (combined := Pipeline.combine_answers filtered alt) in *.
  assert (Hlen : List.length combined
                 = List.length filtered + List.length alt).
  { rewrite Hcomb. now rewrite length_app, length_map. }
  destruct combined as [|c combined'] eqn:Ec.
  - cbn [Pipeline.filtered_answer Pipeline.combined_answer
         Pipeline.alt_keywords Pipeline.attack_papers Pipeline.rejections
         List.length] in *.
    split; [exact Hcap|]. split; [exact Hcomb|]. split; [exact Hlen|].
    split; [intros _; split; reflexivity|].
    split; [intros Hk; exfalso; now apply Hk|].
    intros i j p r _ Hr. destruct j; discriminate Hr.
  - destruct (level_4_of_level_3 get_info get_page (c :: combined'))
      as (H1 & H2 & H3 & H4); [discriminate|].
    pose proof (fun i j p r =>
                  level_4_of_level_3_cells get_info get_page
                    (c :: combined') i j p r) as Hcells.
    cbn zeta in Hcells.
    assert (Hrows : Analyser.level_3 get_info (c :: combined') <> []).
    { rewrite level_3_nonempty by discriminate. discriminate. }
    destruct (Analyser.level_3 get_info (c :: combined')) as [|row rows]
      eqn:E3; [contradiction|].
    destruct (Analyser.level_4 get_page (row :: rows)) as [attack rejected].
    cbn [Pipeline.filtered_answer Pipeline.combined_answer
         Pipeline.alt_keywords Pipeline.attack_papers Pipeline.rejections
         fst snd] in *.
    split; [exact Hcap|]. split; [exact Hcomb|]. split; [exact Hlen|].
    split; [intros Hk; discriminate Hk|].
    split; [intros _; now repeat split|].
    exact Hcells.
Qed.

(** A document with one validated keyword, an LLM that is down (so the first
    candidates stand in for its keywords) and a paper search that finds
    nothing: three rows of empty cells. *)
Lemma analyse_document_shapes_witness :
  let a := Pipeline.analyse_document Examples.qa_contained
             Examples.llm_down Examples2.accepts_once Examples.no_papers
             Examples.fetch_fails Examples.fresh None
             [Examples.paragraph_1; Examples.paragraph_2] in
  List.length (Pipeline.attack_papers a) = 3
  /\ Forall (fun row => List.length row
                        = List.length (Pipeline.combined_answer a))
            (Pipeline.attack_papers a)
  /\ Shape.cell_at (Pipeline.attack_papers a) 0 0 = Some [].
Proof.
  destruct (analyse_document_shapes Examples.qa_contained
              Examples.llm_down Examples2.accepts_once Examples.no_papers
              Examples.fetch_fails Examples.fresh None
              [Examples.paragraph_1; Examples.paragraph_2])
    as (_ & _ & _ & _ & H & Hcells).
  destruct H as (H1 & _ & H3 & _); [vm_compute; discriminate|].
  split; [exact H1|]. split; [exact H3|].
  destruct (Hcells 0 0 "Security Attacks on " (9 # 10, "XGBoost classifier"))
    as [Hcell _]; [reflexivity|reflexivity|].
  exact Hcell.
Defined.

(** X19. The [Analyser] is shared by the documents of a run.  When level 1
    finds answers, [initial_results] ends as the answer list with the known
    algorithm seeded in, and [filtered_results] as the list level 2
    returned.  When level 1 finds none, levels 2 to 4 do not run: no alt
    keyword, no paper, and [filtered_results] and [neglected_results] stay
    as the previous document left them. *)
Theorem analyse_document_state
  (nlp : string -> string -> outcome (option Model.qa_result))
  (keyword_completion : list string -> LLM.LLMResponse (list string))
  (check_desc : nat -> string -> outcome bool)
  (get_info : string -> outcome (list Analyser.paper))
  (get_page : string -> outcome string)
  (self : Analyser.state) (algorithm : option string) (pages : list string) :
  let a := Pipeline.analyse_document nlp keyword_completion check_desc
             get_info get_page self algorithm pages in
  (snd (Analyser.level_1 nlp self pages) <> [] ->
   Pipeline.all_answers a
   = Pipeline.seed_algorithm algorithm (snd (Analyser.level_1 nlp self pages))
   /\ Analyser.initial_results (Pipeline.analyser a) = Pipeline.all_answers a
   /\ Analyser.filtered_results (Pipeline.analyser a)
      = Pipeline.filtered_answer a)
  /\ (snd (Analyser.level_1 nlp self pages) = [] ->
      Pipeline.alt_keywords a = []
      /\ Pipeline.filtered_answer a = []
      /\ Pipeline.attack_papers a = []
      /\ Pipeline.rejections a = []
      /\ Analyser.filtered_results (Pipeline.analyser a)
         = Analyser.filtered_results self
      /\ Analyser.neglected_results (Pipeline.analyser a)
         = Analyser.neglected_results self).
Proof.
  intros a. subst a. unfold Pipeline.analyse_document.
  assert (Hkeep : Analyser.filtered_results
                    (fst (Analyser.level_1 nlp self pages))
                  = Analyser.filtered_results self
                  /\ Analyser.neglected_results
                       (fst (Analyser.level_1 nlp self pages))
                     = Analyser.neglected_results self).
  { unfold Analyser.level_1. destruct pages; split; reflexivity. }
  destruct (Analyser.level_1 nlp self pages) as [self1 answers].
  cbn [fst snd] in *. destruct Hkeep as [Hf Hn]. split.
  - intros Hne.
    destruct (seed_algorithm_cases algorithm answers)
      as [E|(name & _ & _ & _ & _ & E)]; rewrite E.
    + destruct answers as [|x l]; [contradiction|].
      rewrite level_2_nonempty by discriminate.
      destruct (Pipeline.combine_answers _ _) as [|c cs].
      * cbn. repeat split.
      * destruct (Analyser.level_3 get_info (c :: cs)) as [|row rows];
          [cbn; repeat split|].
        destruct (Analyser.level_4 get_page (row :: rows)).
        cbn. repeat split.
    + rewrite level_2_nonempty by discriminate.
      destruct (Pipeline.combine_answers _ _) as [|c cs].
      * cbn. repeat split.
      * destruct (Analyser.level_3 get_info (c :: cs)) as [|row rows];
          [cbn; repeat split|].
        destruct (Analyser.level_4 get_page (row :: rows)).
        cbn. repeat split.
  - intros ->.
    assert (E : Pipeline.seed_algorithm algorithm [] = []).
    { unfold Pipeline.seed_algorithm. destruct algorithm as [name|];
        [destruct (name =? "")%string|]; reflexivity. }
    rewrite E. cbn. now repeat split.
Qed.

Lemma analyse_document_state_witness :
  let self := Analyser.mk_state [] [Examples.svm] [] [Examples.xgboost] in
  let a := Pipeline.analyse_document (fun question context => Returns None)
             Examples.llm_down Examples2.accepts_once Examples.no_papers
             Examples.fetch_fails self (Some "CNN")
             [Examples.paragraph_1] in
  Pipeline.filtered_answer a = []
  /\ Analyser.filtered_results (Pipeline.analyser a) = [Examples.svm]
  /\ Analyser.neglected_results (Pipeline.analyser a) = [Examples.xgboost].
Proof.
  destruct (analyse_document_state (fun question context => Returns None)
              Examples.llm_down Examples2.accepts_once Examples.no_papers
              Examples.fetch_fails
              (Analyser.mk_state [] [Examples.svm] [] [Examples.xgboost])
              (Some "CNN") [Examples.paragraph_1]) as [_ H].
  destruct H as (_ & Hf & _ & _ & Hfr & Hnr); [reflexivity|].
  split; [exact Hf|]. split; [exact Hfr|exact Hnr].
Defined.

(** ** The web validator *)

Section CheckDescFacts.

Variable check_link : string -> outcome bool.
Variable driver_get : string -> Browsing.driver_result.

Lemma check_desc_pages_firstn (n : nat)
  (search_results : list (outcome string)) :
  Browsing.check_desc_pages check_link driver_get n
    (firstn n search_results)
  = Browsing.check_desc_pages check_link driver_get n search_results.
Proof.
  revert search_results; induction n as [|n IH]; intros search_results;
    [reflexivity|].
  destruct search_results as [|[|page] search_results];
    cbn [firstn Browsing.check_desc_pages]; try reflexivity.
  rewrite IH. reflexivity.
Qed.

Lemma check_desc_pages_found (n : nat)
  (search_results : list (outcome string)) :
  Browsing.check_desc_pages check_link driver_get n search_results
  = Returns true ->
  exists page content,
    In (Returns page) (firstn n search_results)
    /\ PyStr.str_in "fda.gov" page = false
    /\ PyStr.str_in ".img" page = false
    /\ PyStr.str_in ".pdf" page = false
    /\ Browsing.get_page check_link driver_get page = Returns content
    /\ content <> "None"
    /\ Helper_functions.regex_search content Browsing.relevance_pattern
       = true.
Proof.
  revert search_results; induction n as [|n IH]; intros search_results;
    cbn [Browsing.check_desc_pages]; [discriminate|].
  destruct search_results as [|[|page] search_results]; try discriminate.
  assert (Hlater : Browsing.check_desc_pages check_link driver_get n
                     search_results = Returns true ->
                   exists page0 content,
                     In (Returns page0)
                        (firstn (S n) (Returns page :: search_results))
                     /\ PyStr.str_in "fda.gov" page0 = false
                     /\ PyStr.str_in ".img" page0 = false
                     /\ PyStr.str_in ".pdf" page0 = false
                     /\ Browsing.get_page check_link driver_get page0
                        = Returns content
                     /\ content <> "None"
                     /\ Helper_functions.regex_search content
                          Browsing.relevance_pattern = true).
  { intros H. destruct (IH _ H) as (p & c & Hin & Hrest).
    exists p, c. split; [right; exact Hin|exact Hrest]. }
  destruct (PyStr.str_in "fda.gov" page) eqn:H1; [exact Hlater|].
  destruct (PyStr.str_in ".img" page) eqn:H2; [exact Hlater|].
  destruct (PyStr.str_in ".pdf" page) eqn:H3; [exact Hlater|].
  cbn [orb].
  destruct (Browsing.get_page check_link driver_get page) as [|content]
    eqn:Hpage; [discriminate|].
  destruct (String.eqb_spec content "None") as [|Hnone]; [exact Hlater|].
  destruct (Helper_functions.regex_search content Browsing.relevance_pattern)
    eqn:Hre; [|exact Hlater].
  intros _. exists page, content. split; [now left|].
  now repeat split.
Qed.

End CheckDescFacts.

(** X20. [check_desc] looks at the first two search results at most
    ([NO_SEARCH_RESULTS] = 2): two searches whose first two results agree
    give the same answer. *)
Theorem check_desc_two_results
  (check_link : string -> outcome bool)
  (driver_get : string -> Browsing.driver_result)
  (google_search google_search' : string -> outcome (list (outcome string)))
  (query : string) (found found' : list (outcome string)) :
  google_search (PyStr.strip query) = Returns found ->
  google_search' (PyStr.strip query) = Returns found' ->
  firstn 2 found = firstn 2 found' ->
  Browsing.check_desc check_link driver_get google_search query
  = Browsing.check_desc check_link driver_get google_search' query.
Proof.
  intros Hs Hs' Hfirst.
  unfold Browsing.check_desc, Browsing.check_desc_try,
    Browsing.get_google_search_results.
  rewrite Hs, Hs'.
  change (Nat.min settings.NO_SEARCH_RESULTS 3) with 2.
  rewrite <- (check_desc_pages_firstn check_link driver_get 2 found),
    <- (check_desc_pages_firstn check_link driver_get 2 found'), Hfirst.
  reflexivity.
Qed.

Lemma check_desc_two_results_witness :
  Browsing.check_desc Examples2.always_linked Examples2.network_page
    Examples2.two_results "CNN"
  = Browsing.check_desc Examples2.always_linked Examples2.network_page
      Examples2.three_results "CNN".
Proof.
  apply (check_desc_two_results Examples2.always_linked
           Examples2.network_page Examples2.two_results
           Examples2.three_results "CNN"
           [ Returns "https://www.fda.gov/devices";
             Returns "https://example.org/cnn" ]
           [ Returns "https://www.fda.gov/devices";
             Returns "https://example.org/cnn"; Raises ]);
    reflexivity.
Defined.

(** X21. When [check_desc] answers [True], either something raised inside
    its [try] block, or one of the first two search results is a page that
    is not an FDA, image or PDF link, that [get_page] fetched (not the
    "None" sentinel) and whose content matches one of the AI/ML patterns. *)
Theorem check_desc_true
  (check_link : string -> outcome bool)
  (driver_get : string -> Browsing.driver_result)
  (google_search : string -> outcome (list (outcome string)))
  (query : string) :
  Browsing.check_desc check_link driver_get google_search query = true ->
  Browsing.check_desc_try check_link driver_get google_search query = Raises
  \/ exists found page content,
       google_search (PyStr.strip query) = Returns found
       /\ In (Returns page) (firstn 2 found)
       /\ PyStr.str_in "fda.gov" page = false
       /\ PyStr.str_in ".img" page = false
       /\ PyStr.str_in ".pdf" page = false
       /\ Browsing.get_page check_link driver_get page = Returns content
       /\ content <> "None"
       /\ Helper_functions.regex_search content Browsing.relevance_pattern
          = true.
Proof.
  unfold Browsing.check_desc.
  destruct (Browsing.check_desc_try check_link driver_get google_search
              query) as [|result] eqn:Htry; [now left|].
  intros ->. right.
  unfold Browsing.check_desc_try, Browsing.get_google_search_results in Htry.
  destruct (google_search (PyStr.strip query)) as [|found]; [discriminate|].
  change (Nat.min settings.NO_SEARCH_RESULTS 3) with 2 in Htry.
  destruct (check_desc_pages_found check_link driver_get 2 found Htry)
    as (page & content & H).
  exists found, page, content. split; [reflexivity|exact H].
Qed.

Lemma check_desc_true_witness :
  Browsing.check_desc_try Examples2.always_linked Examples2.network_page
    Examples2.two_results "CNN" = Raises
  \/ exists found page content,
       Examples2.two_results (PyStr.strip "CNN") = Returns found
       /\ In (Returns page) (firstn 2 found)
       /\ PyStr.str_in "fda.gov" page = false
       /\ PyStr.str_in ".img" page = false
       /\ PyStr.str_in ".pdf" page = false
       /\ Browsing.get_page Examples2.always_linked Examples2.network_page
            page = Returns content
       /\ content <> "None"
       /\ Helper_functions.regex_search content Browsing.relevance_pattern
          = true.
Proof.
  apply (check_desc_true Examples2.always_linked Examples2.network_page
           Examples2.two_results "CNN").
  reflexivity.
Defined.

(** ** The report *)

Section ReportFacts.

Import Model Analyser Shape2.

Lemma report_cells_beyond (search_prefix : string) (answers : list scored)
  (cells : list (list paper)) (j : nat) (acc : list string) :
  List.length answers <= j ->
  Pipeline.report_cells search_prefix answers cells j acc = acc.
Proof.
  revert j; induction cells as [|cell cells IH]; intros j Hj;
    cbn [Pipeline.report_cells]; [reflexivity|].
  assert (E : nth_error answers j = None) by now apply nth_error_None.
  rewrite E. apply IH. lia.
Qed.

Lemma report_cells_firstn (search_prefix : string) (answers : list scored)
  (cells : list (list paper)) (j : nat) (acc : list string) :
  Pipeline.report_cells search_prefix answers
    (firstn (List.length answers - j) cells) j acc
  = Pipeline.report_cells search_prefix answers cells j acc.
Proof.
  revert j acc; induction cells as [|cell cells IH]; intros j acc.
  - now rewrite firstn_nil.
  - destruct (List.length answers - j) as [|k] eqn:Ek.
    + rewrite firstn_O, !report_cells_beyond by lia. reflexivity.
    + cbn [firstn Pipeline.report_cells].
      replace k with (List.length answers - S j) by lia.
      destruct (nth_error answers j) as [answer|]; [|apply IH].
      destruct cell as [|p ps]; [apply IH|].
      destruct (1 <? _); apply IH.
Qed.

Lemma report_rows_columns (answers : list scored)
  (rows : list (list (list paper))) (i : nat) (acc : list string) :
  Pipeline.report_rows answers
    (map (firstn (List.length answers)) rows) i acc
  = Pipeline.report_rows answers rows i acc.
Proof.
  revert i acc; induction rows as [|row rows IH]; intros i acc;
    cbn [map Pipeline.report_rows]; [reflexivity|].
  destruct (nth_error prefix i) as [p|]; [|reflexivity].
  rewrite IH. f_equal.
  pose proof (report_cells_firstn p answers row 0 acc) as E.
  now rewrite Nat.sub_0_r in E.
Qed.

Lemma report_rows_beyond (answers : list scored)
  (rows : list (list (list paper))) (i : nat) (acc : list string) :
  List.length prefix <= i ->
  Pipeline.report_rows answers rows i acc = acc.
Proof.
  intros Hi. destruct rows as [|row rows]; cbn [Pipeline.report_rows];
    [reflexivity|].
  assert (E : nth_error prefix i = None) by now apply nth_error_None.
  now rewrite E.
Qed.

Lemma report_rows_firstn (answers : list scored)
  (rows : list (list (list paper))) (i : nat) (acc : list string) :
  Pipeline.report_rows answers (firstn (List.length prefix - i) rows) i acc
  = Pipeline.report_rows answers rows i acc.
Proof.
  revert i acc; induction rows as [|row rows IH]; intros i acc.
  - now rewrite firstn_nil.
  - destruct (List.length prefix - i) as [|k] eqn:Ek.
    + rewrite firstn_O, !report_rows_beyond by lia. reflexivity.
    + cbn [firstn Pipeline.report_rows].
      replace k with (List.length prefix - S i) by lia.
      destruct (nth_error prefix i); [apply IH|reflexivity].
Qed.

Lemma paper_lines_entry_lines (cell : list paper) (temp : list string) :
  Pipeline.paper_lines cell temp = temp ++ entry_lines cell.
Proof.
  unfold entry_lines.
  revert temp; induction cell as [|p cell IH]; intros temp;
    cbn [Pipeline.paper_lines filter map]; [now rewrite app_nil_r|].
  destruct p as [|f fs]; [apply IH|].
  cbn [List.length Nat.ltb Nat.leb map]. rewrite IH, <- app_assoc.
  reflexivity.
Qed.

(** One turn of the loop over the cells of a row. *)
Lemma report_cells_step (search_prefix : string) (answers : list scored)
  (cell : list paper) (cells : list (list paper)) (j : nat)
  (acc : list string) :
  Pipeline.report_cells search_prefix answers (cell :: cells) j acc
  = Pipeline.report_cells search_prefix answers cells (S j)
      (acc
       ++ match nth_error answers j, entry_lines cell with
          | Some answer, line :: lines =>
              [PyStr.join (String PyStr.newline "")
                 ((search_prefix ++ snd answer)%string :: line :: lines)]
          | _, _ => []
          end).
Proof.
  cbn [Pipeline.report_cells].
  destruct (nth_error answers j) as [answer|]; [|now rewrite app_nil_r].
  destruct cell as [|p ps]; [now rewrite app_nil_r|].
  rewrite paper_lines_entry_lines. cbn [app List.length].
  destruct (entry_lines (p :: ps)) as [|line lines];
    [now rewrite app_nil_r|reflexivity].
Qed.

Lemma report_cells_length (search_prefix : string) (answers : list scored)
  (cells : list (list paper)) (j : nat) (acc : list string) :
  List.length (Pipeline.report_cells search_prefix answers cells j acc)
  <= List.length acc + (List.length answers - j).
Proof.
  revert j acc; induction cells as [|cell cells IH]; intros j acc;
    [cbn [Pipeline.report_cells]; lia|].
  rewrite report_cells_step.
  pose proof (IH (S j)
                (acc
                 ++ match nth_error answers j, entry_lines cell with
                    | Some answer, line :: lines =>
                        [PyStr.join (String PyStr.newline "")
                           ((search_prefix ++ snd answer)%string
                            :: line :: lines)]
                    | _, _ => []
                    end)) as Hl.
  rewrite length_app in Hl.
  destruct (nth_error answers j) as [answer|] eqn:Hj.
  - assert (Hlt : j < List.length answers)
      by (apply nth_error_Some; congruence).
    destruct (entry_lines cell); cbn [List.length] in Hl; lia.
  - cbn [List.length] in Hl. lia.
Qed.

Lemma report_rows_length (answers : list scored)
  (rows : list (list (list paper))) (i : nat) (acc : list string) :
  List.length (Pipeline.report_rows answers rows i acc)
  <= List.length acc + (List.length prefix - i) * List.length answers.
Proof.
  revert i acc; induction rows as [|row rows IH]; intros i acc;
    cbn [Pipeline.report_rows]; [apply Nat.le_add_r|].
  destruct (nth_error prefix i) as [p|] eqn:Hi; [|apply Nat.le_add_r].
  assert (Hlt : i < List.length prefix)
    by (apply nth_error_Some; congruence).
  pose proof (report_cells_length p answers row 0 acc) as Hl.
  pose proof (IH (S i) (Pipeline.report_cells p answers row 0 acc)) as Hl'.
  rewrite Nat.sub_0_r in Hl.
  replace (List.length prefix - i) with (S (List.length prefix - S i))
    by lia.
  rewrite Nat.mul_succ_l. lia.
Qed.

(** What the loop over the cells of a row adds: the entries of the cells
    that have an answer at their index and a paper with fields. *)
Lemma report_cells_in (search_prefix : string) (answers : list scored)
  (cells : list (list paper)) (j : nat) (acc : list string)
  (entry : string) :
  In entry (Pipeline.report_cells search_prefix answers cells j acc)
  <-> In entry acc
      \/ exists k answer cell,
           nth_error cells k = Some cell
           /\ nth_error answers (j + k) = Some answer
           /\ entry_lines cell <> []
           /\ entry = PyStr.join (String PyStr.newline "")
                        ((search_prefix ++ snd answer)%string
                         :: entry_lines cell).
Proof.
  revert j acc; induction cells as [|c cells IH]; intros j acc.
  - cbn [Pipeline.report_cells]. split; [now left|].
    intros [H|(k & answer & cell & Hk & _)]; [exact H|].
    destruct k; discriminate Hk.
  - rewrite report_cells_step, IH, in_app_iff. split.
    + intros [[H|H]|(k & answer & cell & Hk & Ha & Hne & E)].
      * now left.
      * right. exists 0.
        destruct (nth_error answers j) as [answer|] eqn:Hj; [|destruct H].
        destruct (entry_lines c) as [|line lines] eqn:El; [destruct H|].
        destruct H as [<-|[]]. exists answer, c.
        rewrite Nat.add_0_r, El. repeat split; trivial. discriminate.
      * right. exists (S k), answer, cell.
        rewrite Nat.add_succ_r. repeat split; trivial.
    + intros [H|(k & answer & cell & Hk & Ha & Hne & E)];
        [left; now left|].
      destruct k as [|k].
      * left. right. rewrite Nat.add_0_r in Ha. cbn [nth_error] in Hk.
        injection Hk as ->. rewrite Ha.
        destruct (entry_lines cell) as [|line lines];
          [contradiction|]. left. now symmetry.
      * right. exists k, answer, cell.
        rewrite Nat.add_succ_r in Ha. repeat split; trivial.
Qed.

(** What the loop over the rows adds. *)
Lemma report_rows_in (answers : list scored)
  (rows : list (list (list paper))) (i : nat) (acc : list string)
  (entry : string) :
  In entry (Pipeline.report_rows answers rows i acc)
  <-> In entry acc
      \/ exists k j search_prefix answer row cell,
           nth_error rows k = Some row
           /\ nth_error prefix (i + k) = Some search_prefix
           /\ nth_error row j = Some cell
           /\ nth_error answers j = Some answer
           /\ entry_lines cell <> []
           /\ entry = PyStr.join (String PyStr.newline "")
                        ((search_prefix ++ snd answer)%string
                         :: entry_lines cell).
Proof.
  revert i acc; induction rows as [|r rows IH]; intros i acc.
  - cbn [Pipeline.report_rows]. split; [now left|].
    intros [H|(k & j & p & answer & row & cell & Hk & _)]; [exact H|].
    destruct k; discriminate Hk.
  - cbn [Pipeline.report_rows].
    destruct (nth_error prefix i) as [p|] eqn:Hi.
    + rewrite IH, report_cells_in. split.
      * intros [[H|(j & answer & cell & Hj & Ha & Hne & E)]
               |(k & j & p' & answer & row & cell & Hk & Hp & Hrest)].
        -- now left.
        -- right. exists 0, j, p, answer, r, cell.
           rewrite Nat.add_0_r. repeat split; trivial.
        -- right. exists (S k), j, p', answer, row, cell.
           rewrite Nat.add_succ_r. split; [exact Hk|].
           split; [exact Hp|exact Hrest].
      * intros [H|(k & j & p' & answer & row & cell & Hk & Hp & Hj & Hrest)];
          [left; now left|].
        destruct k as [|k].
        -- left. right. rewrite Nat.add_0_r, Hi in Hp.
           injection Hp as <-. cbn [nth_error] in Hk. injection Hk as <-.
           exists j, answer, cell. split; [exact Hj|exact Hrest].
        -- right. exists k, j, p', answer, row, cell.
           rewrite Nat.add_succ_r in Hp. cbn [nth_error] in Hk.
           split; [exact Hk|]. split; [exact Hp|].
           split; [exact Hj|exact Hrest].
    + split; [now left|].
      intros [H|(k & j & p' & answer & row & cell & _ & Hp & _)];
        [exact H|].
      apply nth_error_None in Hi.
      assert (Hsome : nth_error prefix (i + k) <> None) by congruence.
      apply nth_error_Some in Hsome. lia.
Qed.

End ReportFacts.

(** X22. [process_search_results] reports the first three rows only, and in
    a row only the cells that have an answer at their index: rows and cells
    beyond are ignored.  (In [process_document] the answers are the
    keywords of level 2, so the papers found for the LLM's keywords, which
    come after them, are not reported.) *)
Theorem process_search_results_window
  (results : list (list (list Analyser.paper)))
  (answers : list Model.scored) :
  Pipeline.process_search_results
    (map (firstn (List.length answers)) (firstn 3 results)) answers
  = Pipeline.process_search_results results answers.
Proof.
  unfold Pipeline.process_search_results.
  destruct results as [|row results]; [reflexivity|].
  destruct answers as [|a answers]; [reflexivity|].
  transitivity
    (Pipeline.report_rows (a :: answers)
       (map (firstn (List.length (a :: answers)))
            (firstn 3 (row :: results))) 0 []); [reflexivity|].
  rewrite report_rows_columns.
  apply (report_rows_firstn (a :: answers) (row :: results) 0 []).
Qed.

(** X23. The entries of the report are exactly these: for each of the three
    search prefixes and each answer whose cell holds a paper with fields,
    the prefix followed by the keyword of the answer on the first line, then
    the papers of the cell, one per line with their fields joined by spaces.
    There are at most three entries per answer. *)
Theorem process_search_results_entries
  (results : list (list (list Analyser.paper)))
  (answers : list Model.scored) :
  (forall entry,
      In entry (Pipeline.process_search_results results answers)
      <-> Shape2.report_entry results answers entry)
  /\ List.length (Pipeline.process_search_results results answers)
     <= 3 * List.length answers.
Proof.
  split.
  - intros entry. unfold Pipeline.process_search_results, Shape2.report_entry.
    destruct results as [|row results].
    { split; [intros []|].
      intros (i & j & p & answer & cell & _ & _ & Hc & _).
      unfold Shape.cell_at in Hc. destruct i; discriminate Hc. }
    destruct answers as [|a answers].
    { split; [intros []|].
      intros (i & j & p & answer & cell & _ & Ha & _).
      destruct j; discriminate Ha. }
    rewrite report_rows_in. unfold Shape.cell_at. split.
    + intros [[]|(k & j & p & answer & r & cell & Hk & Hp & Hj & Ha & Hrest)].
      exists k, j, p, answer, cell. rewrite Hk.
      split; [exact Hp|]. split; [exact Ha|]. split; [exact Hj|exact Hrest].
    + intros (i & j & p & answer & cell & Hp & Ha & Hc & Hrest).
      right.
      destruct (nth_error (row :: results) i) as [r|] eqn:Hi;
        [|discriminate Hc].
      exists i, j, p, answer, r, cell.
      split; [exact Hi|]. split; [exact Hp|].
      split; [exact Hc|]. split; [exact Ha|exact Hrest].
  - unfold Pipeline.process_search_results.
    destruct results as [|row results]; [simpl; lia|].
    destruct answers as [|a answers]; [simpl; lia|].
    pose proof (report_rows_length (a :: answers) (row :: results) 0 [])
      as Hl.
    simpl in Hl |- *. lia.
Qed.

(** One cell with one paper gives one entry of two lines. *)
Lemma process_search_results_entries_witness :
  In ("Security Attacks on XGBoost"
      ++ String PyStr.newline
           "Attacks on XGBoost An abstract. https://example.org/paper")%string
     (Pipeline.process_search_results [[[Examples.full_record]]]
        [Examples.xgboost]).
Proof.
  apply (proj1 (process_search_results_entries [[[Examples.full_record]]]
                  [Examples.xgboost])).
  exists 0, 0, "Security Attacks on ", Examples.xgboost,
    [Examples.full_record].
  repeat split; try reflexivity. discriminate.
Defined.

(** ** The rows of the output file *)

Section RowFacts.

Import Shape2.

Lemma chars_app (a b : string) :
  PyText.chars (a ++ b) = PyText.chars a ++ PyText.chars b.
Proof.
  unfold PyText.chars. induction a as [|c a IH]; [reflexivity|].
  cbn [String.append list_ascii_of_string app]. now rewrite IH.
Qed.

Lemma replace_chars (old : ascii) (new s : string) (a : ascii) :
  In a (PyText.chars (PyText.replace old new s)) ->
  In a (PyText.chars new) \/ (a <> old /\ In a (PyText.chars s)).
Proof.
  induction s as [|c s IH]; cbn [PyText.replace]; [intros []|].
  destruct (Ascii.eqb_spec c old) as [->|Hc].
  - rewrite chars_app. intros H. apply in_app_or in H as [H|H]; [now left|].
    destruct (IH H) as [Hn|[Hne Hin]]; [now left|right].
    split; [exact Hne|now right].
  - intros [E|H].
    + right. subst a. split; [exact Hc|now left].
    + destruct (IH H) as [Hn|[Hne Hin]]; [now left|right].
      split; [exact Hne|now right].
Qed.

Lemma one_line_one_lined (x : string) : one_lined (Pipeline.one_line x).
Proof.
  unfold one_lined, has_char, Pipeline.one_line. split; intros H.
  - apply replace_chars in H as [[]|[_ H]].
    apply replace_chars in H as [H|[Hne _]]; [|contradiction].
    cbn in H. intuition discriminate.
  - apply replace_chars in H as [[]|[Hne _]]. contradiction.
Qed.

Lemma join_chars (sep : string) (items : list string) (a : ascii) :
  In a (PyText.chars (PyStr.join sep items)) ->
  In a (PyText.chars sep)
  \/ exists item, In item items /\ In a (PyText.chars item).
Proof.
  induction items as [|x items IH]; cbn [PyStr.join]; [intros []|].
  destruct items as [|y items].
  - intros H. right. exists x. split; [now left|exact H].
  - rewrite !chars_app. intros H.
    apply in_app_or in H as [H|H].
    + right. exists x. split; [now left|exact H].
    + apply in_app_or in H as [H|H]; [now left|].
      destruct (IH H) as [Hs|(item & Hin & Hitem)]; [now left|right].
      exists item. split; [now right|exact Hitem].
Qed.

Lemma result_columns_spec (count i : nat) (results csv_row : list string) :
  exists columns,
    Pipeline.result_columns count i results csv_row = csv_row ++ columns
    /\ List.length columns = count
    /\ Forall one_lined columns.
Proof.
  revert i csv_row; induction count as [|count IH]; intros i csv_row;
    cbn [Pipeline.result_columns].
  - exists []. rewrite app_nil_r. repeat split. constructor.
  - destruct (nth_error results i) as [result|].
    + destruct (IH (S i) (csv_row ++ [Pipeline.one_line result]))
        as (columns & E & Hl & Hf).
      exists (Pipeline.one_line result :: columns).
      rewrite E, <- app_assoc. repeat split; [simpl; lia|].
      constructor; [apply one_line_one_lined|exact Hf].
    + destruct (IH (S i) (csv_row ++ ["No data available"]))
        as (columns & E & Hl & Hf).
      exists ("No data available" :: columns).
      rewrite E, <- app_assoc. repeat split; [simpl; lia|].
      constructor; [|exact Hf].
      unfold one_lined, has_char. cbn. intuition discriminate.
Qed.

End RowFacts.

(** X24. Every row that [create_row] writes has the ten columns of the
    header, the row written after a failure too; and whatever the texts of
    the analysis, its five analysis columns hold on one line each: no
    newline and no carriage return is left in them. *)
Theorem csv_row_columns (row : string -> option string)
  (index message : string) (results search_results : list string) :
  List.length (Pipeline.csv_row row index results search_results)
  = List.length Pipeline.fieldnames
  /\ List.length (Pipeline.error_row index message)
     = List.length Pipeline.fieldnames
  /\ List.length Pipeline.fieldnames = 10
  /\ Forall Shape2.one_lined
            (skipn 5 (Pipeline.csv_row row index results search_results)).
Proof.
  unfold Pipeline.csv_row.
  set (head := [ Pipeline.row_get row "Submission Number" index;
                 Pipeline.row_get row "Device" "Unknown Device";
                 Pipeline.row_get row "Company" "Unknown Company";
                 Pipeline.row_get row "Panel (lead)" "Unknown Category";
                 Pipeline.row_get row "Date of Final Decision"
                   "Unknown Date" ]).
  destruct (result_columns_spec 4 0 results head) as (columns & E & Hl & Hf).
  rewrite E.
  assert (Hlast : forall last,
             Shape2.one_lined last ->
             List.length ((head ++ columns) ++ [last]) = 10
             /\ Forall Shape2.one_lined
                       (skipn 5 ((head ++ columns) ++ [last]))).
  { intros last Hone. rewrite !length_app, Hl. split; [reflexivity|].
    rewrite <- app_assoc.
    change (skipn 5 (head ++ columns ++ [last])) with (columns ++ [last]).
    apply Forall_app. split; [exact Hf|].
    constructor; [exact Hone|constructor]. }
  assert (Hjoined : Shape2.one_lined
                      (PyStr.join " || "
                         (map Pipeline.one_line search_results))).
  { unfold Shape2.one_lined, Shape2.has_char.
    split; intros H; apply join_chars in H as [H|(item & Hin & H)];
      try (cbn in H; intuition discriminate);
      apply in_map_iff in Hin as (x & <- & _);
      now apply one_line_one_lined in H. }
  assert (Hnone : Shape2.one_lined "No security attacks found").
  { unfold Shape2.one_lined, Shape2.has_char. cbn.
    intuition discriminate. }
  destruct search_results as [|s search_results].
  - destruct (Hlast _ Hnone) as [H10 Hone]. now repeat split.
  - destruct (Hlast _ Hjoined) as [H10 Hone]. now repeat split.
Qed.

(** ** Letter case *)

Section CaseFacts.

Import Shape2.

Lemma in_all_chars (a : ascii) : In a all_chars.
Proof.
  unfold all_chars. rewrite <- (ascii_nat_embedding a).
  apply in_map, in_seq. pose proof (nat_ascii_bounded a). lia.
Qed.

Lemma lower_char_space (a : ascii) :
  PyStr.is_space (PyText.lower_char a) = PyStr.is_space a.
Proof.
  assert (H : forallb (fun a => Bool.eqb (PyStr.is_space (PyText.lower_char a))
                                         (PyStr.is_space a)) all_chars
              = true) by (vm_compute; reflexivity).
  rewrite forallb_forall in H. apply Bool.eqb_prop, H, in_all_chars.
Qed.

Lemma lower_char_literal (a c : ascii) :
  (nat_of_ascii c <? 128) = true ->
  Ascii.eqb (PyStr.lower (PyText.lower_char a)) (PyStr.lower c)
  = Ascii.eqb (PyStr.lower a) (PyStr.lower c).
Proof.
  assert (H : forallb
                (fun a =>
                   forallb
                     (fun c =>
                        negb (nat_of_ascii c <? 128)
                        || Bool.eqb
                             (Ascii.eqb (PyStr.lower (PyText.lower_char a))
                                        (PyStr.lower c))
                             (Ascii.eqb (PyStr.lower a) (PyStr.lower c)))
                     all_chars) all_chars
              = true) by (vm_compute; reflexivity).
  rewrite forallb_forall in H. specialize (H a (in_all_chars a)).
  rewrite forallb_forall in H. specialize (H c (in_all_chars c)).
  intros Hc. rewrite Hc in H. cbn [negb orb] in H.
  now apply Bool.eqb_prop.
Qed.

Lemma match_here_lower (p : Re.pattern) (s : string) :
  forallb ascii_item p = true ->
  Re.match_here p (PyText.lower s) = Re.match_here p s.
Proof.
  revert s; induction p as [|[c|] p IH]; intros s Hp; [reflexivity| |].
  - cbn [forallb ascii_item] in Hp. apply andb_true_iff in Hp as [Hc Hp].
    destruct s as [|a s]; cbn [PyText.lower Re.match_here]; [reflexivity|].
    now rewrite (lower_char_literal a c Hc), IH.
  - cbn [forallb ascii_item andb] in Hp. cbn [Re.match_here].
    set (star := fix star (s : string) : bool :=
           Re.match_here p s
           || match s with
              | EmptyString => false
              | String a s' => PyStr.is_space a && star s'
              end).
    assert (Hstar : forall u, star u = Re.match_here p u
                    || match u with
                       | EmptyString => false
                       | String a u' => PyStr.is_space a && star u'
                       end) by (intros [|? ?]; reflexivity).
    induction s as [|a s IHs]; rewrite (Hstar (PyText.lower _)), Hstar,
      (IH _ Hp); [reflexivity|].
    cbn [PyText.lower]. now rewrite IHs, lower_char_space.
Qed.

Lemma search_lower (p : Re.pattern) (s : string) :
  forallb ascii_item p = true ->
  Re.search p (PyText.lower s) = Re.search p s.
Proof.
  intros Hp.
  assert (Hsearch : forall u, Re.search p u = Re.match_here p u
                    || match u with
                       | EmptyString => false
                       | String _ u' => Re.search p u'
                       end) by (intros [|? ?]; reflexivity).
  induction s as [|a s IH]; rewrite (Hsearch (PyText.lower _)), Hsearch,
    (match_here_lower _ _ Hp); [reflexivity|].
  cbn [PyText.lower]. now rewrite IH.
Qed.

Lemma regex_search_lower (ps : list Re.pattern) (s : string) :
  forallb (forallb ascii_item) ps = true ->
  Helper_functions.regex_search (PyText.lower s) ps
  = Helper_functions.regex_search s ps.
Proof.
  induction ps as [|p ps IH]; cbn [forallb Helper_functions.regex_search];
    [reflexivity|].
  intros H. apply andb_true_iff in H as [Hp Hps].
  now rewrite (search_lower p s Hp), IH.
Qed.

Lemma lower_empty (s : string) :
  (PyText.lower s =? "")%string = (s =? "")%string.
Proof. destruct s; reflexivity. Qed.

End CaseFacts.

(** X25. On ASCII text the generic-term filter and the attack classifier
    ignore letter case: a text made of ASCII characters and its lower-cased
    form ([text.lower()]) get the same verdict and the same label.  (Outside
    ASCII, [str.lower()] can change what a case-insensitive pattern
    matches, so the property is stated for ASCII text only.) *)
Theorem patterns_ignore_case (text : string) :
  Shape2.ascii_text text = true ->
  Analyser.find_genericwords (PyText.lower text)
  = Analyser.find_genericwords text
  /\ Analyser.__find_attack_type (PyText.lower text)
     = Analyser.__find_attack_type text.
Proof.
  intros _.
  unfold Analyser.find_genericwords, Analyser.__find_attack_type.
  rewrite lower_empty, !regex_search_lower by reflexivity.
  split; reflexivity.
Qed.

Lemma patterns_ignore_case_witness :
  Shape2.ascii_text "Data POISONING of Machine  Learning models" = true
  /\ Analyser.find_genericwords
       (PyText.lower "Data POISONING of Machine  Learning models")
     = Analyser.find_genericwords "Data POISONING of Machine  Learning models"
  /\ Analyser.__find_attack_type
       (PyText.lower "Data POISONING of Machine  Learning models")
     = Analyser.__find_attack_type
         "Data POISONING of Machine  Learning models".
Proof.
  split; [reflexivity|].
  apply (patterns_ignore_case "Data POISONING of Machine  Learning models").
  reflexivity.
Defined.

(** ** Cleaning the text of the document *)

Section CleanFacts.

Import PDF_Reader_2.

Lemma app_length_string (u s : string) :
  String.length (u ++ s) = String.length u + String.length s.
Proof.
  induction u as [|c u IH]; [reflexivity|].
  cbn [String.append String.length]. now rewrite IH.
Qed.

Lemma str_in_app_l (w u s : string) :
  PyStr.str_in w s = true -> PyStr.str_in w (u ++ s) = true.
Proof.
  intros H. induction u as [|c u IH]; [exact H|].
  cbn [String.append PyStr.str_in]. rewrite IH. apply orb_true_r.
Qed.

Lemma spaceless_tail (a : ascii) (w : string) :
  spaceless (String a w) -> a <> " "%char /\ spaceless w.
Proof.
  unfold spaceless, PyText.chars. cbn [list_ascii_of_string].
  intros H. split.
  - intros ->. apply H. now left.
  - intros Hin. apply H. now right.
Qed.

Lemma spaceless_prefix_space (w t : string) :
  spaceless w -> String.prefix w (String " " t) = true -> w = "".
Proof.
  destruct w as [|a w]; [reflexivity|].
  intros Hw H. apply spaceless_tail in Hw as [Ha _].
  simpl in H. destruct (Ascii.ascii_dec a " "); [contradiction|discriminate].
Qed.

Lemma blanked_prefix (s t : string) :
  blanked s t ->
  forall w, spaceless w -> String.prefix w t = true ->
            String.prefix w s = true.
Proof.
  induction 1 as [|c s t Hb IH|u s t Hu Hb IH]; intros w Hw H.
  - exact H.
  - destruct w as [|a w]; [reflexivity|].
    apply spaceless_tail in Hw as [_ Hw].
    simpl in H |- *. destruct (Ascii.ascii_dec a c); [|discriminate].
    now apply IH.
  - rewrite (spaceless_prefix_space w t Hw H).
    now destruct (u ++ s)%string.
Qed.

Lemma blanked_str_in (s t : string) :
  blanked s t ->
  forall w, spaceless w -> w <> "" -> PyStr.str_in w t = true ->
            PyStr.str_in w s = true.
Proof.
  induction 1 as [|c s t Hb IH|u s t Hu Hb IH]; intros w Hw Hne H.
  - exact H.
  - cbn [PyStr.str_in] in H |- *.
    apply orb_true_iff in H as [H|H]; apply orb_true_iff.
    + left. apply (blanked_prefix _ _ (blanked_copy c s t Hb) w Hw H).
    + right. now apply IH.
  - cbn [PyStr.str_in] in H. apply orb_true_iff in H as [H|H].
    + now apply spaceless_prefix_space in H.
    + apply str_in_app_l. now apply IH.
Qed.

Lemma blanked_chars (s t : string) (a : ascii) :
  blanked s t -> In a (PyText.chars t) ->
  a = " "%char \/ In a (PyText.chars s).
Proof.
  induction 1 as [|c s t Hb IH|u s t Hu Hb IH]; intros Hin.
  - now right.
  - destruct Hin as [E|Hin]; [right; now left|].
    destruct (IH Hin) as [E|E]; [now left|right; now right].
  - destruct Hin as [E|Hin]; [now left|].
    destruct (IH Hin) as [E|E]; [now left|right].
    rewrite chars_app. apply in_or_app. now right.
Qed.

Lemma blanked_length (s t : string) :
  blanked s t -> String.length t <= String.length s.
Proof.
  induction 1 as [|c s t Hb IH|u s t Hu Hb IH]; cbn [String.length].
  - apply Nat.le_refl.
  - lia.
  - rewrite app_length_string. destruct u as [|c u]; [contradiction|].
    cbn [String.length]. lia.
Qed.

Lemma blanked_one (c : ascii) (s t : string) :
  blanked s t -> blanked (String c s) (String " " t).
Proof.
  intros H. apply (blanked_cut (String c "") s t); [discriminate|exact H].
Qed.

Lemma remove_non_ascii_blanked (text : string) :
  blanked text (__remove_non_ascii text).
Proof.
  induction text as [|c text IH]; cbn [__remove_non_ascii].
  - constructor.
  - destruct (nat_of_ascii c <? 128).
    + now constructor.
    + now apply blanked_one.
Qed.

Lemma replace_char_blanked (old : ascii) (s : string) :
  blanked s (PyStr.replace_char old " " s).
Proof.
  induction s as [|c s IH]; cbn [PyStr.replace_char].
  - constructor.
  - destruct (Ascii.eqb c old).
    + now apply blanked_one.
    + now constructor.
Qed.

Lemma sub_runs_blanked (class : ascii -> bool) (s : string) :
  blanked s (sub_runs class false s)
  /\ exists u s', s = (u ++ s')%string
                  /\ blanked s' (sub_runs class true s).
Proof.
  induction s as [|c s [IHf (u & s' & E & IHt)]]; cbn [sub_runs].
  - split; [constructor|]. exists "", "". split; [reflexivity|constructor].
  - destruct (class c).
    + split.
      * rewrite E at 1. apply (blanked_cut (String c u) s'); [discriminate|].
        exact IHt.
      * exists (String c u), s'. split; [now rewrite E at 1|exact IHt].
    + split; [now constructor|].
      exists "", (String c s). split; [reflexivity|now constructor].
Qed.

Lemma sub_no_blanked (s : string) :
  blanked s (sub_no false s)
  /\ exists u s', s = (u ++ s')%string /\ blanked s' (sub_no true s).
Proof.
  induction s as [|c s [IHf (u & s' & E & IHt)]]; cbn [sub_no].
  - split; [constructor|]. exists "", "". split; [reflexivity|constructor].
  - assert (Hcut : blanked (String c s) (String " " (sub_no true s))).
    { rewrite E at 1. apply (blanked_cut (String c u) s'); [discriminate|].
      exact IHt. }
    split.
    + cbn [andb]. destruct (is_K c && starts_with_digit s);
        [exact Hcut|now constructor].
    + destruct (PyText.is_digit c); cbn [andb].
      * exists (String c u), s'. split; [now rewrite E at 1|exact IHt].
      * exists "", (String c s). split; [reflexivity|].
        destruct (is_K c && starts_with_digit s);
          [exact Hcut|now constructor].
Qed.

Lemma prefix_cons (a c : ascii) (w s : string) :
  String.prefix (String a w) (String c s) = Ascii.eqb c a && String.prefix w s.
Proof.
  simpl. destruct (Ascii.ascii_dec a c) as [->|Hne].
  - now rewrite Ascii.eqb_refl.
  - destruct (Ascii.eqb_spec c a) as [->|_]; [now elim Hne|reflexivity].
Qed.

Lemma sub_the_cases (c : ascii) (s : string) :
  (exists rest, String c s = ("the" ++ rest)%string
                /\ sub_the (String c s) = String " " (sub_the rest))
  \/ (String.prefix "the" (String c s) = false
      /\ sub_the (String c s) = String c (sub_the s)).
Proof.
  destruct s as [|c2 [|c3 rest]].
  - right. split; [|reflexivity]. rewrite prefix_cons. apply andb_false_r.
  - right. split; [|reflexivity]. rewrite !prefix_cons.
    cbn [String.prefix]. now rewrite !andb_false_r.
  - assert (Hstep : sub_the (String c (String c2 (String c3 rest)))
                    = if Ascii.eqb c "t" && Ascii.eqb c2 "h"
                         && Ascii.eqb c3 "e"
                      then String " " (sub_the rest)
                      else String c (sub_the (String c2 (String c3 rest))))
      by reflexivity.
    rewrite Hstep, !prefix_cons.
    replace (String.prefix "" rest) with true by now destruct rest.
    rewrite andb_true_r, andb_assoc.
    destruct (Ascii.eqb c "t" && Ascii.eqb c2 "h" && Ascii.eqb c3 "e")
      eqn:Hhit; [left|right; split; reflexivity].
    apply andb_true_iff in Hhit as [Hhit H3].
    apply andb_true_iff in Hhit as [H1 H2].
    apply Ascii.eqb_eq in H1, H2, H3. subst.
    exists rest. split; reflexivity.
Qed.

Lemma sub_an_cases (c : ascii) (s : string) :
  (exists rest, String c s = ("an" ++ rest)%string
                /\ sub_an (String c s) = String " " (sub_an rest))
  \/ (String.prefix "an" (String c s) = false
      /\ sub_an (String c s) = String c (sub_an s)).
Proof.
  destruct s as [|c2 rest].
  - right. split; [|reflexivity]. rewrite prefix_cons. apply andb_false_r.
  - assert (Hstep : sub_an (String c (String c2 rest))
                    = if Ascii.eqb c "a" && Ascii.eqb c2 "n"
                      then String " " (sub_an rest)
                      else String c (sub_an (String c2 rest)))
      by reflexivity.
    rewrite Hstep, !prefix_cons.
    replace (String.prefix "" rest) with true by now destruct rest.
    rewrite andb_true_r.
    destruct (Ascii.eqb c "a" && Ascii.eqb c2 "n")
      eqn:Hhit; [left|right; split; reflexivity].
    apply andb_true_iff in Hhit as [H1 H2].
    apply Ascii.eqb_eq in H1, H2. subst.
    exists rest. split; reflexivity.
Qed.

Lemma sub_the_facts (n : nat) (s : string) :
  String.length s <= n ->
  blanked s (sub_the s) /\ PyStr.str_in "the" (sub_the s) = false.
Proof.
  revert s; induction n as [|n IH]; intros [|c s] Hl;
    try (split; [constructor|reflexivity]);
    cbn [String.length] in Hl; [lia|].
  destruct (sub_the_cases c s) as [(rest & E & ->)|[Hp ->]].
  - assert (Hr : String.length rest <= n).
    { apply (f_equal String.length) in E. cbn [String.length] in E.
      simpl in E. lia. }
    destruct (IH rest Hr) as [Hb Hin]. split.
    + rewrite E. apply (blanked_cut "the" rest); [discriminate|exact Hb].
    + cbn [PyStr.str_in]. rewrite Hin. reflexivity.
  - destruct (IH s ltac:(lia)) as [Hb Hin]. split; [now constructor|].
    cbn [PyStr.str_in]. rewrite Hin, orb_false_r.
    destruct (String.prefix "the" (String c (sub_the s))) eqn:E;
      [|reflexivity].
    rewrite <- Hp. symmetry.
    apply (blanked_prefix _ _ (blanked_copy c _ _ Hb)); [|exact E].
    unfold spaceless. simpl. intros [H|[H|[H|[]]]]; discriminate.
Qed.

Lemma sub_an_facts (n : nat) (s : string) :
  String.length s <= n ->
  blanked s (sub_an s) /\ PyStr.str_in "an" (sub_an s) = false.
Proof.
  revert s; induction n as [|n IH]; intros [|c s] Hl;
    try (split; [constructor|reflexivity]);
    cbn [String.length] in Hl; [lia|].
  destruct (sub_an_cases c s) as [(rest & E & ->)|[Hp ->]].
  - assert (Hr : String.length rest <= n).
    { apply (f_equal String.length) in E. cbn [String.length] in E.
      simpl in E. lia. }
    destruct (IH rest Hr) as [Hb Hin]. split.
    + rewrite E. apply (blanked_cut "an" rest); [discriminate|exact Hb].
    + cbn [PyStr.str_in]. rewrite Hin. reflexivity.
  - destruct (IH s ltac:(lia)) as [Hb Hin]. split; [now constructor|].
    cbn [PyStr.str_in]. rewrite Hin, orb_false_r.
    destruct (String.prefix "an" (String c (sub_an s))) eqn:E;
      [|reflexivity].
    rewrite <- Hp. symmetry.
    apply (blanked_prefix _ _ (blanked_copy c _ _ Hb)); [|exact E].
    unfold spaceless. simpl. intros [H|[H|[]]]; discriminate.
Qed.

Lemma remove_grammar_blanked (text : string) :
  blanked (sub_the text) (__remove_grammar text)
  /\ blanked text (sub_the text).
Proof.
  unfold __remove_grammar. split.
  - apply (sub_an_facts (String.length (sub_the text))), Nat.le_refl.
  - apply (sub_the_facts (String.length text)), Nat.le_refl.
Qed.

Lemma remove_punc_blanked (text : string) :
  blanked (PyStr.replace_char PyStr.newline " " text) (__remove_punc text)
  /\ blanked text (PyStr.replace_char PyStr.newline " " text).
Proof.
  split; [apply sub_runs_blanked|apply replace_char_blanked].
Qed.

Lemma sub_runs_chars (class : ascii -> bool) (b : bool) (s : string)
      (a : ascii) :
  In a (PyText.chars (sub_runs class b s)) ->
  a = " "%char \/ class a = false.
Proof.
  unfold PyText.chars. revert b; induction s as [|c s IH]; intros b;
    cbn [sub_runs]; [intros []|].
  destruct (class c) eqn:Hc.
  - destruct b; [apply IH|].
    intros [E|H]; [now left|now apply IH in H].
  - intros [E|H]; [right; now subst a|now apply IH in H].
Qed.

Lemma remove_non_ascii_chars (text : string) (a : ascii) :
  In a (PyText.chars (__remove_non_ascii text)) -> nat_of_ascii a < 128.
Proof.
  unfold PyText.chars. induction text as [|c text IH];
    cbn [__remove_non_ascii list_ascii_of_string]; [intros []|].
  intros [E|H]; [|now apply IH]. subst a.
  destruct (nat_of_ascii c <? 128) eqn:Hc.
  - now apply Nat.ltb_lt.
  - vm_compute. lia.
Qed.

Lemma digit_not_space (d : ascii) :
  PyText.is_digit d = true -> d <> " "%char.
Proof. intros H ->. discriminate. Qed.

Lemma is_K_not_space (k : ascii) : is_K k = true -> k <> " "%char.
Proof. intros H ->. discriminate. Qed.

Lemma number_spaceless (k d : ascii) :
  is_K k = true -> PyText.is_digit d = true ->
  spaceless (String k (String d "")).
Proof.
  intros Hk Hd [E|[E|[]]].
  - now apply (is_K_not_space k).
  - now apply (digit_not_space d).
Qed.

Lemma sub_no_number (k d : ascii) (s : string) :
  is_K k = true -> PyText.is_digit d = true ->
  forall b, PyStr.str_in (String k (String d "")) (sub_no b s) = false.
Proof.
  intros Hk Hd. induction s as [|c s IH]; intros b; cbn [sub_no].
  - reflexivity.
  - destruct (b && PyText.is_digit c); [apply IH|].
    destruct (is_K c && starts_with_digit s) eqn:Hc; cbn [PyStr.str_in];
      rewrite IH, orb_false_r.
    + rewrite prefix_cons.
      destruct (Ascii.eqb_spec " " k) as [E|]; [|reflexivity].
      now elim (is_K_not_space k).
    + destruct (String.prefix _ _) eqn:E; [|reflexivity].
      apply (blanked_prefix _ _
               (blanked_copy c _ _ (proj1 (sub_no_blanked s)))) in E;
        [|now apply number_spaceless].
      rewrite prefix_cons in E. apply andb_true_iff in E as [E1 E2].
      apply Ascii.eqb_eq in E1. subst c.
      destruct s as [|c2 s]; [simpl in E2; discriminate|].
      rewrite prefix_cons in E2. apply andb_true_iff in E2 as [E2 _].
      apply Ascii.eqb_eq in E2. subst c2.
      cbn [starts_with_digit] in Hc. rewrite Hk, Hd in Hc. discriminate.
Qed.

Lemma clean_paragraph_steps (text : string) :
  __clean_paragraph (Some text) = ""
  \/ __clean_paragraph (Some text)
     = __remove_grammar
         (__remove_punc (__remove_sub_no (__remove_non_ascii text))).
Proof.
  unfold __clean_paragraph.
  destruct (String.eqb (PyStr.strip text) ""); [now left|now right].
Qed.

End CleanFacts.

(** X26. A cleaned text has only ASCII characters and none of the
    punctuation marks, tabs or line ends that [__remove_punc] replaces, and
    it is never longer than the text it was made from ([None] gives the
    empty text). *)
Theorem clean_paragraph_chars (paragraph : option string) :
  Forall (fun a => nat_of_ascii a < 128 /\ PDF_Reader_2.is_punc a = false)
         (PyText.chars (PDF_Reader_2.__clean_paragraph paragraph))
  /\ String.length (PDF_Reader_2.__clean_paragraph paragraph)
     <= match paragraph with
        | Some text => String.length text
        | None => 0
        end.
Proof.
  destruct paragraph as [text|]; [|split; [constructor|apply Nat.le_refl]].
  destruct (clean_paragraph_steps text) as [->| ->];
    [split; [constructor|apply Nat.le_0_l]|].
  destruct (remove_grammar_blanked
              (PDF_Reader_2.__remove_punc
                 (PDF_Reader_2.__remove_sub_no
                    (PDF_Reader_2.__remove_non_ascii text))))
    as [Han Hthe].
  destruct (remove_punc_blanked
              (PDF_Reader_2.__remove_sub_no
                 (PDF_Reader_2.__remove_non_ascii text)))
    as [Hruns Hnl].
  pose proof (proj1 (sub_no_blanked
                       (PDF_Reader_2.__remove_non_ascii text))) as Hno.
  pose proof (remove_non_ascii_blanked text) as Hascii.
  split.
  - apply Forall_forall. intros a Ha.
    apply (blanked_chars _ _ a Han) in Ha.
    destruct Ha as [->|Ha]; [split; [vm_compute; lia|reflexivity]|].
    apply (blanked_chars _ _ a Hthe) in Ha.
    destruct Ha as [->|Ha]; [split; [vm_compute; lia|reflexivity]|].
    split.
    + apply (blanked_chars _ _ a Hruns) in Ha.
      destruct Ha as [->|Ha]; [vm_compute; lia|].
      apply (blanked_chars _ _ a Hnl) in Ha.
      destruct Ha as [->|Ha]; [vm_compute; lia|].
      apply (blanked_chars _ _ a Hno) in Ha.
      destruct Ha as [->|Ha]; [vm_compute; lia|].
      now apply remove_non_ascii_chars in Ha.
    + apply sub_runs_chars in Ha. destruct Ha as [->|Ha];
        [reflexivity|exact Ha].
  - apply blanked_length in Han, Hthe, Hruns, Hnl, Hno, Hascii.
    unfold PDF_Reader_2.__remove_sub_no in *. lia.
Qed.

(** X27. A cleaned text contains neither "the" nor "an", not even inside a
    word: [__remove_grammar] replaces every occurrence by a space. *)
Theorem clean_paragraph_grammar (paragraph : option string) :
  PyStr.str_in "the" (PDF_Reader_2.__clean_paragraph paragraph) = false
  /\ PyStr.str_in "an" (PDF_Reader_2.__clean_paragraph paragraph) = false.
Proof.
  destruct paragraph as [text|]; [|split; reflexivity].
  destruct (clean_paragraph_steps text) as [->| ->]; [split; reflexivity|].
  set (t := PDF_Reader_2.__remove_punc _).
  unfold PDF_Reader_2.__remove_grammar.
  destruct (sub_the_facts (String.length t) t (Nat.le_refl _))
    as [_ Hthe].
  destruct (sub_an_facts _ (PDF_Reader_2.sub_the t) (Nat.le_refl _))
    as [Hb Han].
  split; [|exact Han].
  destruct (PyStr.str_in "the"
              (PDF_Reader_2.sub_an (PDF_Reader_2.sub_the t))) eqn:E;
    [|reflexivity].
  apply (blanked_str_in _ _ Hb) in E; [congruence| |discriminate].
  unfold PDF_Reader_2.spaceless. simpl.
  intros [H|[H|[H|[]]]]; discriminate.
Qed.

(** X28. A cleaned text contains no submission number: nowhere is a letter
    K, capital or small, followed by a digit. *)
Theorem clean_paragraph_numbers (paragraph : option string) (k d : ascii) :
  PDF_Reader_2.is_K k = true -> PyText.is_digit d = true ->
  PyStr.str_in (String k (String d ""))
               (PDF_Reader_2.__clean_paragraph paragraph) = false.
Proof.
  intros Hk Hd.
  assert (Hempty : PyStr.str_in (String k (String d "")) "" = false)
    by reflexivity.
  destruct paragraph as [text|]; [|exact Hempty].
  destruct (clean_paragraph_steps text) as [->| ->]; [exact Hempty|].
  pose proof (number_spaceless k d Hk Hd) as Hw.
  set (t := PDF_Reader_2.__remove_non_ascii text).
  destruct (remove_grammar_blanked
              (PDF_Reader_2.__remove_punc (PDF_Reader_2.__remove_sub_no t)))
    as [Han Hthe].
  destruct (remove_punc_blanked (PDF_Reader_2.__remove_sub_no t))
    as [Hruns Hnl].
  clear Hempty.
  destruct (PyStr.str_in _ _) eqn:E; [|reflexivity].
  apply (blanked_str_in _ _ Han _ Hw) in E; [|discriminate].
  apply (blanked_str_in _ _ Hthe _ Hw) in E; [|discriminate].
  apply (blanked_str_in _ _ Hruns _ Hw) in E; [|discriminate].
  apply (blanked_str_in _ _ Hnl _ Hw) in E; [|discriminate].
  unfold PDF_Reader_2.__remove_sub_no in E.
  rewrite (sub_no_number k d t Hk Hd false) in E. discriminate.
Qed.

Lemma clean_paragraph_numbers_witness :
  PyStr.str_in "K1"
    (PDF_Reader_2.__clean_paragraph (Some "see K123456, and k9.")) = false.
Proof.
  apply (clean_paragraph_numbers (Some "see K123456, and k9.") "K" "1");
    reflexivity.
Defined.
